(** * Leaflet.timespan: the time-indexed layer and its slider control

    A shallow embedding of [src/TimelineSliderControl.ts] (the control
    [L.TimelineSliderControl] and the layer [L.Timeline]).

    Objects are mutable and shared in the source.  Features and timelines are
    therefore references (addresses); a timeline's state lives in a store
    indexed by its reference, and the control only holds references.

    Numbers: timestamps are integer milliseconds; the code itself introduces
    [Infinity] and [-Infinity] as sentinels, and [new Date(x).getTime()],
    [Math.min], [Math.max] and the comparator [a - b] can give [NaN], so
    the three are values of [num].  Every comparison with [NaN] is false,
    [NaN !== NaN] is true and [NaN] is falsy. *)

From stdpp Require Import base option numbers list sorting functions strings gmap fin_maps.

Local Open Scope Z_scope.
Set Warnings "-clear-no-such-hyp".

(* ===================================================================== *)
(** * JavaScript numbers *)
(* ===================================================================== *)

Module Number.

Inductive num : Type :=
| NegInf : num
| Fin (z : Z) : num
| PosInf : num
| NaN : num.

#[global] Instance num_eq_dec : EqDecision num.
Proof. solve_decision. Defined.

#[global] Instance num_inhabited : Inhabited num := populate (Fin 0).

(** [a < b] *)
Definition ltb (a b : num) : bool :=
  match a, b with
  | NaN, _ | _, NaN => false
  | NegInf, NegInf => false
  | NegInf, _ => true
  | Fin x, Fin y => bool_decide (x < y)
  | Fin _, PosInf => true
  | _, _ => false
  end.

(** [a <= b] *)
Definition leb (a b : num) : bool :=
  match a, b with
  | NaN, _ | _, NaN => false
  | NegInf, _ => true
  | Fin x, Fin y => bool_decide (x <= y)
  | Fin _, PosInf => true
  | PosInf, PosInf => true
  | _, _ => false
  end.

(** [a > b] and [a >= b] *)
Definition gtb (a b : num) : bool := ltb b a.
Definition geb (a b : num) : bool := leb b a.

(** [a === b] and [a !== b] on numbers: [NaN] equals nothing, itself
    included. *)
Definition eqb (a b : num) : bool :=
  match a, b with
  | NaN, _ | _, NaN => false
  | _, _ => bool_decide (a = b)
  end.
Definition neqb (a b : num) : bool := negb (eqb a b).

(** Truthiness of a number: [0] and [NaN] are the falsy ones. *)
Definition truthy (a : num) : bool :=
  match a with
  | NaN => false
  | _ => negb (eqb a (Fin 0))
  end.

(** [x || d] where [x] may be [undefined]. *)
Definition or_else (x : option num) (d : num) : num :=
  match x with
  | Some v => if truthy v then v else d
  | None => d
  end.

(** [Math.min] and [Math.max]: [NaN] as soon as an argument is [NaN]. *)
Definition min (a b : num) : num :=
  match a, b with
  | NaN, _ | _, NaN => NaN
  | _, _ => if ltb b a then b else a
  end.
Definition max (a b : num) : num :=
  match a, b with
  | NaN, _ | _, NaN => NaN
  | _, _ => if ltb a b then b else a
  end.

(** [a - b]: [NaN] for the difference of equal infinities and as soon as
    an argument is [NaN]. *)
Definition sub (a b : num) : num :=
  match a, b with
  | NaN, _ | _, NaN => NaN
  | Fin x, Fin y => Fin (x - y)
  | PosInf, PosInf => NaN
  | NegInf, NegInf => NaN
  | PosInf, _ => PosInf
  | NegInf, _ => NegInf
  | Fin _, PosInf => NegInf
  | Fin _, NegInf => PosInf
  end.

(** The abstract operation SortCompare of [Array.prototype.sort]: the sign
    of the comparator's result, a [NaN] result counting as [+0]. *)
Definition SortCompare (comparefn : num -> num -> num) (x y : num) : Z :=
  match comparefn x y with
  | NaN => 0
  | NegInf => -1
  | Fin v => Z.sgn v
  | PosInf => 1
  end.

(** [x] may stay in front of [y] *)
Definition sort_le (comparefn : num -> num -> num) (x y : num) : Prop :=
  SortCompare comparefn x y <= 0.

#[global] Instance sort_le_dec comparefn x y : Decision (sort_le comparefn x y).
Proof. unfold sort_le. apply _. Defined.

(** [arr.sort(comparefn)], as a stable merge sort.  For a comparator that
    is not consistent on the values of [arr] (as [a - b] is not when one of
    them is [NaN]) the language leaves the order to the implementation; the
    statements below that depend on the order are about arrays of
    numbers. *)
Definition sort (comparefn : num -> num -> num) (arr : list num) : list num :=
  merge_sort (sort_le comparefn) arr.

(** The order of the values, as a relation. *)
Definition lt (a b : num) : Prop := ltb a b = true.
Definition le (a b : num) : Prop := leb a b = true.

(** A value other than [NaN]. *)
Definition is_number (a : num) : Prop := a ≠ NaN.

#[global] Instance is_number_dec a : Decision (is_number a).
Proof. unfold is_number. apply _. Defined.

End Number.
Import Number.

(* ===================================================================== *)
(** * Features and the host environment *)
(* ===================================================================== *)

(** A GeoJSON feature is an object; [===] on features compares addresses. *)
Definition Feature : Type := nat.

(** A time given by a caller: [number | string]. *)
Inductive Value : Type :=
| VNum (n : num)
| VStr (s : string).

(** [feature.properties] as far as the code looks at it: the keys [start]
    and [end] may each be absent. *)
Module Properties.
Record t : Type := mk { start : option Value; end_ : option Value }.
End Properties.

(** What the code takes from outside: the content of the feature objects and
    the date conversion [new Date(v).getTime()], which is [NaN] for a value
    that is no date. *)
Class Host : Type := {
  Date_getTime : Value -> num;
  properties : Feature -> option Properties.t
}.

Module TimeBounds.
Record t : Type := mk { start : num; end_ : num }.
End TimeBounds.

(* ===================================================================== *)
(** * The interval tree (package diesal) *)
(* ===================================================================== *)

Module IntervalTree.

(** Modelled from the spec: the interval tree is the external package
    [diesal], absent from the sources.  The spec describes it as a
    collection of entries [(start, end, feature)], duplicates allowed, with
    bulk insertion and a query returning every entry whose closed interval
    intersects the closed query interval. *)
Definition t : Type := list (num * num * Feature).

(** Modelled from the spec: [new IntervalTree()] of the absent package, the
    tree without entries. *)
Definition empty : t := [].

(** Modelled from the spec: [insert(low, high, data)] of the absent
    package; every call adds an entry of its own, also for an interval that
    is already there. *)
Definition insert (low high : num) (data : Feature) (tree : t) : t :=
  tree ++ [(low, high, data)].

(** Modelled from the spec: the intersection test of the absent package,
    on closed intervals, touching end points counting as overlap: the
    entry starts at or before the end of the query and ends at or after its
    start. *)
Definition intersects (qs qe : num) (entry : num * num * Feature) : bool :=
  leb entry.1.1 qe && geb entry.1.2 qs.

(** Modelled from the spec: [overlap(qs, qe)] of the absent package, a new
    array with the data of every entry that intersects the query. *)
Definition overlap (qs qe : num) (tree : t) : list Feature :=
  snd <$> filter (fun entry => intersects qs qe entry = true) tree.

End IntervalTree.

(* ===================================================================== *)
(** * The layer group of the map view (Leaflet) *)
(* ===================================================================== *)

Module LayerGroup.

(** A displayed layer: its stamp and the feature bound to it. *)
Record Layer : Type := mkLayer { id : nat; feature : Feature }.

(** Modelled from the spec: the map view is Leaflet's [L.GeoJSON], absent
    from the sources.  The spec has it accept the commands "draw this
    feature" and "remove this feature"; the group maps the stamp of every
    displayed layer to the feature the layer was made from. *)
Definition t : Type := gmap nat Feature.

(** Modelled from the spec: the absent map view with nothing displayed. *)
Definition empty : t := (∅ : gmap nat Feature).

Definition by_id (a b : Layer) : Prop := (id a <= id b)%nat.

#[global] Instance by_id_dec a b : Decision (by_id a b).
Proof. unfold by_id. apply _. Defined.

(** Modelled from the spec: [getLayers()] of the absent map view, the
    displayed layers by increasing stamp. *)
Definition getLayers (g : gmap nat Feature) : list Layer :=
  merge_sort by_id ((fun p => mkLayer p.1 p.2) <$> map_to_list g).

(** Modelled from the spec: [removeLayer(layer)] of the absent map view,
    the command "remove this feature". *)
Definition removeLayer (layer : Layer) (g : gmap nat Feature) : gmap nat Feature :=
  delete (id layer) g.

(** Modelled from the spec: [addData(feature)] of the absent map view, the
    command "draw this feature": a new layer, bound to [feature], under a
    stamp that no displayed layer has. *)
Definition addData (f : Feature) (g : gmap nat Feature) : gmap nat Feature :=
  <[fresh (dom g) := f]> g.

End LayerGroup.

(** What a timeline tells the map view and its observers, in order. *)
Inductive Event : Type :=
| RemoveLayer (layer : LayerGroup.Layer)
| AddData (feature : Feature)
| Fire (type : string).

(* ===================================================================== *)
(** * L.Timeline *)
(* ===================================================================== *)

Module TimelineOptions.
Record t : Type := mk {
  drawOnSetTime : option bool;
  getInterval : option (Feature -> option TimeBounds.t);
  start : option num;
  end_ : option num
}.

Definition none : t := mk None None None None.

(** [L.Util.setOptions(this, options)] on top of the options already set *)
Definition setOptions (current options : t) : t :=
  mk (drawOnSetTime options ∪ drawOnSetTime current)
     (getInterval options ∪ getInterval current)
     (start options ∪ start current)
     (end_ options ∪ end_ current).
End TimelineOptions.

Module Timeline.

Record t : Type := mk {
  options : TimelineOptions.t;
  times : list num;
  ranges : IntervalTree.t;
  start : num;
  end_ : num;
  timeStart : num;
  timeEnd : num;
  layers : LayerGroup.t;
  trace : list Event
}.

Definition set_times (v : list num) (this : t) : t :=
  mk (options this) v (ranges this) (start this) (end_ this)
     (timeStart this) (timeEnd this) (layers this) (trace this).
Definition set_ranges (v : IntervalTree.t) (this : t) : t :=
  mk (options this) (times this) v (start this) (end_ this)
     (timeStart this) (timeEnd this) (layers this) (trace this).
Definition set_start (v : num) (this : t) : t :=
  mk (options this) (times this) (ranges this) v (end_ this)
     (timeStart this) (timeEnd this) (layers this) (trace this).
Definition set_end (v : num) (this : t) : t :=
  mk (options this) (times this) (ranges this) (start this) v
     (timeStart this) (timeEnd this) (layers this) (trace this).
Definition set_timeStart (v : num) (this : t) : t :=
  mk (options this) (times this) (ranges this) (start this) (end_ this)
     v (timeEnd this) (layers this) (trace this).
Definition set_timeEnd (v : num) (this : t) : t :=
  mk (options this) (times this) (ranges this) (start this) (end_ this)
     (timeStart this) v (layers this) (trace this).

(** The methods that a timeline inherits from the layer group, and [fire]:
    each acts on the layer group of the timeline and is recorded in its
    trace. *)
Definition getLayers (this : t) : list LayerGroup.Layer :=
  LayerGroup.getLayers (layers this).
Definition removeLayer (layer : LayerGroup.Layer) (this : t) : t :=
  mk (options this) (times this) (ranges this) (start this) (end_ this)
     (timeStart this) (timeEnd this)
     (LayerGroup.removeLayer layer (layers this))
     (trace this ++ [RemoveLayer layer]).
Definition addData (feature : Feature) (this : t) : t :=
  mk (options this) (times this) (ranges this) (start this) (end_ this)
     (timeStart this) (timeEnd this)
     (LayerGroup.addData feature (layers this))
     (trace this ++ [AddData feature]).
Definition fire (type : string) (this : t) : t :=
  mk (options this) (times this) (ranges this) (start this) (end_ this)
     (timeStart this) (timeEnd this) (layers this)
     (trace this ++ [Fire type]).

Section WithHost.
Context `{Host}.

(** The default [_getInterval]: both keys present, or [false]. *)
Definition default_getInterval (feature : Feature) : option TimeBounds.t :=
  match properties feature with
  | Some p =>
      match Properties.start p, Properties.end_ p with
      | Some s, Some e => Some (TimeBounds.mk (Date_getTime s) (Date_getTime e))
      | _, _ => None
      end
  | None => None
  end.

(** [this._getInterval], replaced in [initialize] when the option is set *)
Definition _getInterval (this : t) (feature : Feature) : option TimeBounds.t :=
  match TimelineOptions.getInterval (options this) with
  | Some g => g feature
  | None => default_getInterval feature
  end.

(** The body of the [forEach] of [_process]; [start] and [end] are the
    local variables of [_process]. *)
Definition process_feature (acc : t * num * num) (feature : Feature) : t * num * num :=
  let '(this, start, end_) := acc in
  match _getInterval this feature with
  | None => acc
  | Some interval =>
      let this :=
        set_ranges (IntervalTree.insert (TimeBounds.start interval)
                      (TimeBounds.end_ interval) feature (ranges this)) this in
      let this := set_times (times this ++ [TimeBounds.start interval]) this in
      let this := set_times (times this ++ [TimeBounds.end_ interval]) this in
      (this, min start (TimeBounds.start interval),
             max end_ (TimeBounds.end_ interval))
  end.

(** The callback of the [reduce] that removes repeated times. *)
Definition dedupe_step (newList : list num) (ix : nat * num) : list num :=
  let '(i, x) := ix in
  if bool_decide (i = 0%nat) then newList
  else
    match last newList with
    | Some lastTime => if neqb lastTime x then newList ++ [x] else newList
    | None => newList ++ [x]
    end.

Definition _process (data : list Feature) (this : t) : t :=
  let '(this, start, end_) := foldl process_feature (this, PosInf, NegInf) data in
  let this := set_start (or_else (TimelineOptions.start (options this)) start) this in
  let this := set_end (or_else (TimelineOptions.end_ (options this)) end_) this in
  let this := set_timeStart (Timeline.start this) this in
  let this := set_timeEnd (Timeline.end_ this) this in
  if bool_decide (length (times this) = 0%nat) then this
  else
    let sorted := sort sub (times this) in
    set_times (foldl dedupe_step [sorted !!! 0%nat] (imap pair sorted)) this.

Definition defaultOptions : TimelineOptions.t :=
  TimelineOptions.mk (Some true) None None None.

(** The constructor, on a feature collection ([geojson] is given, so
    [_process] runs).  The four bounds are [undefined] until [_process]
    assigns them; nothing reads them before, and the record starts them
    at 0. *)
Definition initialize (geojson : list Feature) (options : TimelineOptions.t) : t :=
  let this :=
    mk (TimelineOptions.setOptions defaultOptions options)
       [] IntervalTree.empty (Fin 0) (Fin 0) (Fin 0) (Fin 0)
       LayerGroup.empty [] in
  _process geojson this.

(** The inner [for] of [updateDisplayedLayers]: the first [j] with
    [layer.feature === features[j]] is spliced out; [None] when no [j]
    matches. *)
Fixpoint find_splice (f : Feature) (features : list Feature) : option (list Feature) :=
  match features with
  | [] => None
  | g :: rest =>
      if decide (f = g) then Some rest
      else cons g <$> find_splice f rest
  end.

(** The callback of [layers.forEach] *)
Definition match_layer (acc : list Feature * list LayerGroup.Layer)
    (layer : LayerGroup.Layer) : list Feature * list LayerGroup.Layer :=
  let '(features, layersToRemove) := acc in
  match find_splice (LayerGroup.feature layer) features with
  | Some features' => (features', layersToRemove)
  | None => (features, layersToRemove ++ [layer])
  end.

Definition updateDisplayedLayers (this : t) : t :=
  let features := IntervalTree.overlap (timeStart this) (timeEnd this) (ranges this) in
  let layers := getLayers this in
  let '(features, layersToRemove) := foldl match_layer (features, []) layers in
  let this := foldl (fun this layer => removeLayer layer this) this layersToRemove in
  foldl (fun this feature => addData feature this) this features.

Definition to_time (time : Value) : num :=
  match time with
  | VNum n => n
  | VStr _ => Date_getTime time
  end.

Definition draws (this : t) : bool :=
  default false (TimelineOptions.drawOnSetTime (options this)).

Definition setStartTime (time : Value) (this : t) : t :=
  let this := set_timeStart (to_time time) this in
  let this := if draws this then updateDisplayedLayers this else this in
  fire "change" this.

Definition setEndTime (time : Value) (this : t) : t :=
  let this := set_timeEnd (to_time time) this in
  let this := if draws this then updateDisplayedLayers this else this in
  fire "change" this.

End WithHost.
End Timeline.

(* ===================================================================== *)
(** * The range slider widget (package nouislider) *)
(* ===================================================================== *)

(** The closures that the control hands to the slider with [on], by what
    their bodies do:
    - [() => this._sliderChanged({type: "change", target: {valueMin:
      Number(this._timeSlider.get()[0]), valueMax:
      Number(this._timeSlider.get()[1])}})];
    - [() => this._disableMapDragging] and [() => this._enableMapDragging],
      which return the method and do not call it. *)
Inductive Callback : Type :=
| CallSliderChanged
| GetDisableMapDragging
| GetEnableMapDragging.

#[global] Instance Callback_eq_dec : EqDecision Callback.
Proof. solve_decision. Defined.

Module Slider.

(** Modelled from the spec: the range slider is the external package
    [nouislider], absent from the sources; the spec treats it as a widget
    with bounds, tick marks, handle positions and change events.  The model
    records what the control hands to it: the two bounds of
    [options.range], the values of the tick marks, every call of [set] with
    its two positions ([None] for [null], which leaves that handle alone),
    and the callbacks registered for its events.  When the widget calls
    them back, and with which handle positions, is the widget's business
    and is not part of the model: see [call] of the control for what a
    callback does once it is called. *)
Record t : Type := mk {
  range_min : num;
  range_max : num;
  pips : option (list num);
  sets : list (option num * option num);
  handlers : list (string * Callback)
}.

(** Modelled from the spec: of the absent widget,
    [S.create(container, {start: [s0, s1], range: {min: [lo], max: [hi]}})]. *)
Definition create (s0 s1 lo hi : num) : t :=
  mk lo hi None [(Some s0, Some s1)] [].

(** Modelled from the spec: of the absent widget,
    [updateOptions({range: {min: lo, max: hi}})]. *)
Definition updateOptions_range (lo hi : num) (s : t) : t :=
  mk lo hi (pips s) (sets s) (handlers s).

(** Modelled from the spec: of the absent widget,
    [updateOptions({pips: {mode: 'values', values: values, density: 4}})]. *)
Definition updateOptions_pips (values : list num) (s : t) : t :=
  mk (range_min s) (range_max s) (Some values) (sets s) (handlers s).

(** Modelled from the spec: of the absent widget, [set([a, b])]. *)
Definition set (a b : option num) (s : t) : t :=
  mk (range_min s) (range_max s) (pips s) (sets s ++ [(a, b)]) (handlers s).

(** Modelled from the spec: of the absent widget, [on(event, callback)],
    which registers a listener for a change event. *)
Definition on (event : string) (callback : Callback) (s : t) : t :=
  mk (range_min s) (range_max s) (pips s) (sets s)
     (handlers s ++ [(event, callback)]).

(** Modelled from the spec: of the absent widget, [off(event)], which
    takes off the listeners registered for that event. *)
Definition off (event : string) (s : t) : t :=
  mk (range_min s) (range_max s) (pips s) (sets s)
     (filter (fun h => h.1 ≠ event) (handlers s)).

End Slider.

(* ===================================================================== *)
(** * L.TimelineSliderControl *)
(* ===================================================================== *)

Module TimelineSliderControlOptions.
Record t : Type := mk {
  showTicks : option bool;
  waitToUpdateMap : option bool;
  start : option num;
  end_ : option num
}.

Definition none : t := mk None None None None.

Definition setOptions (current options : t) : t :=
  mk (showTicks options ∪ showTicks current)
     (waitToUpdateMap options ∪ waitToUpdateMap current)
     (start options ∪ start current)
     (end_ options ∪ end_ current).
End TimelineSliderControlOptions.

(** The timelines are shared objects: the control keeps references to them,
    and the store gives the state of the object behind each reference. *)
Definition TimelineRef : Type := nat.
Definition Store : Type := TimelineRef -> Timeline.t.

Module TimelineSliderControl.

Record t : Type := mk {
  options : TimelineSliderControlOptions.t;
  timelines : list TimelineRef;
  start : num;
  end_ : num;
  timeStart : option num;
  timeEnd : option num;
  syncedControl : option (list nat);
  _timeSlider : option Slider.t
}.

Definition set_timelines (v : list TimelineRef) (this : t) : t :=
  mk (options this) v (start this) (end_ this) (timeStart this)
     (timeEnd this) (syncedControl this) (_timeSlider this).
Definition set_start (v : num) (this : t) : t :=
  mk (options this) (timelines this) v (end_ this) (timeStart this)
     (timeEnd this) (syncedControl this) (_timeSlider this).
Definition set_end (v : num) (this : t) : t :=
  mk (options this) (timelines this) (start this) v (timeStart this)
     (timeEnd this) (syncedControl this) (_timeSlider this).
Definition set_selection (a b : num) (this : t) : t :=
  mk (options this) (timelines this) (start this) (end_ this) (Some a)
     (Some b) (syncedControl this) (_timeSlider this).
Definition set_syncedControl (v : option (list nat)) (this : t) : t :=
  mk (options this) (timelines this) (start this) (end_ this) (timeStart this)
     (timeEnd this) v (_timeSlider this).
Definition set_timeSlider (v : Slider.t) (this : t) : t :=
  mk (options this) (timelines this) (start this) (end_ this) (timeStart this)
     (timeEnd this) (syncedControl this) (Some v).

Definition defaultOptions : TimelineSliderControlOptions.t :=
  TimelineSliderControlOptions.mk (Some true) (Some false) None None.

Definition initialize (options : TimelineSliderControlOptions.t) : t :=
  mk (TimelineSliderControlOptions.setOptions defaultOptions options)
     []
     (or_else (TimelineSliderControlOptions.start options) (Fin 0))
     (or_else (TimelineSliderControlOptions.end_ options) (Fin 0))
     None None None None.

Definition showTicks (this : t) : bool :=
  default false (TimelineSliderControlOptions.showTicks (options this)).
Definition waitToUpdateMap (this : t) : bool :=
  default false (TimelineSliderControlOptions.waitToUpdateMap (options this)).

(** [typeof this.options.start !== "undefined"] *)
Definition manualStart (this : t) : bool :=
  bool_decide (is_Some (TimelineSliderControlOptions.start (options this))).
Definition manualEnd (this : t) : bool :=
  bool_decide (is_Some (TimelineSliderControlOptions.end_ (options this))).

(** ** Internal API *)

Definition in_range (this : t) (time : num) : Prop :=
  geb time (start this) && leb time (end_ this) = true.

#[global] Instance in_range_dec this time : Decision (in_range this time).
Proof. unfold in_range. apply _. Defined.

(** The callback of the [reduce] in [_getTimes]; [dedupedTimes] is the
    array of the enclosing function. *)
Definition getTimes_step (acc : num * list num) (b : num) : num * list num :=
  let '(a, dedupedTimes) := acc in
  (b, if neqb a b then dedupedTimes ++ [b] else dedupedTimes).

Definition _getTimes (this : t) (store : Store) : list num :=
  let times :=
    foldl (fun times timeline =>
             times ++ filter (in_range this) (Timeline.times (store timeline)))
          [] (timelines this) in
  if bool_decide (length times ≠ 0%nat) then
    let sorted := sort sub times in
    (foldl getTimes_step (sorted !!! 0%nat, [sorted !!! 0%nat]) (drop 1 sorted)).2
  else times.

(** The callback of the [forEach] in [_recalculate] *)
Definition recalculate_step (store : Store) (acc : num * num)
    (timeline : TimelineRef) : num * num :=
  let '(min, max) := acc in
  (if ltb (Timeline.start (store timeline)) min
   then Timeline.start (store timeline) else min,
   if gtb (Timeline.end_ (store timeline)) max
   then Timeline.end_ (store timeline) else max).

(** [None]: the slider does not exist yet and the call throws. *)
Definition _recalculate (this : t) (store : Store) : option t :=
  let '(min, max) := foldl (recalculate_step store) (PosInf, NegInf) (timelines this) in
  this ←
    (if negb (manualStart this) then
       let this := set_start min this in
       slider ← _timeSlider this;
       let slider :=
         Slider.updateOptions_range
           (if eqb min PosInf then Fin 0 else min) (Slider.range_max slider) slider in
       Some (set_timeSlider (Slider.set (Some min) None slider) this)
     else Some this);
  if negb (manualEnd this) then
    let this := set_end max this in
    slider ← _timeSlider this;
    Some (set_timeSlider
            (Slider.updateOptions_range
               (Slider.range_min slider)
               (if eqb max NegInf then Fin 0 else max) slider) this)
  else Some this.

(** The loop of [_nearestEventTime] from index [1] on: [rest] is what is
    left of [times]; a result is what the function returns. *)
Fixpoint nearest_loop (findTime : num) (mode : Z) (rest : list num)
    (retNext : bool) (lastTime : option num) : option num :=
  match rest with
  | [] => lastTime
  | time :: rest =>
      if retNext then Some time
      else if geb time findTime then
        if bool_decide (mode = -1) then lastTime
        else if eqb time findTime then nearest_loop findTime mode rest true (Some time)
        else Some time
      else nearest_loop findTime mode rest false (Some time)
  end.

(** [None] is [undefined]. *)
Definition _nearestEventTime (this : t) (store : Store) (findTime : num)
    (mode : Z) : option num :=
  let times := _getTimes this store in
  nearest_loop findTime mode (drop 1 times) false (times !! 0%nat).

(** ** DOM creation and interaction *)

Definition _rebuildDataList (this : t) (store : Store) : option t :=
  slider ← _timeSlider this;
  Some (set_timeSlider (Slider.updateOptions_pips (_getTimes this store) slider) this).

Definition _makeSlider (this : t) : t :=
  let slider :=
    Slider.create (or_else (Some (start this)) (Fin 0))
                  (or_else (Some (end_ this)) (Fin 0))
                  (or_else (Some (start this)) (Fin 0))
                  (or_else (Some (end_ this)) (Fin 0)) in
  let slider := Slider.on "update" CallSliderChanged slider in
  let slider := Slider.on "start" GetDisableMapDragging slider in
  let slider := Slider.on "end" GetEnableMapDragging slider in
  set_timeSlider slider this.

Definition _createDOM (this : t) (store : Store) : option t :=
  let this := _makeSlider this in
  if showTicks this then _rebuildDataList this store else Some this.

Section WithHost.
Context `{Host}.

Definition forEach_timeline (f : Timeline.t -> Timeline.t)
    (this : t) (store : Store) : Store :=
  foldl (fun store timeline => <[timeline := f (store timeline)]> store)
        store (timelines this).

(** [this._output] is never created by this source ([_makeOutput] has no
    caller), so the branch on it does nothing. *)
Definition _sliderChanged (type : string) (valueMin valueMax : num)
    (this : t) (store : Store) : t * Store :=
  let this := set_selection valueMin valueMax this in
  if negb (waitToUpdateMap this) || bool_decide (type = "change") then
    let store := forEach_timeline (Timeline.setStartTime (VNum valueMin)) this store in
    let store := forEach_timeline (Timeline.setEndTime (VNum valueMax)) this store in
    (this, store)
  else (this, store).

(** ** External API *)

Definition setTime (timeStart timeEnd : num) (this : t) (store : Store) : t * Store :=
  let this :=
    match _timeSlider this with
    | Some slider => set_timeSlider (Slider.set (Some timeStart) (Some timeEnd) slider) this
    | None => this
    end in
  _sliderChanged "change" timeStart timeEnd this store.

Definition _resetIfTimelinesChanged (oldTimelineCount : nat)
    (this : t) (store : Store) : option (t * Store) :=
  if bool_decide (length (timelines this) ≠ oldTimelineCount) then
    this ← _recalculate this store;
    this ← (if showTicks this then _rebuildDataList this store else Some this);
    Some (setTime (start this) (end_ this) this store)
  else Some (this, store).

(** [this.timelines.indexOf(timeline)]; [None] is [-1]. *)
Fixpoint indexOf (timeline : TimelineRef) (l : list TimelineRef) : option nat :=
  match l with
  | [] => None
  | x :: l => if decide (x = timeline) then Some 0%nat else S <$> indexOf timeline l
  end.

Definition add_one (this : t) (timeline : TimelineRef) : t :=
  match indexOf timeline (timelines this) with
  | None => set_timelines (timelines this ++ [timeline]) this
  | Some _ => this
  end.

Definition remove_one (this : t) (timeline : TimelineRef) : t :=
  match indexOf timeline (timelines this) with
  | Some index => set_timelines (delete index (timelines this)) this
  | None => this
  end.

Definition addTimelines (args : list TimelineRef) (this : t) (store : Store)
    : option (t * Store) :=
  let timelineCount := length (timelines this) in
  let this := foldl add_one this args in
  _resetIfTimelinesChanged timelineCount this store.

Definition removeTimelines (args : list TimelineRef) (this : t) (store : Store)
    : option (t * Store) :=
  let timelineCount := length (timelines this) in
  let this := foldl remove_one this args in
  _resetIfTimelinesChanged timelineCount this store.

Definition onAdd (this : t) (store : Store) : option (t * Store) :=
  this ← _createDOM this store;
  Some (setTime (start this) (end_ this) this store).

(** What a callback registered by [_makeSlider] does when the widget calls
    it; [values] stands for the two handle positions that
    [this._timeSlider.get()] gives at that moment. *)
Definition call (callback : Callback) (values : num * num)
    (this : t) (store : Store) : t * Store :=
  match callback with
  | CallSliderChanged => _sliderChanged "change" values.1 values.2 this store
  | GetDisableMapDragging => (this, store)
  | GetEnableMapDragging => (this, store)
  end.

(** [onRemove] takes off the listeners of the events [change], [start] and
    [end], and enables the dragging of the map again (the map is not part
    of the model); [None]: there is no slider and the call throws. *)
Definition onRemove (this : t) : option t :=
  slider ← _timeSlider this;
  let slider := Slider.off "change" slider in
  let slider := Slider.off "start" slider in
  let slider := Slider.off "end" slider in
  Some (set_timeSlider slider this).

Definition syncControl (controlToSync : nat) (this : t) : t :=
  let this :=
    match syncedControl this with
    | None => set_syncedControl (Some []) this
    | Some _ => this
    end in
  set_syncedControl (Some (default [] (syncedControl this) ++ [controlToSync])) this.

End WithHost.
End TimelineSliderControl.

(* ===================================================================== *)
(** * Vocabulary of the statements *)
(* ===================================================================== *)

(** Appending a value unless it repeats the last one ([!==], so [NaN] is
    always appended): what both de-duplicating [reduce] calls do at each
    step after the first. *)
Definition push_new (acc : list num) (x : num) : list num :=
  match last acc with
  | Some a => if neqb a x then acc ++ [x] else acc
  | None => acc ++ [x]
  end.

(** What holds of a list of times while it is built by pushing: it ends in
    [a], it is strictly increasing, and nothing in it is above [a]. *)
Definition built (acc : list num) (a : num) : Prop :=
  last acc = Some a ∧ StronglySorted lt acc ∧ Forall (fun y => le y a) acc.

(** The end points pushed by [_process] for one feature. *)
Definition end_points `{Host} (this : Timeline.t) (feature : Feature) : list num :=
  match Timeline._getInterval this feature with
  | Some interval => [TimeBounds.start interval; TimeBounds.end_ interval]
  | None => []
  end.

(** The entry inserted by [_process] for one feature. *)
Definition entries `{Host} (this : Timeline.t) (feature : Feature)
    : list (num * num * Feature) :=
  match Timeline._getInterval this feature with
  | Some interval => [(TimeBounds.start interval, TimeBounds.end_ interval, feature)]
  | None => []
  end.

(** The start and the end of every interval extracted from [data] are
    numbers: no date in it fails to parse. *)
Definition numeric_intervals `{Host} (this : Timeline.t) (data : list Feature) : Prop :=
  ∀ f interval, f ∈ data → Timeline._getInterval this f = Some interval →
    is_number (TimeBounds.start interval) ∧ is_number (TimeBounds.end_ interval).

(** [r] is the listed time nearest to [t] among those strictly after [t]. *)
Definition is_next_after (times : list num) (t r : num) : Prop :=
  r ∈ times ∧ lt t r ∧ ∀ x, x ∈ times → lt t x → le r x.

(** [r] is the listed time nearest to [t] among those strictly before [t]. *)
Definition is_prev_before (times : list num) (t r : num) : Prop :=
  r ∈ times ∧ lt r t ∧ ∀ x, x ∈ times → lt x t → le x r.

(** [r] is the listed time nearest to [t] among those at or before [t]. *)
Definition is_prev_at_or_before (times : list num) (t r : num) : Prop :=
  r ∈ times ∧ le r t ∧ ∀ x, x ∈ times → le x t → le x r.

(** The layer behind an entry of the layer group. *)
Definition layer_of (p : nat * Feature) : LayerGroup.Layer :=
  LayerGroup.mkLayer p.1 p.2.

(** The times that the registered timelines contribute to [_getTimes]. *)
Definition times_in_range (this : TimelineSliderControl.t) (store : Store)
    : list num :=
  TimelineSliderControl.timelines this ≫=
    fun timeline => filter (TimelineSliderControl.in_range this)
                      (Timeline.times (store timeline)).

(** [m] is the least start of the timelines of [l], [Infinity] when no
    start is below it.  A start that is [NaN] is below nothing: [m] is a
    number, at or below every start that is one. *)
Definition is_min_start (store : Store) (l : list TimelineRef) (m : num) : Prop :=
  is_number m
  ∧ (∀ r, r ∈ l → is_number (Timeline.start (store r)) →
          le m (Timeline.start (store r)))
  ∧ (m = PosInf ∨ ∃ r, r ∈ l ∧ m = Timeline.start (store r)).

(** [m] is the greatest end of the timelines of [l], [-Infinity] when no
    end is above it; it is a number, at or above every end that is one. *)
Definition is_max_end (store : Store) (l : list TimelineRef) (m : num) : Prop :=
  is_number m
  ∧ (∀ r, r ∈ l → is_number (Timeline.end_ (store r)) →
          le (Timeline.end_ (store r)) m)
  ∧ (m = NegInf ∨ ∃ r, r ∈ l ∧ m = Timeline.end_ (store r)).

(** The state [this'], [store'] in which [_resetIfTimelinesChanged] leaves a
    control [this] whose count of timelines has changed: the bounds are
    recomputed unless pinned, the selection is the whole domain, and every
    registered timeline has been given that selection. *)
Definition reset_outcome (this : TimelineSliderControl.t) (store : Store)
    (this' : TimelineSliderControl.t) (store' : Store) : Prop :=
  TimelineSliderControl.timelines this' = TimelineSliderControl.timelines this
  ∧ TimelineSliderControl.options this' = TimelineSliderControl.options this
  ∧ (if TimelineSliderControl.manualStart this
     then TimelineSliderControl.start this' = TimelineSliderControl.start this
     else is_min_start store (TimelineSliderControl.timelines this)
            (TimelineSliderControl.start this'))
  ∧ (if TimelineSliderControl.manualEnd this
     then TimelineSliderControl.end_ this' = TimelineSliderControl.end_ this
     else is_max_end store (TimelineSliderControl.timelines this)
            (TimelineSliderControl.end_ this'))
  ∧ TimelineSliderControl.timeStart this' = Some (TimelineSliderControl.start this')
  ∧ TimelineSliderControl.timeEnd this' = Some (TimelineSliderControl.end_ this')
  ∧ (∀ r, r ∈ TimelineSliderControl.timelines this' →
          Timeline.timeStart (store' r) = TimelineSliderControl.start this'
          ∧ Timeline.timeEnd (store' r) = TimelineSliderControl.end_ this')
  ∧ (∀ r, r ∉ TimelineSliderControl.timelines this' → store' r = store r).

(** A timeline without entries, without times and without layers, its
    bounds the two sentinels. *)
Definition shows_nothing (tl : Timeline.t) : Prop :=
  Timeline.ranges tl = [] ∧ Timeline.times tl = [] ∧ Timeline.layers tl = ∅
  ∧ Timeline.start tl = PosInf ∧ Timeline.end_ tl = NegInf.

(** The features bound to the displayed layers. *)
Definition displayed (this : Timeline.t) : list Feature :=
  LayerGroup.feature <$> Timeline.getLayers this.

(* ===================================================================== *)
(** * Example data *)
(* ===================================================================== *)

Module Examples.

(** Feature [0] lasts from 0 to 10 and feature [1] from 5 to 15; feature
    [2] has no end; features [4] and [5] last from 10 to 20 and from 20 to
    30; feature [6] ends at 1 and its start is a string that is no date;
    the other features have no properties.  Numbers are their own time,
    the string [not a date] gives [NaN] and every other string is taken for
    the epoch. *)
Definition host : Host := {|
  Date_getTime v :=
    match v with
    | VNum n => n
    | VStr s => if decide (s = "not a date") then NaN else Fin 0
    end;
  properties f :=
    match f with
    | 0%nat => Some (Properties.mk (Some (VNum (Fin 0))) (Some (VNum (Fin 10))))
    | 1%nat => Some (Properties.mk (Some (VNum (Fin 5))) (Some (VNum (Fin 15))))
    | 2%nat => Some (Properties.mk (Some (VNum (Fin 5))) None)
    | 4%nat => Some (Properties.mk (Some (VNum (Fin 10))) (Some (VNum (Fin 20))))
    | 5%nat => Some (Properties.mk (Some (VNum (Fin 20))) (Some (VNum (Fin 30))))
    | 6%nat => Some (Properties.mk (Some (VStr "not a date")) (Some (VNum (Fin 1))))
    | _ => None
    end
|}.

(** The timeline of the features [0] and [1]. *)
Definition two : Timeline.t :=
  @Timeline.initialize host [0; 1]%nat TimelineOptions.none.

(** The timeline of the features [4] and [5]: its times are 10, 20, 30. *)
Definition three_times : Timeline.t :=
  @Timeline.initialize host [4; 5]%nat TimelineOptions.none.

(** The timeline of no feature. *)
Definition nothing : Timeline.t :=
  @Timeline.initialize host [] TimelineOptions.none.

(** The timeline of the feature [6], whose start is no date. *)
Definition undated : Timeline.t :=
  @Timeline.initialize host [6]%nat TimelineOptions.none.

(** Feature [1], with a start pinned at 0 and an end pinned at 0. *)
Definition pinned_at_zero : Timeline.t :=
  @Timeline.initialize host [1]%nat
    (TimelineOptions.mk None None (Some (Fin 0)) (Some (Fin 0))).

(** The objects behind the references [0], [1] and the others. *)
Definition store : Store :=
  fun r => match r with
           | 0%nat => two
           | 1%nat => three_times
           | _ => nothing
           end.

(** A control without options, added to the map. *)
Definition mounted : TimelineSliderControl.t :=
  default (TimelineSliderControl.initialize TimelineSliderControlOptions.none)
    (fst <$> @TimelineSliderControl.onAdd host
               (TimelineSliderControl.initialize TimelineSliderControlOptions.none)
               store).

(** The same control with the timeline [1] registered. *)
Definition with_three_times : TimelineSliderControl.t * Store :=
  default (mounted, store)
    (@TimelineSliderControl.addTimelines host [1%nat] mounted store).

(** The mounted control after it has registered the timeline of no feature,
    behind the reference [2]. *)
Definition with_nothing : TimelineSliderControl.t * Store :=
  default (mounted, store)
    (@TimelineSliderControl.addTimelines host [2%nat] mounted store).

(** That control taken off the map and added to it again. *)
Definition remounted_unpinned : TimelineSliderControl.t :=
  default with_nothing.1
    (c ← TimelineSliderControl.onRemove with_nothing.1;
     fst <$> @TimelineSliderControl.onAdd host c with_nothing.2).

(** A control with the end of its domain pinned to 10 and its start not
    pinned, added to the map. *)
Definition end_pinned : TimelineSliderControl.t :=
  let c := TimelineSliderControl.initialize
             (TimelineSliderControlOptions.mk None None None (Some (Fin 10))) in
  default c (fst <$> @TimelineSliderControl.onAdd host c store).

(** That control after it has registered the timeline of no feature,
    behind the reference [2]. *)
Definition end_pinned_with_nothing : TimelineSliderControl.t * Store :=
  default (end_pinned, store)
    (@TimelineSliderControl.addTimelines host [2%nat] end_pinned store).

(** That control taken off the map and added to it again. *)
Definition remounted : TimelineSliderControl.t :=
  default end_pinned_with_nothing.1
    (c ← TimelineSliderControl.onRemove end_pinned_with_nothing.1;
     fst <$> @TimelineSliderControl.onAdd host c end_pinned_with_nothing.2).

(** A control with the domain pinned to [0, 10], added to the map, whose
    selection has been moved to [5, 6]. *)
Definition pinned_selected : TimelineSliderControl.t * Store :=
  let c := TimelineSliderControl.initialize
             (TimelineSliderControlOptions.mk None None (Some (Fin 0)) (Some (Fin 10))) in
  let c := default c (fst <$> @TimelineSliderControl.onAdd host c store) in
  @TimelineSliderControl.setTime host (Fin 5) (Fin 6) c store.

End Examples.

(* ===================================================================== *)
(** * More example data *)
(* ===================================================================== *)

Module Scenarios.

(** The features [0], [1] and [2] of the example host; [2] has no end. *)
Definition data : list Feature := [0; 1; 2]%nat.

(** The timeline of [data] after its first [updateDisplayedLayers], with
    the end of the selection then moved to 4 without drawing. *)
Definition shown : Timeline.t :=
  Timeline.set_timeEnd (Fin 4)
    (Timeline.updateDisplayedLayers
       (@Timeline.initialize Examples.host data TimelineOptions.none)).

(** A control without options that has not been added to the map. *)
Definition unmounted : TimelineSliderControl.t :=
  TimelineSliderControl.initialize TimelineSliderControlOptions.none.

(** A control with both bounds pinned and the ticks off that has not been
    added to the map. *)
Definition pinned_unmounted : TimelineSliderControl.t :=
  TimelineSliderControl.initialize
    (TimelineSliderControlOptions.mk (Some false) None (Some (Fin 0)) (Some (Fin 10))).

(** The slider of the mounted example control. *)
Definition mounted_slider : Slider.t :=
  Slider.mk (Fin 0) (Fin 0) (Some [])
    [(Some (Fin 0), Some (Fin 0)); (Some (Fin 0), Some (Fin 0))]
    [("update", CallSliderChanged); ("start", GetDisableMapDragging);
     ("end", GetEnableMapDragging)].

(** The mounted example control with the timelines [0] and [1] listed,
    and the same control with them listed the other way round. *)
Definition listed : TimelineSliderControl.t :=
  TimelineSliderControl.set_end (Fin 30)
    (TimelineSliderControl.set_timelines [0; 1]%nat Examples.mounted).
Definition listed_reversed : TimelineSliderControl.t :=
  TimelineSliderControl.set_end (Fin 30)
    (TimelineSliderControl.set_timelines [1; 0; 1]%nat Examples.mounted).

(** The callbacks that [_makeSlider] registers. *)
Definition registered_handlers : list (string * Callback) :=
  [("update", CallSliderChanged); ("start", GetDisableMapDragging);
   ("end", GetEnableMapDragging)].

(** The mounted example control after it has registered the timelines [0]
    and [1], and its slider. *)
Definition registered : TimelineSliderControl.t * Store :=
  default (Examples.mounted, Examples.store)
    (@TimelineSliderControl.addTimelines Examples.host [0; 1]%nat
       Examples.mounted Examples.store).
Definition registered_slider : Slider.t :=
  Slider.mk (Fin 0) (Fin 30) (Some [Fin 0; Fin 5; Fin 10; Fin 15; Fin 20; Fin 30])
    [(Some (Fin 0), Some (Fin 0)); (Some (Fin 0), Some (Fin 0));
     (Some (Fin 0), None); (Some (Fin 0), Some (Fin 30))]
    registered_handlers.

(** A control that waits to update the map and lists the timelines [0]
    and [1]; it has not been added to the map. *)
Definition waiting : TimelineSliderControl.t :=
  TimelineSliderControl.set_timelines [0; 1]%nat
    (TimelineSliderControl.initialize
       (TimelineSliderControlOptions.mk None (Some true) None None)).

(** A control with the domain pinned to [0, 10] and no ticks that lists
    the timeline [0]; it has not been added to the map. *)
Definition pinned_listed : TimelineSliderControl.t :=
  TimelineSliderControl.set_timelines [0]%nat pinned_unmounted.

End Scenarios.

(* ===================================================================== *)
(** * The order of the numbers and the sort *)
(* ===================================================================== *)

Section NumberFacts.

Ltac num_cases :=
  repeat match goal with x : num |- _ => destruct x end;
  unfold lt, le, gtb, geb, eqb, neqb, is_number in *; simpl in *;
  repeat case_bool_decide; simplify_eq; try done; try lia.

Lemma ltb_irrefl a : ltb a a = false.
Proof. num_cases. Qed.

Lemma lt_le a b : lt a b → le a b.
Proof. num_cases. Qed.

Lemma le_refl a : is_number a → le a a.
Proof. num_cases. Qed.

Lemma le_trans a b c : le a b → le b c → le a c.
Proof. num_cases. Qed.

Lemma lt_trans a b c : lt a b → lt b c → lt a c.
Proof. num_cases. Qed.

Lemma le_lt_trans a b c : le a b → lt b c → lt a c.
Proof. num_cases. Qed.

Lemma lt_le_trans a b c : lt a b → le b c → lt a c.
Proof. num_cases. Qed.

Lemma le_antisym a b : le a b → le b a → a = b.
Proof.
  destruct a as [|x| |], b as [|y| |]; unfold le; simpl; try done.
  rewrite !bool_decide_eq_true. intros. f_equal. lia.
Qed.

Lemma le_neq_lt a b : le a b → a ≠ b → lt a b.
Proof.
  intros Hle Hne. destruct a as [|x| |], b as [|y| |]; try done.
  assert (x ≠ y) by congruence.
  unfold le, lt in *; simpl in *; repeat case_bool_decide; try done; lia.
Qed.

Lemma lt_neq a b : lt a b → a ≠ b.
Proof. unfold lt. intros Hlt ->. by rewrite ltb_irrefl in Hlt. Qed.

(** What is compared is a number. *)
Lemma le_number_l a b : le a b → is_number a.
Proof. num_cases. Qed.

Lemma le_number_r a b : le a b → is_number b.
Proof. num_cases. Qed.

Lemma lt_number_l a b : lt a b → is_number a.
Proof. num_cases. Qed.

Lemma lt_number_r a b : lt a b → is_number b.
Proof. num_cases. Qed.

Lemma leb_false_lt a b : is_number a → is_number b → leb a b = false → lt b a.
Proof. num_cases. Qed.

Lemma ltb_false_le a b : is_number a → is_number b → ltb a b = false → le b a.
Proof. num_cases. Qed.

Lemma lt_not_le a b : lt a b → ¬ le b a.
Proof. num_cases. Qed.

Lemma le_total a b : is_number a → is_number b → le a b ∨ le b a.
Proof. num_cases; try (by left); try (by right). Qed.

Lemma geb_leb a b : geb a b = leb b a.
Proof. done. Qed.

Lemma eqb_true a b : eqb a b = true → a = b.
Proof. destruct a, b; unfold eqb; try done; by rewrite bool_decide_eq_true. Qed.

Lemma eqb_refl a : is_number a → eqb a a = true.
Proof. num_cases. Qed.

Lemma eqb_false a b : is_number a → is_number b → eqb a b = false → a ≠ b.
Proof. intros Ha Hb He ->. by rewrite eqb_refl in He. Qed.

Lemma min_le_l a b : is_number a → is_number b → le (min a b) a.
Proof.
  unfold min, le, is_number. destruct a, b; simpl; repeat case_bool_decide; simpl;
    rewrite ?bool_decide_eq_true; try done; lia.
Qed.

Lemma min_le_r a b : is_number a → is_number b → le (min a b) b.
Proof.
  unfold min, le, is_number. destruct a, b; simpl; repeat case_bool_decide; simpl;
    rewrite ?bool_decide_eq_true; try done; lia.
Qed.

Lemma max_ge_l a b : is_number a → is_number b → le a (max a b).
Proof.
  unfold max, le, is_number. destruct a, b; simpl; repeat case_bool_decide; simpl;
    rewrite ?bool_decide_eq_true; try done; lia.
Qed.

Lemma max_ge_r a b : is_number a → is_number b → le b (max a b).
Proof.
  unfold max, le, is_number. destruct a, b; simpl; repeat case_bool_decide; simpl;
    rewrite ?bool_decide_eq_true; try done; lia.
Qed.

Lemma min_number a b : is_number a → is_number b → is_number (min a b).
Proof. unfold min, is_number. destruct a, b; simpl; try done; by case_bool_decide. Qed.

Lemma max_number a b : is_number a → is_number b → is_number (max a b).
Proof. unfold max, is_number. destruct a, b; simpl; try done; by case_bool_decide. Qed.

(** [Math.min] and [Math.max] give [NaN] as soon as an argument is. *)
Lemma min_NaN_l b : min NaN b = NaN.
Proof. done. Qed.

Lemma min_NaN_r a : min a NaN = NaN.
Proof. by destruct a. Qed.

Lemma max_NaN_l b : max NaN b = NaN.
Proof. done. Qed.

Lemma max_NaN_r a : max a NaN = NaN.
Proof. by destruct a. Qed.

(** On numbers the comparator [(a, b) => a - b] orders as [<=] does. *)
Lemma sort_le_sub a b : is_number a → is_number b → sort_le sub a b ↔ le a b.
Proof. unfold sort_le, SortCompare. num_cases. Qed.

#[local] Instance sort_le_sub_total : Total (sort_le sub).
Proof.
  intros a b. unfold sort_le, SortCompare.
  destruct a as [|x| |], b as [|y| |]; simpl; try (left; lia); try (right; lia).
  rewrite !Z.sgn_nonpos. lia.
Qed.

#[local] Instance le_transitive : Transitive le.
Proof. intros a b c. apply le_trans. Qed.

Lemma StronglySorted_impl {A} (R S : relation A) (l : list A) :
  (∀ x y, R x y → S x y) → StronglySorted R l → StronglySorted S l.
Proof.
  intros HRS. induction 1 as [|x l Hl IH Hx]; constructor; [done|].
  eapply Forall_impl; [exact Hx|]. intros y. apply HRS.
Qed.

Lemma Sorted_impl_on {A} (P : A → Prop) (R S : relation A) (l : list A) :
  (∀ x y, P x → P y → R x y → S x y) → Forall P l → Sorted R l → Sorted S l.
Proof.
  intros HRS HP Hs. induction Hs as [|x l Hs IH Hhd]; [constructor|].
  apply Forall_cons in HP as [Hx HP]. constructor; [by apply IH|].
  destruct Hhd as [|y l' Hxy]; constructor.
  apply Forall_cons in HP as [Hy _]. by apply HRS.
Qed.

Lemma sort_perm (arr : list num) : sort sub arr ≡ₚ arr.
Proof. apply merge_sort_Permutation. Qed.

(** An array of numbers comes out of the sort in increasing order. *)
Lemma sort_sorted (arr : list num) :
  Forall is_number arr → StronglySorted le (sort sub arr).
Proof.
  intros Hn. apply Sorted_StronglySorted; [apply _|].
  apply (Sorted_impl_on is_number (sort_le sub)).
  - intros x y Hx Hy. by rewrite sort_le_sub.
  - by rewrite sort_perm.
  - apply Sorted_merge_sort. apply _.
Qed.

Lemma sort_number (arr : list num) :
  Forall is_number arr → Forall is_number (sort sub arr).
Proof. by rewrite sort_perm. Qed.

Lemma sort_nil_inv (arr : list num) : sort sub arr = [] → arr = [].
Proof.
  intros Hs. apply Permutation_nil_r. rewrite <- Hs. symmetry. apply sort_perm.
Qed.

End NumberFacts.

(* ===================================================================== *)
(** * Removing repeated times from a sorted list *)
(* ===================================================================== *)

Section Dedupe.

Lemma built_singleton a : is_number a → built [a] a.
Proof.
  intros Ha. repeat split; [repeat constructor..|].
  constructor; [by apply le_refl|constructor].
Qed.

Lemma built_push acc a x : built acc a → le a x → built (push_new acc x) x.
Proof.
  intros (Hlast & Hsorted & Hall) Hax. unfold push_new. rewrite Hlast.
  pose proof (le_number_l _ _ Hax) as Ha. pose proof (le_number_r _ _ Hax) as Hx.
  unfold neqb. destruct (eqb a x) eqn:Heq; simpl.
  - apply eqb_true in Heq as ->. done.
  - assert (lt a x) by (apply le_neq_lt; [done|by apply eqb_false]).
    split; [apply last_snoc|]. split.
    + apply StronglySorted_app_2; [|done|repeat constructor].
      intros y z Hy Hz. apply list_elem_of_singleton in Hz as ->.
      rewrite Forall_forall in Hall. apply (le_lt_trans y a x); [by apply Hall|done].
    + apply Forall_app. split.
      * eapply Forall_impl; [exact Hall|]. intros y Hy. simpl in Hy.
        by apply (le_trans y a x).
      * constructor; [by apply le_refl|constructor].
Qed.

Lemma elem_of_push_new acc x y : y ∈ push_new acc x → y ∈ acc ∨ y = x.
Proof.
  unfold push_new. destruct (last acc) as [a|]; [destruct (neqb a x)|];
    rewrite ?elem_of_app, ?list_elem_of_singleton; tauto.
Qed.

Lemma push_new_incl acc x y : y ∈ acc → y ∈ push_new acc x.
Proof.
  unfold push_new. destruct (last acc) as [a|]; [destruct (neqb a x)|]; set_solver.
Qed.

Lemma push_new_elem_of acc x : x ∈ push_new acc x.
Proof.
  unfold push_new. destruct (last acc) as [a|] eqn:Hl; [|set_solver].
  unfold neqb. destruct (eqb a x) eqn:Heq; simpl; [|set_solver].
  apply eqb_true in Heq as ->.
  apply last_Some in Hl as [l' ->]. set_solver.
Qed.

Lemma foldl_push_new rest : ∀ acc a,
  built acc a → StronglySorted le (a :: rest) →
  StronglySorted lt (foldl push_new acc rest) ∧
  ∀ y, y ∈ foldl push_new acc rest ↔ y ∈ acc ∨ y ∈ rest.
Proof.
  induction rest as [|x rest IH]; intros acc a Hb Hs; simpl.
  - split; [apply Hb|]. set_solver.
  - apply StronglySorted_cons in Hs as [Ha Hs].
    apply Forall_cons in Ha as [Hax Ha].
    destruct (IH (push_new acc x) x) as [Hsorted Hmem].
    { by eapply built_push. }
    { done. }
    split; [done|]. intros y. rewrite Hmem. split.
    + intros [Hy| Hy]; [|set_solver].
      apply elem_of_push_new in Hy. set_solver.
    + intros [Hy|Hy]; [left; by apply push_new_incl|].
      apply elem_of_cons in Hy as [->|Hy]; [left; apply push_new_elem_of|by right].
Qed.

(** A sorted list of numbers, its first element kept and the rest
    pushed. *)
Lemma dedupe_sorted (x : num) (rest : list num) :
  is_number x →
  StronglySorted le (x :: rest) →
  StronglySorted lt (foldl push_new [x] rest) ∧
  ∀ y, y ∈ foldl push_new [x] rest ↔ y ∈ x :: rest.
Proof.
  intros Hx Hs.
  destruct (foldl_push_new rest [x] x (built_singleton x Hx) Hs) as [H1 H2].
  split; [done|]. intros y. rewrite H2. set_solver.
Qed.

(** Whatever the values are, pushing loses none and adds none. *)
Lemma elem_of_foldl_push_new rest : ∀ acc y,
  y ∈ foldl push_new acc rest ↔ y ∈ acc ∨ y ∈ rest.
Proof.
  induction rest as [|x rest IH]; intros acc y; simpl; [set_solver|].
  rewrite IH. split.
  - intros [Hy|Hy]; [|set_solver]. apply elem_of_push_new in Hy. set_solver.
  - intros [Hy|Hy]; [left; by apply push_new_incl|].
    apply elem_of_cons in Hy as [->|Hy]; [left; apply push_new_elem_of|by right].
Qed.

(** The [reduce] of [_process] pushes from index [1] on. *)
Lemma foldl_dedupe_step `{Host} rest : ∀ (f : nat → num → nat * num) acc,
  (∀ i x, (f i x).1 ≠ 0%nat ∧ (f i x).2 = x) →
  foldl Timeline.dedupe_step acc (imap f rest) = foldl push_new acc rest.
Proof.
  induction rest as [|x rest IH]; intros f acc Hf; [done|].
  rewrite imap_cons. simpl. rewrite IH.
  - f_equal. destruct (Hf 0%nat x) as [H1 H2].
    destruct (f 0%nat x) as [i y]; simpl in *; subst y.
    unfold Timeline.dedupe_step, push_new.
    by rewrite bool_decide_eq_false_2 by done.
  - intros i y. apply Hf.
Qed.

Lemma reduce_dedupe `{Host} (x : num) (rest : list num) :
  foldl Timeline.dedupe_step [x] (imap pair (x :: rest)) = foldl push_new [x] rest.
Proof.
  rewrite imap_cons. simpl. apply foldl_dedupe_step. intros i y. done.
Qed.

(** The [reduce] of [_getTimes] does the same, its accumulator being the
    last value pushed. *)
Lemma foldl_getTimes_step rest : ∀ a acc,
  last acc = Some a →
  (foldl TimelineSliderControl.getTimes_step (a, acc) rest).2 = foldl push_new acc rest.
Proof.
  induction rest as [|b rest IH]; intros a acc Hlast; [done|].
  simpl. unfold push_new at 2. rewrite Hlast.
  destruct (neqb a b) eqn:Hne.
  - apply IH, last_snoc.
  - apply IH. unfold neqb in Hne. apply negb_false_iff, eqb_true in Hne. by subst.
Qed.

End Dedupe.

(* ===================================================================== *)
(** * Construction of a timeline *)
(* ===================================================================== *)

Section ProcessFacts.
Context `{Host}.

Lemma getInterval_options (this this' : Timeline.t) :
  Timeline.options this' = Timeline.options this →
  Timeline._getInterval this' = Timeline._getInterval this.
Proof. unfold Timeline._getInterval. by intros ->. Qed.

(** One feature: what the callback leaves in the fields and in the two
    local variables. *)
Lemma process_feature_spec (this : Timeline.t) (s e : num) (f : Feature) :
  let r := Timeline.process_feature (this, s, e) f in
  Timeline.options r.1.1 = Timeline.options this
  ∧ Timeline.times r.1.1 = Timeline.times this ++ end_points this f
  ∧ Timeline.ranges r.1.1 = Timeline.ranges this ++ entries this f
  ∧ Timeline.layers r.1.1 = Timeline.layers this
  ∧ Timeline.trace r.1.1 = Timeline.trace this
  ∧ r.1.2 = from_option (fun iv => min s (TimeBounds.start iv)) s
              (Timeline._getInterval this f)
  ∧ r.2 = from_option (fun iv => max e (TimeBounds.end_ iv)) e
            (Timeline._getInterval this f).
Proof.
  unfold Timeline.process_feature, end_points, entries.
  destruct (Timeline._getInterval this f) as [iv|]; cbn.
  - rewrite <- app_assoc. done.
  - rewrite !app_nil_r. done.
Qed.

(** The loop over the features. *)
Lemma foldl_process_feature_gen (this0 : Timeline.t) (data : list Feature) :
  ∀ this s e,
  Timeline.options this = Timeline.options this0 →
  let r := foldl Timeline.process_feature (this, s, e) data in
  Timeline.options r.1.1 = Timeline.options this0
  ∧ Timeline.times r.1.1 = Timeline.times this ++ (data ≫= end_points this0)
  ∧ Timeline.ranges r.1.1 = Timeline.ranges this ++ (data ≫= entries this0)
  ∧ Timeline.layers r.1.1 = Timeline.layers this
  ∧ Timeline.trace r.1.1 = Timeline.trace this
  ∧ r.1.2 = foldl (fun acc iv => min acc (TimeBounds.start iv)) s
              (omap (Timeline._getInterval this0) data)
  ∧ r.2 = foldl (fun acc iv => max acc (TimeBounds.end_ iv)) e
            (omap (Timeline._getInterval this0) data).
Proof.
  induction data as [|f data IH]; intros this s e Hopt.
  - simpl. rewrite !app_nil_r. done.
  - cbn [foldl].
    pose proof (process_feature_spec this s e f) as Hstep. cbv zeta in Hstep.
    destruct (Timeline.process_feature (this, s, e) f) as [[this1 s1] e1].
    cbn [fst snd] in Hstep. destruct Hstep as (S1 & S2 & S3 & S4 & S5 & S6 & S7).
    destruct (IH this1 s1 e1) as (H1 & H2 & H3 & H4 & H5 & H6 & H7); [congruence|].
    cbv zeta. split; [exact H1|].
    rewrite H2, H3, H4, H5, H6, H7, S2, S3, S4, S5, S6, S7.
    cbn [mbind list_bind omap list_omap]. rewrite <- !app_assoc.
    unfold end_points, entries.
    rewrite !(getInterval_options this0 this) by done.
    destruct (Timeline._getInterval this0 f) as [iv|]; done.
Qed.

Lemma foldl_process_feature (data : list Feature) (this : Timeline.t) (s e : num) :
  let r := foldl Timeline.process_feature (this, s, e) data in
  Timeline.options r.1.1 = Timeline.options this
  ∧ Timeline.times r.1.1 = Timeline.times this ++ (data ≫= end_points this)
  ∧ Timeline.ranges r.1.1 = Timeline.ranges this ++ (data ≫= entries this)
  ∧ Timeline.layers r.1.1 = Timeline.layers this
  ∧ Timeline.trace r.1.1 = Timeline.trace this
  ∧ r.1.2 = foldl (fun acc iv => min acc (TimeBounds.start iv)) s
              (omap (Timeline._getInterval this) data)
  ∧ r.2 = foldl (fun acc iv => max acc (TimeBounds.end_ iv)) e
            (omap (Timeline._getInterval this) data).
Proof. by apply foldl_process_feature_gen. Qed.
End ProcessFacts.

Section InitializeFacts.
Context `{Host}.

(** The times of a list of raw end points, sorted and without repeats. *)
Lemma process_times (raw : list num) :
  length raw ≠ 0%nat →
  foldl Timeline.dedupe_step [sort sub raw !!! 0%nat] (imap pair (sort sub raw))
  = match sort sub raw with
    | [] => []
    | x :: rest => foldl push_new [x] rest
    end.
Proof.
  intros Hlen. destruct (sort sub raw) as [|x rest] eqn:Hs.
  - apply sort_nil_inv in Hs. by subst raw.
  - apply reduce_dedupe.
Qed.

Lemma initialize_fields (data : list Feature) (o : TimelineOptions.t) :
  let tl := Timeline.initialize data o in
  Timeline.options tl = TimelineOptions.setOptions Timeline.defaultOptions o
  ∧ Timeline.ranges tl = data ≫= entries tl
  ∧ Timeline.times tl =
      match sort sub (data ≫= end_points tl) with
      | [] => []
      | x :: rest => foldl push_new [x] rest
      end
  ∧ Timeline.start tl =
      or_else (TimelineOptions.start o)
        (foldl (fun acc iv => min acc (TimeBounds.start iv)) PosInf
           (omap (Timeline._getInterval tl) data))
  ∧ Timeline.end_ tl =
      or_else (TimelineOptions.end_ o)
        (foldl (fun acc iv => max acc (TimeBounds.end_ iv)) NegInf
           (omap (Timeline._getInterval tl) data))
  ∧ Timeline.timeStart tl = Timeline.start tl
  ∧ Timeline.timeEnd tl = Timeline.end_ tl
  ∧ Timeline.layers tl = ∅
  ∧ Timeline.trace tl = [].
Proof.
  cbv zeta. unfold Timeline.initialize, Timeline._process.
  set (this0 := Timeline.mk _ _ _ _ _ _ _ _ _).
  pose proof (foldl_process_feature data this0 PosInf NegInf) as Hloop.
  cbv zeta in Hloop.
  destruct (foldl Timeline.process_feature (this0, PosInf, NegInf) data)
    as [[this1 s1] e1].
  cbn [fst snd] in Hloop. destruct Hloop as (L1 & L2 & L3 & L4 & L5 & L6 & L7).
  cbn [Timeline.times Timeline.set_timeEnd Timeline.set_timeStart
       Timeline.set_end Timeline.set_start Timeline.options].
  assert (Hopt : ∀ t, Timeline.options t = Timeline.options this0 →
                      end_points t = end_points this0
                      ∧ entries t = entries this0
                      ∧ Timeline._getInterval t = Timeline._getInterval this0).
  { intros t Ht. unfold end_points, entries.
    rewrite (getInterval_options this0 t Ht). done. }
  assert (Hstart : TimelineOptions.start (Timeline.options this1) = TimelineOptions.start o).
  { rewrite L1. subst this0. cbn. by destruct (TimelineOptions.start o). }
  assert (Hend : TimelineOptions.end_ (Timeline.options this1) = TimelineOptions.end_ o).
  { rewrite L1. subst this0. cbn. by destruct (TimelineOptions.end_ o). }
  rewrite app_nil_l in L2.
  case_bool_decide as Hlen.
  - match goal with |- context [end_points ?t] =>
      destruct (Hopt t L1) as (-> & -> & ->)
    end.
    cbn. rewrite L3, L4, L5, Hstart, Hend, L6, L7, <- L2.
    apply nil_length_inv in Hlen. rewrite Hlen.
    repeat split; done.
  - match goal with |- context [end_points ?t] =>
      destruct (Hopt t L1) as (-> & -> & ->)
    end.
    cbn. rewrite L3, L4, L5, Hstart, Hend, L6, L7, <- L2.
    rewrite process_times by done.
    repeat split; done.
Qed.

(** The bounds of a timeline: a pinned number other than 0 is taken as it
    is; without a pinned value, and for a pinned 0 or [NaN], the bound is
    what [Math.min] and [Math.max] leave of the starts and of the ends of
    the extracted intervals, and the sentinel when there is none. *)
Lemma initialize_bounds (data : list Feature) (o : TimelineOptions.t) :
  let tl := Timeline.initialize data o in
  let computed_start :=
    foldl (fun acc iv => min acc (TimeBounds.start iv)) PosInf
      (omap (Timeline._getInterval tl) data) in
  let computed_end :=
    foldl (fun acc iv => max acc (TimeBounds.end_ iv)) NegInf
      (omap (Timeline._getInterval tl) data) in
  (∀ v, TimelineOptions.start o = Some v → v ≠ Fin 0 → is_number v →
        Timeline.start tl = v)
  ∧ (TimelineOptions.start o = None → Timeline.start tl = computed_start)
  ∧ (TimelineOptions.start o = Some (Fin 0) → Timeline.start tl = computed_start)
  ∧ (TimelineOptions.start o = Some NaN → Timeline.start tl = computed_start)
  ∧ (∀ v, TimelineOptions.end_ o = Some v → v ≠ Fin 0 → is_number v →
          Timeline.end_ tl = v)
  ∧ (TimelineOptions.end_ o = None → Timeline.end_ tl = computed_end)
  ∧ (TimelineOptions.end_ o = Some (Fin 0) → Timeline.end_ tl = computed_end)
  ∧ (TimelineOptions.end_ o = Some NaN → Timeline.end_ tl = computed_end)
  ∧ (omap (Timeline._getInterval tl) data = [] →
     computed_start = PosInf ∧ computed_end = NegInf).
Proof.
  cbv zeta. destruct (initialize_fields data o)
    as (_ & _ & _ & Hs & He & _).
  rewrite Hs, He.
  assert (Hv : ∀ v d, v ≠ Fin 0 → is_number v → or_else (Some v) d = v).
  { intros v d Hv Hn. unfold or_else, truthy, eqb.
    destruct v; try done. by rewrite bool_decide_eq_false_2. }
  split_and!.
  - intros v -> ??. by apply Hv.
  - by intros ->.
  - by intros ->.
  - by intros ->.
  - intros v -> ??. by apply Hv.
  - by intros ->.
  - by intros ->.
  - by intros ->.
  - by intros ->.
Qed.

End InitializeFacts.

(* ===================================================================== *)
(** * The layer group *)
(* ===================================================================== *)

Section LayerGroupFacts.

Lemma getLayers_perm (g : gmap nat Feature) :
  LayerGroup.getLayers g ≡ₚ layer_of <$> map_to_list g.
Proof. apply merge_sort_Permutation. Qed.

Lemma elem_of_getLayers (g : gmap nat Feature) (layer : LayerGroup.Layer) :
  layer ∈ LayerGroup.getLayers g ↔
  g !! LayerGroup.id layer = Some (LayerGroup.feature layer).
Proof.
  rewrite getLayers_perm, list_elem_of_fmap. split.
  - intros ([i f] & -> & Hin). by apply elem_of_map_to_list in Hin.
  - intros Hg. exists (LayerGroup.id layer, LayerGroup.feature layer).
    split; [by destruct layer|]. by apply elem_of_map_to_list.
Qed.

Lemma getLayers_delete (g : gmap nat Feature) (layer : LayerGroup.Layer) :
  layer ∈ LayerGroup.getLayers g →
  LayerGroup.getLayers g ≡ₚ
    layer :: LayerGroup.getLayers (LayerGroup.removeLayer layer g).
Proof.
  intros Hin. apply elem_of_getLayers in Hin.
  rewrite !getLayers_perm. unfold LayerGroup.removeLayer.
  rewrite <- (map_to_list_delete g _ _ Hin). by destruct layer.
Qed.

(** Removing the layers of [rm] leaves the others. *)
Lemma getLayers_remove (rm : list LayerGroup.Layer) : ∀ (g : gmap nat Feature) kept,
  LayerGroup.getLayers g ≡ₚ kept ++ rm →
  LayerGroup.getLayers
    (foldl (fun g layer => LayerGroup.removeLayer layer g) g rm) ≡ₚ kept.
Proof.
  induction rm as [|layer rm IH]; intros g kept Hg; simpl.
  - by rewrite app_nil_r in Hg.
  - apply IH.
    assert (Hin : layer ∈ LayerGroup.getLayers g).
    { rewrite Hg. set_solver. }
    rewrite (getLayers_delete g layer Hin) in Hg.
    rewrite <- Permutation_middle in Hg.
    by apply Permutation_cons_inv in Hg.
Qed.

Lemma getLayers_addData (g : gmap nat Feature) (f : Feature) :
  LayerGroup.feature <$> LayerGroup.getLayers (LayerGroup.addData f g)
  ≡ₚ f :: (LayerGroup.feature <$> LayerGroup.getLayers g).
Proof.
  rewrite !getLayers_perm. unfold LayerGroup.addData.
  rewrite map_to_list_insert.
  - done.
  - apply not_elem_of_dom. apply is_fresh.
Qed.

(** Adding the features of [fs] displays them next to what was there. *)
Lemma getLayers_add (fs : list Feature) : ∀ (g : gmap nat Feature),
  LayerGroup.feature <$>
    LayerGroup.getLayers (foldl (fun g f => LayerGroup.addData f g) g fs)
  ≡ₚ (LayerGroup.feature <$> LayerGroup.getLayers g) ++ fs.
Proof.
  induction fs as [|f fs IH]; intros g; simpl.
  - by rewrite app_nil_r.
  - rewrite IH, getLayers_addData. simpl. apply Permutation_middle.
Qed.

End LayerGroupFacts.

(* ===================================================================== *)
(** * Matching the displayed layers against the features *)
(* ===================================================================== *)

Section MatchFacts.
Context `{Host}.

Lemma find_splice_spec (f : Feature) (fs : list Feature) :
  match Timeline.find_splice f fs with
  | Some fs' => fs ≡ₚ f :: fs'
  | None => f ∉ fs
  end.
Proof.
  induction fs as [|g fs IH]; simpl.
  - set_solver.
  - destruct (decide (f = g)) as [->|Hne]; [done|].
    destruct (Timeline.find_splice f fs) as [fs'|]; simpl.
    + rewrite IH. apply perm_swap.
    + set_solver.
Qed.

(** The loop over the layers: the layers split into those kept and those
    to remove, and the features into those of the kept layers and those
    left over. *)
Lemma foldl_match_layer (ls : list LayerGroup.Layer) : ∀ fs rm0,
  ∃ kept rm1,
    (foldl Timeline.match_layer (fs, rm0) ls).2 = rm0 ++ rm1
    ∧ ls ≡ₚ kept ++ rm1
    ∧ fs ≡ₚ (LayerGroup.feature <$> kept)
            ++ (foldl Timeline.match_layer (fs, rm0) ls).1.
Proof.
  induction ls as [|layer ls IH]; intros fs rm0.
  - exists [], []. simpl. by rewrite app_nil_r.
  - cbn [foldl]. unfold Timeline.match_layer at 2 4.
    pose proof (find_splice_spec (LayerGroup.feature layer) fs) as Hsp.
    destruct (Timeline.find_splice (LayerGroup.feature layer) fs) as [fs'|].
    + destruct (IH fs' rm0) as (kept & rm1 & H1 & H2 & H3).
      exists (layer :: kept), rm1. split; [done|]. split.
      * simpl. by rewrite H2.
      * rewrite Hsp. simpl. by rewrite <- H3.
    + destruct (IH fs (rm0 ++ [layer])) as (kept & rm1 & H1 & H2 & H3).
      exists kept, (layer :: rm1). split; [|split].
      * rewrite H1, <- app_assoc. done.
      * rewrite H2. apply Permutation_middle.
      * done.
Qed.

(** When the layers display exactly the features, nothing is left over
    and nothing is to remove. *)
Lemma foldl_match_layer_all (ls : list LayerGroup.Layer) : ∀ fs rm0,
  LayerGroup.feature <$> ls ≡ₚ fs →
  foldl Timeline.match_layer (fs, rm0) ls = ([], rm0).
Proof.
  induction ls as [|layer ls IH]; intros fs rm0 Hp.
  - simpl in Hp. apply Permutation_nil_l in Hp. by subst.
  - cbn [foldl]. unfold Timeline.match_layer at 2.
    pose proof (find_splice_spec (LayerGroup.feature layer) fs) as Hsp.
    destruct (Timeline.find_splice (LayerGroup.feature layer) fs) as [fs'|].
    + apply IH. rewrite Hsp in Hp. simpl in Hp.
      by apply Permutation_cons_inv in Hp.
    + exfalso. apply Hsp. rewrite <- Hp. set_solver.
Qed.

Lemma foldl_removeLayer (rm : list LayerGroup.Layer) : ∀ this,
  let this' := foldl (fun this layer => Timeline.removeLayer layer this) this rm in
  this' = Timeline.mk (Timeline.options this) (Timeline.times this)
            (Timeline.ranges this) (Timeline.start this) (Timeline.end_ this)
            (Timeline.timeStart this) (Timeline.timeEnd this)
            (foldl (fun g layer => LayerGroup.removeLayer layer g)
               (Timeline.layers this) rm)
            (Timeline.trace this ++ (RemoveLayer <$> rm)).
Proof.
  induction rm as [|layer rm IH]; intros this; simpl.
  - rewrite app_nil_r. by destruct this.
  - cbv zeta in IH. rewrite IH. simpl. by rewrite <- app_assoc.
Qed.

Lemma foldl_addData (fs : list Feature) : ∀ this,
  let this' := foldl (fun this feature => Timeline.addData feature this) this fs in
  this' = Timeline.mk (Timeline.options this) (Timeline.times this)
            (Timeline.ranges this) (Timeline.start this) (Timeline.end_ this)
            (Timeline.timeStart this) (Timeline.timeEnd this)
            (foldl (fun g f => LayerGroup.addData f g) (Timeline.layers this) fs)
            (Timeline.trace this ++ (AddData <$> fs)).
Proof.
  induction fs as [|f fs IH]; intros this; simpl.
  - rewrite app_nil_r. by destruct this.
  - cbv zeta in IH. rewrite IH. simpl. by rewrite <- app_assoc.
Qed.

(** [updateDisplayedLayers] field by field. *)
Lemma updateDisplayedLayers_fields (this : Timeline.t) :
  let features :=
    IntervalTree.overlap (Timeline.timeStart this) (Timeline.timeEnd this)
      (Timeline.ranges this) in
  let r := foldl Timeline.match_layer (features, []) (Timeline.getLayers this) in
  Timeline.updateDisplayedLayers this =
  Timeline.mk (Timeline.options this) (Timeline.times this)
    (Timeline.ranges this) (Timeline.start this) (Timeline.end_ this)
    (Timeline.timeStart this) (Timeline.timeEnd this)
    (foldl (fun g f => LayerGroup.addData f g)
       (foldl (fun g layer => LayerGroup.removeLayer layer g)
          (Timeline.layers this) r.2) r.1)
    (Timeline.trace this ++ (RemoveLayer <$> r.2) ++ (AddData <$> r.1)).
Proof.
  cbv zeta. unfold Timeline.updateDisplayedLayers.
  destruct (foldl Timeline.match_layer _ _) as [fs rm].
  pose proof (foldl_addData fs) as Ha. cbv zeta in Ha. rewrite Ha.
  pose proof (foldl_removeLayer rm) as Hr. cbv zeta in Hr. rewrite Hr.
  simpl. by rewrite <- app_assoc.
Qed.

(** After [updateDisplayedLayers] the displayed features are those of the
    overlap query, each as often as the query returns it. *)
Lemma displayed_after_update (this : Timeline.t) :
  displayed (Timeline.updateDisplayedLayers this) ≡ₚ
  IntervalTree.overlap (Timeline.timeStart this) (Timeline.timeEnd this)
    (Timeline.ranges this).
Proof.
  unfold displayed, Timeline.getLayers at 1.
  pose proof (updateDisplayedLayers_fields this) as Hf. cbv zeta in Hf.
  rewrite Hf. cbn [Timeline.layers]. clear Hf.
  destruct (foldl_match_layer (Timeline.getLayers this)
              (IntervalTree.overlap (Timeline.timeStart this)
                 (Timeline.timeEnd this) (Timeline.ranges this)) [])
    as (kept & rm1 & H1 & H2 & H3).
  rewrite getLayers_add.
  rewrite (getLayers_remove _ (Timeline.layers this) kept).
  - by rewrite <- H3.
  - rewrite H1. simpl. exact H2.
Qed.

(** A timeline that displays exactly the overlap is left as it is. *)
Lemma update_when_displayed (this : Timeline.t) :
  displayed this ≡ₚ
    IntervalTree.overlap (Timeline.timeStart this) (Timeline.timeEnd this)
      (Timeline.ranges this) →
  Timeline.updateDisplayedLayers this = this.
Proof.
  intros Hd. pose proof (updateDisplayedLayers_fields this) as Hf.
  cbv zeta in Hf. rewrite Hf.
  rewrite (foldl_match_layer_all _ _ [] Hd). simpl.
  rewrite app_nil_r. by destruct this.
Qed.

End MatchFacts.

(* ===================================================================== *)
(** * The merged time list of the control *)
(* ===================================================================== *)

Section GetTimesFacts.

Lemma foldl_push_times (this : TimelineSliderControl.t) (store : Store)
    (l : list TimelineRef) : ∀ times,
  foldl (fun times timeline =>
           times ++ filter (TimelineSliderControl.in_range this)
                      (Timeline.times (store timeline))) times l
  = times ++ (l ≫= fun timeline =>
                filter (TimelineSliderControl.in_range this)
                  (Timeline.times (store timeline))).
Proof.
  induction l as [|r l IH]; intros times; simpl.
  - by rewrite app_nil_r.
  - rewrite IH. by rewrite <- app_assoc.
Qed.

Lemma getTimes_unfold (this : TimelineSliderControl.t) (store : Store) :
  TimelineSliderControl._getTimes this store =
  match sort sub (times_in_range this store) with
  | [] => []
  | x :: rest => foldl push_new [x] rest
  end.
Proof.
  unfold TimelineSliderControl._getTimes. rewrite foldl_push_times.
  rewrite app_nil_l. fold (times_in_range this store).
  case_bool_decide as Hlen.
  - destruct (sort sub (times_in_range this store)) as [|x rest] eqn:Hs.
    + apply sort_nil_inv in Hs. by rewrite Hs in Hlen.
    + simpl. rewrite drop_0. apply foldl_getTimes_step. done.
  - assert (times_in_range this store = []) as ->; [|done].
    apply nil_length_inv. by destruct (length _).
Qed.

(** The range test lets no [NaN] through. *)
Lemma in_range_number (this : TimelineSliderControl.t) (time : num) :
  TimelineSliderControl.in_range this time → is_number time.
Proof.
  unfold TimelineSliderControl.in_range. rewrite andb_true_iff.
  intros [Hge _]. by apply (le_number_r _ _ Hge).
Qed.

Lemma times_in_range_number (this : TimelineSliderControl.t) (store : Store) :
  Forall is_number (times_in_range this store).
Proof.
  apply Forall_forall. intros x Hx. unfold times_in_range in Hx.
  apply list_elem_of_bind in Hx as (r & Hx & _).
  apply list_elem_of_filter in Hx as [Hx _]. by eapply in_range_number.
Qed.

(** The merged list is strictly increasing. *)
Lemma getTimes_sorted (this : TimelineSliderControl.t) (store : Store) :
  StronglySorted lt (TimelineSliderControl._getTimes this store).
Proof.
  rewrite getTimes_unfold.
  pose proof (sort_sorted _ (times_in_range_number this store)) as Hs.
  pose proof (sort_number _ (times_in_range_number this store)) as Hn.
  destruct (sort sub (times_in_range this store)) as [|x rest]; [constructor|].
  apply Forall_cons in Hn as [Hx _]. by apply dedupe_sorted.
Qed.

(** It holds numbers only. *)
Lemma getTimes_number (this : TimelineSliderControl.t) (store : Store) :
  Forall is_number (TimelineSliderControl._getTimes this store).
Proof.
  rewrite getTimes_unfold.
  pose proof (sort_number _ (times_in_range_number this store)) as Hn.
  destruct (sort sub (times_in_range this store)) as [|x rest]; [constructor|].
  apply Forall_forall. intros y Hy. rewrite Forall_forall in Hn.
  apply Hn. apply elem_of_foldl_push_new in Hy. set_solver.
Qed.

(** It holds the times that the timelines contribute, and no other. *)
Lemma elem_of_getTimes (this : TimelineSliderControl.t) (store : Store) (y : num) :
  y ∈ TimelineSliderControl._getTimes this store ↔ y ∈ times_in_range this store.
Proof.
  rewrite getTimes_unfold.
  pose proof (sort_perm (times_in_range this store)) as Hp.
  destruct (sort sub (times_in_range this store)) as [|x rest].
  - by rewrite <- Hp.
  - rewrite <- Hp, elem_of_foldl_push_new. set_solver.
Qed.

End GetTimesFacts.

(* ===================================================================== *)
(** * The nearest event time *)
(* ===================================================================== *)

Section NearestFacts.

Lemma sorted_head_lt (l0 x : num) (rest : list num) :
  StronglySorted lt (l0 :: rest) → x ∈ rest → lt l0 x.
Proof.
  intros Hs Hx. apply StronglySorted_cons in Hs as [Hall _].
  rewrite Forall_forall in Hall. by apply Hall.
Qed.

(** Backward: the time before [findTime], or the first time. *)
Lemma nearest_loop_backward (findTime : num) (rest : list num) : ∀ l0,
  is_number findTime →
  Forall is_number (l0 :: rest) →
  StronglySorted lt (l0 :: rest) →
  ∃ r, TimelineSliderControl.nearest_loop findTime (-1) rest false (Some l0) = Some r
       ∧ (is_prev_before (l0 :: rest) findTime r
          ∨ ((∀ x, x ∈ l0 :: rest → ¬ lt x findTime) ∧ r = l0)).
Proof.
  intros l0 Hfind. revert l0.
  induction rest as [|time rest IH]; intros l0 Hnum Hs.
  - apply Forall_cons in Hnum as [Hl0 _].
    exists l0. split; [done|].
    destruct (ltb l0 findTime) eqn:Hlt.
    + left. split; [set_solver|]. split; [done|].
      intros x Hx _. apply list_elem_of_singleton in Hx as ->. by apply le_refl.
    + right. split; [|done]. intros x Hx.
      apply list_elem_of_singleton in Hx as ->. unfold lt. by rewrite Hlt.
  - assert (Hhead : ∀ x, x ∈ time :: rest → lt l0 x)
      by (intros x; by apply sorted_head_lt).
    apply StronglySorted_cons in Hs as [Hall Hs].
    apply Forall_cons in Hnum as [Hl0 Hnum].
    pose proof Hnum as Hnum'. apply Forall_cons in Hnum' as [Htime _].
    cbn [TimelineSliderControl.nearest_loop]. rewrite geb_leb.
    destruct (leb findTime time) eqn:Hge.
    + rewrite bool_decide_eq_true_2 by done.
      exists l0. split; [done|].
      assert (Hrest : ∀ x, x ∈ time :: rest → ¬ lt x findTime).
      { intros x Hx Hlt. apply (lt_not_le x findTime Hlt).
        apply (le_trans _ time); [done|].
        apply elem_of_cons in Hx as [->|Hx]; [by apply le_refl|].
        apply lt_le. by eapply sorted_head_lt. }
      destruct (ltb l0 findTime) eqn:Hlt.
      * left. split; [set_solver|]. split; [done|].
        intros x Hx Hxlt. apply elem_of_cons in Hx as [->|Hx]; [by apply le_refl|].
        by destruct (Hrest x Hx).
      * right. split; [|done]. intros x Hx.
        apply elem_of_cons in Hx as [->|Hx]; [|by apply Hrest].
        unfold lt. by rewrite Hlt.
    + apply leb_false_lt in Hge; [|done..].
      destruct (IH time Hnum Hs) as (r & Hr & Hcase). exists r. split; [done|].
      left. destruct Hcase as [(Hin & Hlt & Hmax)|[Hnone _]].
      * split; [set_solver|]. split; [done|].
        intros x Hx Hxlt. apply elem_of_cons in Hx as [->|Hx]; [|by apply Hmax].
        apply (le_trans _ time).
        -- apply lt_le, Hhead. set_solver.
        -- apply Hmax; [set_solver|done].
      * destruct (Hnone time); [set_solver|done].
Qed.

(** Forward, from a first time at or before [findTime]: the time after
    [findTime], or the last time. *)
Lemma nearest_loop_forward (findTime : num) (mode : Z) (rest : list num) : ∀ l0,
  mode ≠ -1 →
  Forall is_number (l0 :: rest) →
  StronglySorted lt (l0 :: rest) →
  le l0 findTime →
  ∃ r, TimelineSliderControl.nearest_loop findTime mode rest false (Some l0) = Some r
       ∧ (is_next_after (l0 :: rest) findTime r
          ∨ ((∀ x, x ∈ l0 :: rest → ¬ lt findTime x) ∧ last (l0 :: rest) = Some r)).
Proof.
  intros l0 Hmode. revert l0.
  induction rest as [|time rest IH]; intros l0 Hnum Hs Hl0.
  - exists l0. split; [done|]. right. split; [|done].
    intros x Hx Hlt. apply list_elem_of_singleton in Hx as ->.
    by apply (lt_not_le _ _ Hlt).
  - assert (Hhead : ∀ x, x ∈ time :: rest → lt l0 x)
      by (intros x; by apply sorted_head_lt).
    pose proof (le_number_r _ _ Hl0) as Hfind.
    apply StronglySorted_cons in Hs as [Hall Hs].
    apply Forall_cons in Hnum as [_ Hnum].
    pose proof Hnum as Hnum'. apply Forall_cons in Hnum' as [Htime Hrestnum].
    cbn [TimelineSliderControl.nearest_loop]. rewrite geb_leb.
    rewrite bool_decide_eq_false_2 by done.
    destruct (leb findTime time) eqn:Hge.
    + destruct (eqb time findTime) eqn:Heq.
      * apply eqb_true in Heq as ->.
        destruct rest as [|next rest]; simpl.
        -- exists findTime. split; [done|]. right. split; [|done].
           intros x Hx Hlt. apply elem_of_cons in Hx as [->|Hx].
           ++ by apply (lt_not_le _ _ Hlt).
           ++ apply list_elem_of_singleton in Hx as ->.
              unfold lt in Hlt. by rewrite ltb_irrefl in Hlt.
        -- exists next. split; [done|]. left.
           assert (Hnext : ∀ x, x ∈ next :: rest → lt findTime x)
             by (intros x; by apply sorted_head_lt).
           split; [set_solver|]. split; [apply Hnext; set_solver|].
           intros x Hx Hlt.
           apply elem_of_cons in Hx as [->|Hx]; [by destruct (lt_not_le _ _ Hlt)|].
           apply elem_of_cons in Hx as [->|Hx].
           { unfold lt in Hlt. by rewrite ltb_irrefl in Hlt. }
           apply elem_of_cons in Hx as [->|Hx].
           { apply le_refl. by apply Forall_cons in Hrestnum as [? _]. }
           apply StronglySorted_cons in Hs as [_ Hs].
           apply lt_le. by eapply sorted_head_lt.
      * exists time. split; [done|]. left.
        assert (Hlt : lt findTime time).
        { apply le_neq_lt; [done|]. intros ->. by rewrite eqb_refl in Heq. }
        split; [set_solver|]. split; [done|].
        intros x Hx Hxlt.
        apply elem_of_cons in Hx as [->|Hx]; [by destruct (lt_not_le _ _ Hxlt)|].
        apply elem_of_cons in Hx as [->|Hx]; [by apply le_refl|].
        apply lt_le. by eapply sorted_head_lt.
    + apply leb_false_lt in Hge; [|done..].
      destruct (IH time Hnum Hs (lt_le _ _ Hge)) as (r & Hr & Hcase).
      exists r. split; [done|].
      destruct Hcase as [(Hin & Hlt & Hmin)|[Hnone Hlast]].
      * left. split; [set_solver|]. split; [done|].
        intros x Hx Hxlt.
        apply elem_of_cons in Hx as [->|Hx]; [by destruct (lt_not_le _ _ Hxlt)|].
        by apply Hmin.
      * right. split; [|done]. intros x Hx Hxlt.
        apply elem_of_cons in Hx as [->|Hx]; [by destruct (lt_not_le _ _ Hxlt)|].
        by apply (Hnone x).
Qed.

End NearestFacts.

(* ===================================================================== *)
(** * Moving the selection of a timeline *)
(* ===================================================================== *)

Section SetTimeFacts.
Context `{Host}.

(** What [updateDisplayedLayers] leaves alone. *)
Lemma updateDisplayedLayers_frame (this : Timeline.t) :
  let this' := Timeline.updateDisplayedLayers this in
  Timeline.options this' = Timeline.options this
  ∧ Timeline.times this' = Timeline.times this
  ∧ Timeline.ranges this' = Timeline.ranges this
  ∧ Timeline.start this' = Timeline.start this
  ∧ Timeline.end_ this' = Timeline.end_ this
  ∧ Timeline.timeStart this' = Timeline.timeStart this
  ∧ Timeline.timeEnd this' = Timeline.timeEnd this.
Proof.
  cbv zeta. pose proof (updateDisplayedLayers_fields this) as Hf.
  cbv zeta in Hf. rewrite Hf. done.
Qed.

Lemma setStartTime_frame (time : Value) (this : Timeline.t) :
  let this' := Timeline.setStartTime time this in
  Timeline.options this' = Timeline.options this
  ∧ Timeline.times this' = Timeline.times this
  ∧ Timeline.ranges this' = Timeline.ranges this
  ∧ Timeline.start this' = Timeline.start this
  ∧ Timeline.end_ this' = Timeline.end_ this
  ∧ Timeline.timeStart this' = Timeline.to_time time
  ∧ Timeline.timeEnd this' = Timeline.timeEnd this.
Proof.
  cbv zeta. unfold Timeline.setStartTime.
  destruct (Timeline.draws _); [|done].
  pose proof (updateDisplayedLayers_frame
                (Timeline.set_timeStart (Timeline.to_time time) this)) as Hf.
  cbv zeta in Hf. destruct Hf as (F1 & F2 & F3 & F4 & F5 & F6 & F7).
  cbn. rewrite F1, F2, F3, F4, F5, F6, F7. done.
Qed.

Lemma setEndTime_frame (time : Value) (this : Timeline.t) :
  let this' := Timeline.setEndTime time this in
  Timeline.options this' = Timeline.options this
  ∧ Timeline.times this' = Timeline.times this
  ∧ Timeline.ranges this' = Timeline.ranges this
  ∧ Timeline.start this' = Timeline.start this
  ∧ Timeline.end_ this' = Timeline.end_ this
  ∧ Timeline.timeStart this' = Timeline.timeStart this
  ∧ Timeline.timeEnd this' = Timeline.to_time time.
Proof.
  cbv zeta. unfold Timeline.setEndTime.
  destruct (Timeline.draws _); [|done].
  pose proof (updateDisplayedLayers_frame
                (Timeline.set_timeEnd (Timeline.to_time time) this)) as Hf.
  cbv zeta in Hf. destruct Hf as (F1 & F2 & F3 & F4 & F5 & F6 & F7).
  cbn. rewrite F1, F2, F3, F4, F5, F6, F7. done.
Qed.

End SetTimeFacts.

(* ===================================================================== *)
(** * The control: bounds, registration and the pushed selection *)
(* ===================================================================== *)

Section ControlFacts.
Context `{Host}.

(** The running minimum and maximum of [_recalculate]. *)
Lemma foldl_recalculate_step (store : Store) (l : list TimelineRef) : ∀ mn mx,
  is_number mn → is_number mx →
  let r := foldl (TimelineSliderControl.recalculate_step store) (mn, mx) l in
  (le r.1 mn
   ∧ (∀ x, x ∈ l → is_number (Timeline.start (store x)) →
           le r.1 (Timeline.start (store x)))
   ∧ (r.1 = mn ∨ ∃ x, x ∈ l ∧ r.1 = Timeline.start (store x)))
  ∧ (le mx r.2
     ∧ (∀ x, x ∈ l → is_number (Timeline.end_ (store x)) →
             le (Timeline.end_ (store x)) r.2)
     ∧ (r.2 = mx ∨ ∃ x, x ∈ l ∧ r.2 = Timeline.end_ (store x))).
Proof.
  induction l as [|t l IH]; intros mn mx Hmn Hmx.
  - simpl. repeat split; try (by apply le_refl); try (by left); set_solver.
  - cbn [foldl].
    destruct (TimelineSliderControl.recalculate_step store (mn, mx) t)
      as [a b] eqn:Hst.
    unfold TimelineSliderControl.recalculate_step in Hst.
    injection Hst as Hsa Hsb.
    assert (Ha : le a mn
                 ∧ (is_number (Timeline.start (store t)) →
                    le a (Timeline.start (store t)))
                 ∧ (a = mn ∨ a = Timeline.start (store t))).
    { subst a. destruct (ltb (Timeline.start (store t)) mn) eqn:Hlt.
      - split; [by apply lt_le|].
        split; [intros; by apply le_refl|by right].
      - split; [by apply le_refl|].
        split; [intros; by apply ltb_false_le|by left]. }
    assert (Hb : le mx b
                 ∧ (is_number (Timeline.end_ (store t)) →
                    le (Timeline.end_ (store t)) b)
                 ∧ (b = mx ∨ b = Timeline.end_ (store t))).
    { subst b. unfold gtb. destruct (ltb mx (Timeline.end_ (store t))) eqn:Hlt.
      - split; [by apply lt_le|].
        split; [intros; by apply le_refl|by right].
      - split; [by apply le_refl|].
        split; [intros; by apply ltb_false_le|by left]. }
    clear Hsa Hsb.
    destruct Ha as (Ha1 & Ha2 & Ha3), Hb as (Hb1 & Hb2 & Hb3).
    specialize (IH a b (le_number_l _ _ Ha1) (le_number_r _ _ Hb1)).
    cbv zeta in IH.
    destruct IH as ((A1 & A2 & A3) & (B1 & B2 & B3)).
    cbv zeta.
    split; (split; [|split]).
    + eapply le_trans; eauto.
    + intros x Hx Hn. apply elem_of_cons in Hx as [->|Hx]; [|by apply A2].
      eapply le_trans; eauto.
    + destruct A3 as [A3|(x & Hx & A3)];
        [|right; exists x; split; [set_solver|done]].
      destruct Ha3 as [Ha3|Ha3];
        [left; by rewrite A3|right; exists t; split; [set_solver|by rewrite A3]].
    + eapply le_trans; eauto.
    + intros x Hx Hn. apply elem_of_cons in Hx as [->|Hx]; [|by apply B2].
      eapply le_trans; eauto.
    + destruct B3 as [B3|(x & Hx & B3)];
        [|right; exists x; split; [set_solver|done]].
      destruct Hb3 as [Hb3|Hb3];
        [left; by rewrite B3|right; exists t; split; [set_solver|by rewrite B3]].
Qed.

(** [forEach] over the registered timelines: a timeline that is not
    registered is left alone. *)
Lemma forEach_other (f : Timeline.t → Timeline.t) (l : list TimelineRef) :
  ∀ (store : Store) (r : TimelineRef),
  r ∉ l →
  foldl (fun store timeline => <[timeline := f (store timeline)]> store) store l r
  = store r.
Proof.
  induction l as [|t l IH]; intros store r Hr; [done|].
  simpl. rewrite IH by set_solver.
  apply fn_lookup_insert_ne. set_solver.
Qed.

(** What [f] keeps, [forEach] keeps. *)
Lemma forEach_preserved (P : Timeline.t → Prop) (f : Timeline.t → Timeline.t)
    (l : list TimelineRef) :
  (∀ x, P x → P (f x)) →
  ∀ (store : Store) (r : TimelineRef),
  P (store r) →
  P (foldl (fun store timeline => <[timeline := f (store timeline)]> store) store l r).
Proof.
  intros Hf. induction l as [|t l IH]; intros store r Hr; [done|].
  simpl. apply IH. destruct (decide (t = r)) as [->|Hne].
  - rewrite fn_lookup_insert. by apply Hf.
  - by rewrite fn_lookup_insert_ne.
Qed.

(** What [f] brings about and keeps holds of every registered timeline. *)
Lemma forEach_established (P : Timeline.t → Prop) (f : Timeline.t → Timeline.t)
    (l : list TimelineRef) :
  (∀ x, P (f x)) →
  ∀ (store : Store) (r : TimelineRef),
  r ∈ l →
  P (foldl (fun store timeline => <[timeline := f (store timeline)]> store) store l r).
Proof.
  intros Hf. induction l as [|t l IH]; intros store r Hr; [set_solver|].
  simpl. destruct (decide (t = r)) as [->|Hne].
  - apply forEach_preserved; [intros x _; apply Hf|].
    rewrite fn_lookup_insert. apply Hf.
  - apply IH. set_solver.
Qed.

End ControlFacts.

Section ResetFacts.
Context `{Host}.

(** [setTime]: the selection of the control and of every registered
    timeline. *)
Lemma setTime_spec (a b : num) (this : TimelineSliderControl.t) (store : Store) :
  let r := TimelineSliderControl.setTime a b this store in
  TimelineSliderControl.timelines r.1 = TimelineSliderControl.timelines this
  ∧ TimelineSliderControl.options r.1 = TimelineSliderControl.options this
  ∧ TimelineSliderControl.start r.1 = TimelineSliderControl.start this
  ∧ TimelineSliderControl.end_ r.1 = TimelineSliderControl.end_ this
  ∧ TimelineSliderControl.timeStart r.1 = Some a
  ∧ TimelineSliderControl.timeEnd r.1 = Some b
  ∧ TimelineSliderControl._timeSlider r.1
    = Slider.set (Some a) (Some b) <$> TimelineSliderControl._timeSlider this
  ∧ (∀ t, t ∈ TimelineSliderControl.timelines this →
          Timeline.timeStart (r.2 t) = a ∧ Timeline.timeEnd (r.2 t) = b)
  ∧ (∀ t, t ∉ TimelineSliderControl.timelines this → r.2 t = store t).
Proof.
  cbv zeta. unfold TimelineSliderControl.setTime, TimelineSliderControl._sliderChanged.
  rewrite (bool_decide_eq_true_2 ("change" = "change")) by done.
  rewrite orb_true_r. cbn [fst snd].
  unfold TimelineSliderControl.forEach_timeline.
  assert (Hsel : ∀ t, t ∈ TimelineSliderControl.timelines this →
    Timeline.timeStart
      (foldl (fun store timeline =>
                <[timeline := Timeline.setEndTime (VNum b) (store timeline)]> store)
         (foldl (fun store timeline =>
                   <[timeline := Timeline.setStartTime (VNum a) (store timeline)]> store)
            store (TimelineSliderControl.timelines this))
         (TimelineSliderControl.timelines this) t) = a
    ∧ Timeline.timeEnd
        (foldl (fun store timeline =>
                  <[timeline := Timeline.setEndTime (VNum b) (store timeline)]> store)
           (foldl (fun store timeline =>
                     <[timeline := Timeline.setStartTime (VNum a) (store timeline)]> store)
              store (TimelineSliderControl.timelines this))
           (TimelineSliderControl.timelines this) t) = b).
  { intros t Ht. split.
    - apply (forEach_preserved (fun x => Timeline.timeStart x = a)).
      + intros x Hx.
        pose proof (setEndTime_frame (VNum b) x) as Hf. cbv zeta in Hf.
        by destruct Hf as (_ & _ & _ & _ & _ & -> & _).
      + apply (forEach_established (fun x => Timeline.timeStart x = a)); [|done].
        intros x.
        pose proof (setStartTime_frame (VNum a) x) as Hf. cbv zeta in Hf.
        by destruct Hf as (_ & _ & _ & _ & _ & -> & _).
    - apply (forEach_established (fun x => Timeline.timeEnd x = b)); [|done].
      intros x.
      pose proof (setEndTime_frame (VNum b) x) as Hf. cbv zeta in Hf.
      by destruct Hf as (_ & _ & _ & _ & _ & _ & ->). }
  destruct this as [o tls st en ts te sy [sl|]]; cbn in *;
    (split_and!; [done..|exact Hsel|]);
    intros t Ht; by rewrite !forEach_other.
Qed.

(** [_recalculate] on a control that has its slider. *)
Lemma recalculate_spec (this : TimelineSliderControl.t) (store : Store)
    (slider : Slider.t) :
  TimelineSliderControl._timeSlider this = Some slider →
  let m := foldl (TimelineSliderControl.recalculate_step store) (PosInf, NegInf)
             (TimelineSliderControl.timelines this) in
  ∃ this' slider',
    TimelineSliderControl._recalculate this store = Some this'
    ∧ TimelineSliderControl._timeSlider this' = Some slider'
    ∧ TimelineSliderControl.timelines this' = TimelineSliderControl.timelines this
    ∧ TimelineSliderControl.options this' = TimelineSliderControl.options this
    ∧ TimelineSliderControl.start this'
      = (if TimelineSliderControl.manualStart this
         then TimelineSliderControl.start this else m.1)
    ∧ TimelineSliderControl.end_ this'
      = (if TimelineSliderControl.manualEnd this
         then TimelineSliderControl.end_ this else m.2)
    ∧ Slider.range_min slider'
      = (if TimelineSliderControl.manualStart this then Slider.range_min slider
         else if eqb m.1 PosInf then Fin 0 else m.1)
    ∧ Slider.range_max slider'
      = (if TimelineSliderControl.manualEnd this then Slider.range_max slider
         else if eqb m.2 NegInf then Fin 0 else m.2).
Proof.
  intros Hsl. cbv zeta. unfold TimelineSliderControl._recalculate.
  destruct (foldl _ _ _) as [mn mx]. cbn [fst snd].
  unfold TimelineSliderControl.manualStart, TimelineSliderControl.manualEnd.
  destruct this as [o tls st en ts te sy sl]. cbn in Hsl. subst sl. cbn.
  destruct (bool_decide (is_Some (TimelineSliderControlOptions.start o))); cbn;
    destruct (bool_decide (is_Some (TimelineSliderControlOptions.end_ o))); cbn;
    eexists _, _; split_and!; reflexivity.
Qed.

(** [_resetIfTimelinesChanged] on a control that has its slider, after a
    change of the count. *)
Lemma reset_spec (oldTimelineCount : nat) (this : TimelineSliderControl.t)
    (store : Store) (slider : Slider.t) :
  TimelineSliderControl._timeSlider this = Some slider →
  length (TimelineSliderControl.timelines this) ≠ oldTimelineCount →
  ∃ this' store',
    TimelineSliderControl._resetIfTimelinesChanged oldTimelineCount this store
    = Some (this', store')
    ∧ reset_outcome this store this' store'.
Proof.
  intros Hsl Hcount. unfold TimelineSliderControl._resetIfTimelinesChanged.
  rewrite bool_decide_eq_true_2 by done.
  destruct (recalculate_spec this store slider Hsl)
    as (this1 & slider1 & -> & Hs1 & Ht1 & Ho1 & Hst1 & Hen1 & _ & _).
  cbn [mbind option_bind].
  assert (∃ this2,
    (if TimelineSliderControl.showTicks this1
     then TimelineSliderControl._rebuildDataList this1 store else Some this1)
    = Some this2
    ∧ TimelineSliderControl.timelines this2 = TimelineSliderControl.timelines this1
    ∧ TimelineSliderControl.options this2 = TimelineSliderControl.options this1
    ∧ TimelineSliderControl.start this2 = TimelineSliderControl.start this1
    ∧ TimelineSliderControl.end_ this2 = TimelineSliderControl.end_ this1)
    as (this2 & -> & Ht2 & Ho2 & Hst2 & Hen2).
  { destruct (TimelineSliderControl.showTicks this1); [|by exists this1].
    unfold TimelineSliderControl._rebuildDataList. rewrite Hs1. cbn.
    eexists. split; [done|]. done. }
  cbn [mbind option_bind].
  pose proof (setTime_spec (TimelineSliderControl.start this2)
                (TimelineSliderControl.end_ this2) this2 store) as Hset.
  cbv zeta in Hset.
  destruct (TimelineSliderControl.setTime _ _ this2 store) as [this' store'].
  cbn [fst snd] in Hset.
  destruct Hset as (T1 & T2 & T3 & T4 & T5 & T6 & _ & T8 & T9).
  exists this', store'. split; [done|].
  pose proof (foldl_recalculate_step store (TimelineSliderControl.timelines this)
                PosInf NegInf) as Hm.
  cbv zeta in Hm. destruct Hm as ((M1 & M2 & M3) & (N1 & N2 & N3)); [done..|].
  unfold reset_outcome.
  rewrite T1, T3, T4, T5, T6, T2, Ht2, Ho2, Hst2, Hen2, Ht1, Ho1, Hst1, Hen1.
  rewrite Ht2, Ht1 in T8, T9. rewrite Hst2, Hen2, Hst1, Hen1 in T8.
  split_and!; try done.
  - destruct (TimelineSliderControl.manualStart this); [done|].
    split; [by apply (le_number_l _ _ M1)|]. by split.
  - destruct (TimelineSliderControl.manualEnd this); [done|].
    split; [by apply (le_number_r _ _ N1)|]. by split.
Qed.

End ResetFacts.

(* ===================================================================== *)
(** * The timeline: what the spec claims of it *)
(* ===================================================================== *)

Section TimelineClaims.
Context `{Host}.

(** C1.  [updateDisplayedLayers] leaves the selection and the tree as
    they are, and after it the features of the displayed layers are exactly
    the features that [overlap(timeStart, timeEnd)] returns on the tree:
    every feature of the overlap is displayed, no other feature is, and
    each is displayed as often as the query returns it. *)
Theorem displayed_equals_overlap (this : Timeline.t) :
  let this' := Timeline.updateDisplayedLayers this in
  let features :=
    IntervalTree.overlap (Timeline.timeStart this) (Timeline.timeEnd this)
      (Timeline.ranges this) in
  Timeline.timeStart this' = Timeline.timeStart this
  ∧ Timeline.timeEnd this' = Timeline.timeEnd this
  ∧ Timeline.ranges this' = Timeline.ranges this
  ∧ displayed this' ≡ₚ features
  ∧ (∀ f, f ∈ displayed this' ↔ f ∈ features)
  ∧ (∀ layer, layer ∈ Timeline.getLayers this' →
              LayerGroup.feature layer ∈ features).
Proof.
  cbv zeta. pose proof (updateDisplayedLayers_frame this) as Hf.
  cbv zeta in Hf. destruct Hf as (_ & _ & Hr & _ & _ & Hs & He).
  pose proof (displayed_after_update this) as Hd.
  split_and!; [done..| |].
  - intros f. by rewrite Hd.
  - intros layer Hl. rewrite <- Hd. unfold displayed.
    apply list_elem_of_fmap. by exists layer.
Qed.

(** The entries of the tree of a timeline are those of the features with
    an interval. *)
Lemma elem_of_ranges (data : list Feature) (o : TimelineOptions.t)
    (s e : num) (f : Feature) :
  let tl := Timeline.initialize data o in
  (s, e, f) ∈ Timeline.ranges tl ↔
  f ∈ data ∧ Timeline._getInterval tl f = Some (TimeBounds.mk s e).
Proof.
  cbv zeta. destruct (initialize_fields data o) as (_ & -> & _).
  rewrite list_elem_of_bind. unfold entries. split.
  - intros (g & Hin & Hg).
    destruct (Timeline._getInterval _ g) as [[s' e']|] eqn:Hiv; [|set_solver].
    apply list_elem_of_singleton in Hin. simplify_eq/=. done.
  - intros [Hf Hiv]. exists f. rewrite Hiv. set_solver.
Qed.

(** C2.  For an entry [(s, e, f)] of the tree of a timeline and a query
    [qs, qe], in whatever order its bounds come: [f] is in
    [overlap(qs, qe)] if and only if [s <= qe] and [e >= qs]. *)
Theorem overlap_correct (data : list Feature) (o : TimelineOptions.t)
    (s e : num) (f : Feature) (qs qe : num) :
  let tl := Timeline.initialize data o in
  (s, e, f) ∈ Timeline.ranges tl →
  (f ∈ IntervalTree.overlap qs qe (Timeline.ranges tl)
   ↔ leb s qe = true ∧ geb e qs = true).
Proof.
  cbv zeta. intros Hentry. unfold IntervalTree.overlap.
  rewrite list_elem_of_fmap. split.
  - intros ([[s' e'] f'] & Hf & Hin). simpl in Hf. subst f'.
    apply list_elem_of_filter in Hin as [Hq Hin].
    apply elem_of_ranges in Hentry as [_ Hiv].
    apply elem_of_ranges in Hin as [_ Hiv'].
    rewrite Hiv in Hiv'. simplify_eq.
    unfold IntervalTree.intersects in Hq. simpl in Hq.
    by apply andb_true_iff in Hq.
  - intros [Hs He]. exists (s, e, f). split; [done|].
    apply list_elem_of_filter. split; [|done].
    unfold IntervalTree.intersects. simpl. by rewrite Hs, He.
Qed.

(** The values of the time list of a timeline are the starts and the ends
    of the intervals of the features that have one, whatever they are. *)
Lemma elem_of_times (data : list Feature) (o : TimelineOptions.t) (x : num) :
  let tl := Timeline.initialize data o in
  x ∈ Timeline.times tl ↔
  ∃ f interval, f ∈ data
    ∧ Timeline._getInterval tl f = Some interval
    ∧ (x = TimeBounds.start interval ∨ x = TimeBounds.end_ interval).
Proof.
  cbv zeta. destruct (initialize_fields data o) as (_ & _ & -> & _).
  set (tl := Timeline.initialize data o).
  assert (Hraw : x ∈ data ≫= end_points tl ↔
            ∃ f interval, f ∈ data
              ∧ Timeline._getInterval tl f = Some interval
              ∧ (x = TimeBounds.start interval ∨ x = TimeBounds.end_ interval)).
  { rewrite list_elem_of_bind. unfold end_points. split.
    - intros (f & Hx & Hf).
      destruct (Timeline._getInterval tl f) as [iv|] eqn:Hiv; [|set_solver].
      exists f, iv. set_solver.
    - intros (f & iv & Hf & Hiv & Hx). exists f. rewrite Hiv. set_solver. }
  pose proof (sort_perm (data ≫= end_points tl)) as Hp.
  destruct (sort sub (data ≫= end_points tl)) as [|y rest].
  - by rewrite <- Hraw, <- Hp.
  - rewrite <- Hraw, <- Hp, elem_of_foldl_push_new. set_solver.
Qed.

(** The end points pushed for a collection with numeric intervals are
    numbers. *)
Lemma end_points_number (data : list Feature) (tl : Timeline.t) :
  numeric_intervals tl data → Forall is_number (data ≫= end_points tl).
Proof.
  intros Hnum. apply Forall_forall. intros x Hx.
  apply list_elem_of_bind in Hx as (f & Hx & Hf). unfold end_points in Hx.
  destruct (Timeline._getInterval tl f) as [iv|] eqn:Hiv; [|set_solver].
  destruct (Hnum f iv Hf Hiv) as [Hs He]. set_solver.
Qed.

(** C6, as the code has it.  When the start and the end of every extracted
    interval are numbers, the time list of a timeline is strictly
    increasing, and its values are exactly the starts and the ends of the
    intervals of the features that have one. *)
Theorem times_sorted_distinct (data : list Feature) (o : TimelineOptions.t) :
  let tl := Timeline.initialize data o in
  numeric_intervals tl data →
  StronglySorted lt (Timeline.times tl)
  ∧ ∀ x, x ∈ Timeline.times tl ↔
         ∃ f interval, f ∈ data
           ∧ Timeline._getInterval tl f = Some interval
           ∧ (x = TimeBounds.start interval ∨ x = TimeBounds.end_ interval).
Proof.
  cbv zeta. intros Hnum. split; [|intros x; apply elem_of_times].
  destruct (initialize_fields data o) as (_ & _ & -> & _).
  set (tl := Timeline.initialize data o) in *.
  pose proof (sort_sorted _ (end_points_number data tl Hnum)) as Hs.
  pose proof (sort_number _ (end_points_number data tl Hnum)) as Hn.
  destruct (sort sub (data ≫= end_points tl)) as [|x rest]; [constructor|].
  apply Forall_cons in Hn as [Hx _].
  by destruct (dedupe_sorted x rest Hx Hs) as [H1 _].
Qed.

(** C8.  A second [updateDisplayedLayers] in a row changes nothing: it
    tells the view to add no layer and to remove none. *)
Theorem update_twice (this : Timeline.t) :
  let once := Timeline.updateDisplayedLayers this in
  let twice := Timeline.updateDisplayedLayers once in
  Timeline.trace twice = Timeline.trace once
  ∧ Timeline.layers twice = Timeline.layers once
  ∧ twice = once.
Proof.
  cbv zeta.
  rewrite (update_when_displayed (Timeline.updateDisplayedLayers this));
    [done|].
  pose proof (updateDisplayedLayers_frame this) as Hf.
  cbv zeta in Hf. destruct Hf as (_ & _ & -> & _ & _ & -> & ->).
  apply displayed_after_update.
Qed.

(** C9.  [setStartTime(t)], for a number or a string [t], changes the
    start of the selection and leaves its end, the tree and the time list
    alone; when [drawOnSetTime] is on it updates the displayed layers, and
    when it is off it leaves them alone; in both cases it fires [change]
    last.  [setEndTime(t)] does the same for the end of the selection. *)
Theorem setStartTime_setEndTime (time : Value) (this : Timeline.t) :
  (let this' := Timeline.setStartTime time this in
   let moved := Timeline.set_timeStart (Timeline.to_time time) this in
   Timeline.timeStart this' = Timeline.to_time time
   ∧ Timeline.timeEnd this' = Timeline.timeEnd this
   ∧ Timeline.ranges this' = Timeline.ranges this
   ∧ Timeline.times this' = Timeline.times this
   ∧ Timeline.start this' = Timeline.start this
   ∧ Timeline.end_ this' = Timeline.end_ this
   ∧ Timeline.options this' = Timeline.options this
   ∧ (if Timeline.draws this
      then Timeline.layers this' = Timeline.layers (Timeline.updateDisplayedLayers moved)
           ∧ Timeline.trace this'
             = Timeline.trace (Timeline.updateDisplayedLayers moved) ++ [Fire "change"]
           ∧ displayed this' ≡ₚ
               IntervalTree.overlap (Timeline.to_time time) (Timeline.timeEnd this)
                 (Timeline.ranges this)
      else Timeline.layers this' = Timeline.layers this
           ∧ Timeline.trace this' = Timeline.trace this ++ [Fire "change"]))
  ∧ (let this' := Timeline.setEndTime time this in
     let moved := Timeline.set_timeEnd (Timeline.to_time time) this in
     Timeline.timeEnd this' = Timeline.to_time time
     ∧ Timeline.timeStart this' = Timeline.timeStart this
     ∧ Timeline.ranges this' = Timeline.ranges this
     ∧ Timeline.times this' = Timeline.times this
     ∧ Timeline.start this' = Timeline.start this
     ∧ Timeline.end_ this' = Timeline.end_ this
     ∧ Timeline.options this' = Timeline.options this
     ∧ (if Timeline.draws this
        then Timeline.layers this' = Timeline.layers (Timeline.updateDisplayedLayers moved)
             ∧ Timeline.trace this'
               = Timeline.trace (Timeline.updateDisplayedLayers moved) ++ [Fire "change"]
             ∧ displayed this' ≡ₚ
                 IntervalTree.overlap (Timeline.timeStart this) (Timeline.to_time time)
                   (Timeline.ranges this)
        else Timeline.layers this' = Timeline.layers this
             ∧ Timeline.trace this' = Timeline.trace this ++ [Fire "change"])).
Proof.
  split; cbv zeta.
  - pose proof (setStartTime_frame time this) as Hf. cbv zeta in Hf.
    destruct Hf as (F1 & F2 & F3 & F4 & F5 & F6 & F7).
    split_and!; try done.
    unfold Timeline.setStartTime.
    change (Timeline.draws (Timeline.set_timeStart (Timeline.to_time time) this))
      with (Timeline.draws this).
    destruct (Timeline.draws this); [|done].
    split_and!; try done.
    apply (displayed_after_update
             (Timeline.set_timeStart (Timeline.to_time time) this)).
  - pose proof (setEndTime_frame time this) as Hf. cbv zeta in Hf.
    destruct Hf as (F1 & F2 & F3 & F4 & F5 & F6 & F7).
    split_and!; try done.
    unfold Timeline.setEndTime.
    change (Timeline.draws (Timeline.set_timeEnd (Timeline.to_time time) this))
      with (Timeline.draws this).
    destruct (Timeline.draws this); [|done].
    split_and!; try done.
    apply (displayed_after_update
             (Timeline.set_timeEnd (Timeline.to_time time) this)).
Qed.

End TimelineClaims.

(* ===================================================================== *)
(** * The control: what the spec claims of it *)
(* ===================================================================== *)

Section NearestClaims.

Lemma getTimes_nil (this : TimelineSliderControl.t) (store : Store) :
  TimelineSliderControl._getTimes this store = [] ↔ times_in_range this store = [].
Proof.
  split; intros Hnil.
  - destruct (times_in_range this store) as [|x l] eqn:Hr; [done|].
    assert (Hx : x ∈ TimelineSliderControl._getTimes this store).
    { apply elem_of_getTimes. rewrite Hr. set_solver. }
    rewrite Hnil in Hx. set_solver.
  - rewrite getTimes_unfold, Hnil. done.
Qed.

(** C3, as the code has it.  On a merged time list that is not empty:
    forward (any [mode] but [-1]), from a [findTime] at or after the first
    listed time, the result is the nearest listed time strictly after
    [findTime], and the last listed time when there is none; backward
    ([mode] [-1]), for a [findTime] that is a number, the result is the
    nearest listed time strictly before [findTime], and the first listed
    time when there is none. *)
Theorem nearestEventTime_spec (this : TimelineSliderControl.t) (store : Store)
    (findTime : num) (mode : Z) :
  let times := TimelineSliderControl._getTimes this store in
  times ≠ [] →
  (mode ≠ -1 → (∃ first, head times = Some first ∧ le first findTime) →
   ∃ r, TimelineSliderControl._nearestEventTime this store findTime mode = Some r
        ∧ (is_next_after times findTime r
           ∨ ((∀ x, x ∈ times → ¬ lt findTime x) ∧ last times = Some r)))
  ∧ (mode = -1 → is_number findTime →
     ∃ r, TimelineSliderControl._nearestEventTime this store findTime mode = Some r
          ∧ (is_prev_before times findTime r
             ∨ ((∀ x, x ∈ times → ¬ lt x findTime) ∧ head times = Some r))).
Proof.
  cbv zeta. intros Hne.
  unfold TimelineSliderControl._nearestEventTime.
  pose proof (getTimes_sorted this store) as Hs.
  pose proof (getTimes_number this store) as Hn.
  destruct (TimelineSliderControl._getTimes this store) as [|l0 rest]; [done|].
  cbn [drop lookup list_lookup head]. split.
  - intros Hmode (first & Hfirst & Hle). simplify_eq.
    by apply nearest_loop_forward.
  - intros -> Hfind.
    destruct (nearest_loop_backward findTime rest l0 Hfind Hn Hs) as (r & Hr & Hcase).
    exists r. split; [done|]. destruct Hcase as [?|[? ->]]; [by left|by right].
Qed.

(** C10.  When the merged time list is empty, [_nearestEventTime] returns
    [undefined], whatever [findTime] and [mode] are. *)
Theorem nearestEventTime_empty (this : TimelineSliderControl.t) (store : Store)
    (findTime : num) (mode : Z) :
  TimelineSliderControl._getTimes this store = [] →
  TimelineSliderControl._nearestEventTime this store findTime mode = None.
Proof.
  intros Hnil. unfold TimelineSliderControl._nearestEventTime.
  rewrite Hnil. done.
Qed.

End NearestClaims.

Section RegistrationClaims.
Context `{Host}.

(** C5, as the code has it.  On a control that has its slider, a call of
    [addTimelines] or [removeTimelines] that changes the count of the
    registered timelines recomputes each bound that is not pinned as the
    least start and the greatest end of the registered timelines, makes
    the whole domain [start, end] the selection, and gives that selection
    to every registered timeline; a timeline that is not registered is
    left alone. *)
Theorem registration_resets_selection (args : list TimelineRef)
    (this : TimelineSliderControl.t) (store : Store) (slider : Slider.t) :
  TimelineSliderControl._timeSlider this = Some slider →
  (let added := foldl TimelineSliderControl.add_one this args in
   length (TimelineSliderControl.timelines added)
     ≠ length (TimelineSliderControl.timelines this) →
   ∃ this' store',
     TimelineSliderControl.addTimelines args this store = Some (this', store')
     ∧ reset_outcome added store this' store')
  ∧ (let removed := foldl TimelineSliderControl.remove_one this args in
     length (TimelineSliderControl.timelines removed)
       ≠ length (TimelineSliderControl.timelines this) →
     ∃ this' store',
       TimelineSliderControl.removeTimelines args this store = Some (this', store')
       ∧ reset_outcome removed store this' store').
Proof.
  intros Hsl.
  assert (Hadd : ∀ l c, TimelineSliderControl._timeSlider c = Some slider →
            TimelineSliderControl._timeSlider
              (foldl TimelineSliderControl.add_one c l) = Some slider).
  { induction l as [|t l IH]; intros c Hc; [done|]. simpl. apply IH.
    unfold TimelineSliderControl.add_one.
    by destruct (TimelineSliderControl.indexOf _ _). }
  assert (Hrem : ∀ l c, TimelineSliderControl._timeSlider c = Some slider →
            TimelineSliderControl._timeSlider
              (foldl TimelineSliderControl.remove_one c l) = Some slider).
  { induction l as [|t l IH]; intros c Hc; [done|]. simpl. apply IH.
    unfold TimelineSliderControl.remove_one.
    by destruct (TimelineSliderControl.indexOf _ _). }
  split; cbv zeta; intros Hcount.
  - unfold TimelineSliderControl.addTimelines.
    by apply (reset_spec _ _ _ slider); [apply Hadd|].
  - unfold TimelineSliderControl.removeTimelines.
    by apply (reset_spec _ _ _ slider); [apply Hrem|].
Qed.

End RegistrationClaims.

Section EmptyIndexClaims.
Context `{Host}.

Lemma update_shows_nothing (tl : Timeline.t) :
  Timeline.ranges tl = [] → Timeline.layers tl = ∅ →
  Timeline.updateDisplayedLayers tl = tl.
Proof.
  intros Hr Hl. apply update_when_displayed.
  rewrite Hr. unfold displayed, Timeline.getLayers. rewrite Hl. done.
Qed.

Lemma setStartTime_shows_nothing (time : Value) (tl : Timeline.t) :
  shows_nothing tl → shows_nothing (Timeline.setStartTime time tl).
Proof.
  intros (Hr & Ht & Hl & Hs & He). unfold Timeline.setStartTime.
  destruct (Timeline.draws _); [rewrite update_shows_nothing by done|];
    by repeat split.
Qed.

Lemma setEndTime_shows_nothing (time : Value) (tl : Timeline.t) :
  shows_nothing tl → shows_nothing (Timeline.setEndTime time tl).
Proof.
  intros (Hr & Ht & Hl & Hs & He). unfold Timeline.setEndTime.
  destruct (Timeline.draws _); [rewrite update_shows_nothing by done|];
    by repeat split.
Qed.

(** The bounds given to the slider by [_resetIfTimelinesChanged]. *)
Lemma reset_slider_range (oldTimelineCount : nat) (this : TimelineSliderControl.t)
    (store : Store) (slider : Slider.t) :
  TimelineSliderControl._timeSlider this = Some slider →
  length (TimelineSliderControl.timelines this) ≠ oldTimelineCount →
  let m := foldl (TimelineSliderControl.recalculate_step store) (PosInf, NegInf)
             (TimelineSliderControl.timelines this) in
  ∃ this' store' slider',
    TimelineSliderControl._resetIfTimelinesChanged oldTimelineCount this store
    = Some (this', store')
    ∧ TimelineSliderControl._timeSlider this' = Some slider'
    ∧ Slider.range_min slider'
      = (if TimelineSliderControl.manualStart this then Slider.range_min slider
         else if eqb m.1 PosInf then Fin 0 else m.1)
    ∧ Slider.range_max slider'
      = (if TimelineSliderControl.manualEnd this then Slider.range_max slider
         else if eqb m.2 NegInf then Fin 0 else m.2).
Proof.
  intros Hsl Hcount. cbv zeta.
  unfold TimelineSliderControl._resetIfTimelinesChanged.
  rewrite bool_decide_eq_true_2 by done.
  destruct (recalculate_spec this store slider Hsl)
    as (this1 & slider1 & -> & Hs1 & _ & _ & _ & _ & Hmin & Hmax).
  cbv zeta in Hmin, Hmax. cbn [mbind option_bind].
  assert (∃ this2 slider2,
    (if TimelineSliderControl.showTicks this1
     then TimelineSliderControl._rebuildDataList this1 store else Some this1)
    = Some this2
    ∧ TimelineSliderControl._timeSlider this2 = Some slider2
    ∧ Slider.range_min slider2 = Slider.range_min slider1
    ∧ Slider.range_max slider2 = Slider.range_max slider1)
    as (this2 & slider2 & -> & Hs2 & Hmin2 & Hmax2).
  { destruct (TimelineSliderControl.showTicks this1); [|by exists this1, slider1].
    unfold TimelineSliderControl._rebuildDataList. rewrite Hs1. cbn.
    eexists _, _. split; [done|]. done. }
  cbn [mbind option_bind].
  pose proof (setTime_spec (TimelineSliderControl.start this2)
                (TimelineSliderControl.end_ this2) this2 store) as Hset.
  cbv zeta in Hset.
  destruct (TimelineSliderControl.setTime _ _ this2 store) as [this' store'].
  cbn [fst snd] in Hset.
  destruct Hset as (_ & _ & _ & _ & _ & _ & T7 & _).
  rewrite Hs2 in T7. cbn in T7.
  eexists this', store', _. split; [done|]. split; [exact T7|].
  cbn. by rewrite Hmin2, Hmax2, Hmin, Hmax.
Qed.

Lemma initialize_nothing (o : TimelineOptions.t) :
  TimelineOptions.start o = None → TimelineOptions.end_ o = None →
  shows_nothing (Timeline.initialize [] o).
Proof.
  intros Hs He. destruct (initialize_fields [] o)
    as (_ & Hr & Ht & Hst & Hen & _ & _ & Hl & _).
  unfold shows_nothing. rewrite Hr, Ht, Hst, Hen, Hl, Hs, He. done.
Qed.

(** What the code does for a timeline built from no feature, its bounds
    not pinned: it has an empty time list, keeps the sentinels [Infinity]
    and [-Infinity] as its bounds, and displays no layer whatever selection
    it is given.  A control that has its slider, has no pinned bound and
    registers this timeline as its first takes the sentinels as its own
    bounds, and [_recalculate] gives the slider the bounds 0 and 0 in their
    place; its merged time list is empty and the timeline still displays
    nothing. *)
Lemma empty_index (o : TimelineOptions.t) (this : TimelineSliderControl.t)
    (store : Store) (r : TimelineRef) (slider : Slider.t) :
  TimelineOptions.start o = None →
  TimelineOptions.end_ o = None →
  TimelineSliderControl.manualStart this = false →
  TimelineSliderControl.manualEnd this = false →
  TimelineSliderControl._timeSlider this = Some slider →
  TimelineSliderControl.timelines this = [] →
  store r = Timeline.initialize [] o →
  let tl := Timeline.initialize [] o in
  Timeline.times tl = []
  ∧ Timeline.start tl = PosInf
  ∧ Timeline.end_ tl = NegInf
  ∧ Timeline.getLayers tl = []
  ∧ (∀ a b, Timeline.getLayers
              (Timeline.updateDisplayedLayers
                 (Timeline.set_timeEnd b (Timeline.set_timeStart a tl))) = [])
  ∧ (∀ a b, Timeline.getLayers
              (Timeline.setEndTime b (Timeline.setStartTime a tl)) = [])
  ∧ ∃ this' store' slider',
      TimelineSliderControl.addTimelines [r] this store = Some (this', store')
      ∧ TimelineSliderControl._timeSlider this' = Some slider'
      ∧ Slider.range_min slider' = Fin 0
      ∧ Slider.range_max slider' = Fin 0
      ∧ TimelineSliderControl._getTimes this' store' = []
      ∧ Timeline.getLayers (store' r) = [].
Proof.
  intros Hos Hoe Hms Hme Hsl Htl Hr. cbv zeta.
  pose proof (initialize_nothing o Hos Hoe) as Hn.
  destruct Hn as (Nr & Nt & Nl & Ns & Ne).
  assert (Hget : ∀ t, shows_nothing t → Timeline.getLayers t = []).
  { intros t (_ & _ & Hl & _). unfold Timeline.getLayers. by rewrite Hl. }
  split_and!; [done..| |].
  - intros a b. apply Hget.
    by apply setEndTime_shows_nothing, setStartTime_shows_nothing.
  - set (added := foldl TimelineSliderControl.add_one this [r]).
    assert (Hadded : TimelineSliderControl.timelines added = [r]).
    { subst added. cbn. unfold TimelineSliderControl.add_one. by rewrite Htl. }
    assert (Hsl' : TimelineSliderControl._timeSlider added = Some slider).
    { subst added. cbn. unfold TimelineSliderControl.add_one. by rewrite Htl. }
    assert (Hcount : length (TimelineSliderControl.timelines added)
                     ≠ length (TimelineSliderControl.timelines this)).
    { by rewrite Hadded, Htl. }
    destruct (reset_slider_range _ added store slider Hsl' Hcount)
      as (this' & store' & slider' & Hreset & Hs' & Hmin & Hmax).
    destruct (reset_spec _ added store slider Hsl' Hcount)
      as (this'' & store'' & Hreset' & Hout).
    rewrite Hreset in Hreset'. simplify_eq.
    destruct Hout as (O1 & O2 & _).
    exists this'', store'', slider'. split; [exact Hreset|]. split; [done|].
    assert (Hm1 : TimelineSliderControl.manualStart added = false).
    { subst added. cbn. unfold TimelineSliderControl.add_one. by rewrite Htl. }
    assert (Hm2 : TimelineSliderControl.manualEnd added = false).
    { subst added. cbn. unfold TimelineSliderControl.add_one. by rewrite Htl. }
    cbv zeta in Hmin, Hmax. rewrite Hadded in Hmin, Hmax.
    rewrite Hm1 in Hmin. rewrite Hm2 in Hmax.
    cbn [foldl] in Hmin, Hmax.
    unfold TimelineSliderControl.recalculate_step in Hmin, Hmax.
    rewrite Hr, Ns, Ne in Hmin, Hmax. cbn in Hmin, Hmax.
    split; [done|]. split; [done|].
    assert (Hstore : shows_nothing (store'' r)).
    { unfold TimelineSliderControl._resetIfTimelinesChanged in Hreset.
      rewrite bool_decide_eq_true_2 in Hreset by done.
      destruct (TimelineSliderControl._recalculate added store) as [c1|];
        [|done]. cbn in Hreset.
      destruct (if TimelineSliderControl.showTicks c1
                then TimelineSliderControl._rebuildDataList c1 store
                else Some c1) as [c2|]; [|done]. cbn in Hreset.
      unfold TimelineSliderControl.setTime, TimelineSliderControl._sliderChanged
        in Hreset.
      rewrite (bool_decide_eq_true_2 ("change" = "change")) in Hreset by done.
      rewrite orb_true_r in Hreset. simplify_eq.
      unfold TimelineSliderControl.forEach_timeline.
      apply (forEach_preserved shows_nothing);
        [intros x; apply setEndTime_shows_nothing|].
      apply (forEach_preserved shows_nothing);
        [intros x; apply setStartTime_shows_nothing|].
      rewrite Hr. by repeat split. }
    split; [|by apply Hget].
    apply getTimes_nil. unfold times_in_range. rewrite O1, Hadded. cbn.
    destruct Hstore as (_ & -> & _). done.
Qed.

End EmptyIndexClaims.

(* ===================================================================== *)
(** * The claims on the example data *)
(* ===================================================================== *)

(** C2 on the timeline of the features [0] and [1]: the entry of feature
    [0], from 0 to 10, and the query [6, 6]. *)
Lemma overlap_correct_witness :
  (Fin 0, Fin 10, 0%nat) ∈ Timeline.ranges Examples.two
  ∧ (0%nat ∈ IntervalTree.overlap (Fin 6) (Fin 6) (Timeline.ranges Examples.two)
     ↔ leb (Fin 0) (Fin 6) = true ∧ geb (Fin 10) (Fin 6) = true).
Proof.
  unfold Examples.two.
  assert (Hin : (Fin 0, Fin 10, 0%nat) ∈
                Timeline.ranges (@Timeline.initialize Examples.host [0; 1]%nat
                                   TimelineOptions.none)).
  { vm_compute. constructor. }
  split; [exact Hin|].
  exact (@overlap_correct Examples.host [0; 1]%nat TimelineOptions.none
           (Fin 0) (Fin 10) 0%nat (Fin 6) (Fin 6) Hin).
Defined.

(** C6 on the timeline of the features [0] and [1], whose intervals are
    from 0 to 10 and from 5 to 15. *)
Lemma times_sorted_distinct_witness :
  @numeric_intervals Examples.host
    (@Timeline.initialize Examples.host [0; 1]%nat TimelineOptions.none)
    [0; 1]%nat
  ∧ StronglySorted lt
      (Timeline.times
         (@Timeline.initialize Examples.host [0; 1]%nat TimelineOptions.none))
  ∧ ∀ x, x ∈ Timeline.times
               (@Timeline.initialize Examples.host [0; 1]%nat TimelineOptions.none) ↔
         ∃ f interval, f ∈ [0; 1]%nat
           ∧ @Timeline._getInterval Examples.host
               (@Timeline.initialize Examples.host [0; 1]%nat TimelineOptions.none) f
             = Some interval
           ∧ (x = TimeBounds.start interval ∨ x = TimeBounds.end_ interval).
Proof.
  assert (Hnum : @numeric_intervals Examples.host
                   (@Timeline.initialize Examples.host [0; 1]%nat
                      TimelineOptions.none) [0; 1]%nat).
  { intros f iv Hf Hiv.
    repeat (apply elem_of_cons in Hf as [->|Hf]);
      [vm_compute in Hiv; injection Hiv as <-; split; discriminate..
      |inversion Hf]. }
  split; [exact Hnum|].
  exact (@times_sorted_distinct Examples.host [0; 1]%nat TimelineOptions.none Hnum).
Defined.

(** C6 as stated fails: feature [6] ends at 1 and its start is a string
    that is no date, for which [new Date(x).getTime()] is [NaN]; the time
    list of its timeline is [NaN, 1], which is not increasing, in whatever
    order the sort leaves the two values. *)
Lemma times_sorted_distinct_counterexample :
  @Timeline._getInterval Examples.host Examples.undated 6%nat
  = Some (TimeBounds.mk NaN (Fin 1))
  ∧ Timeline.times Examples.undated = [NaN; Fin 1]
  ∧ ¬ StronglySorted lt (Timeline.times Examples.undated)
  ∧ (∀ l, l ≡ₚ Timeline.times Examples.undated → ¬ StronglySorted lt l)
  ∧ ¬ (∀ (data : list Feature) (o : TimelineOptions.t),
         StronglySorted lt (Timeline.times (@Timeline.initialize Examples.host data o))).
Proof.
  assert (Ht : Timeline.times Examples.undated = [NaN; Fin 1])
    by (vm_compute; reflexivity).
  assert (Hperm : ∀ l, l ≡ₚ Timeline.times Examples.undated →
                       ¬ StronglySorted lt l).
  { intros l Hl Hs. rewrite Ht in Hl.
    assert (Hnan : NaN ∈ l) by (rewrite Hl; constructor).
    pose proof (Permutation_length Hl) as Hlen.
    destruct l as [|a [|b [|c l]]]; try discriminate Hlen.
    apply StronglySorted_cons in Hs as [Hab _].
    apply Forall_cons in Hab as [Hab _].
    apply elem_of_cons in Hnan as [<-|Hnan]; [done|].
    apply list_elem_of_singleton in Hnan as <-. by destruct a. }
  split; [vm_compute; reflexivity|]. split; [exact Ht|].
  split; [by apply Hperm|]. split; [exact Hperm|].
  intros Hall. apply (Hperm (Timeline.times Examples.undated)); [done|].
  apply (Hall [6]%nat TimelineOptions.none).
Qed.

(** C4 fails on the code: a start pinned at 0 and an end pinned at 0 are
    both replaced by the bounds computed from the data, here 5 and 15. *)
Lemma pinned_zero_is_ignored :
  TimelineOptions.start (Timeline.options Examples.pinned_at_zero) = Some (Fin 0)
  ∧ TimelineOptions.end_ (Timeline.options Examples.pinned_at_zero) = Some (Fin 0)
  ∧ Timeline.start Examples.pinned_at_zero = Fin 5
  ∧ Timeline.end_ Examples.pinned_at_zero = Fin 15.
Proof. vm_compute. done. Qed.

(** C3 on the times 10, 20, 30: from 20, forward and backward. *)
Lemma nearestEventTime_witness :
  TimelineSliderControl._getTimes Examples.with_three_times.1
    Examples.with_three_times.2 ≠ []
  ∧ (∃ r, TimelineSliderControl._nearestEventTime Examples.with_three_times.1
            Examples.with_three_times.2 (Fin 20) 1 = Some r
          ∧ (is_next_after
               (TimelineSliderControl._getTimes Examples.with_three_times.1
                  Examples.with_three_times.2) (Fin 20) r
             ∨ ((∀ x, x ∈ TimelineSliderControl._getTimes
                            Examples.with_three_times.1
                            Examples.with_three_times.2 → ¬ lt (Fin 20) x)
                ∧ last (TimelineSliderControl._getTimes
                          Examples.with_three_times.1
                          Examples.with_three_times.2) = Some r)))
  ∧ (∃ r, TimelineSliderControl._nearestEventTime Examples.with_three_times.1
            Examples.with_three_times.2 (Fin 20) (-1) = Some r
          ∧ (is_prev_before
               (TimelineSliderControl._getTimes Examples.with_three_times.1
                  Examples.with_three_times.2) (Fin 20) r
             ∨ ((∀ x, x ∈ TimelineSliderControl._getTimes
                            Examples.with_three_times.1
                            Examples.with_three_times.2 → ¬ lt x (Fin 20))
                ∧ head (TimelineSliderControl._getTimes
                          Examples.with_three_times.1
                          Examples.with_three_times.2) = Some r))).
Proof.
  assert (Hne : TimelineSliderControl._getTimes Examples.with_three_times.1
                  Examples.with_three_times.2 ≠ []).
  { vm_compute. discriminate. }
  split; [exact Hne|]. split.
  - apply (proj1 (nearestEventTime_spec Examples.with_three_times.1
                    Examples.with_three_times.2 (Fin 20) 1 Hne)).
    + lia.
    + exists (Fin 10). split; vm_compute; reflexivity.
  - apply (proj2 (nearestEventTime_spec Examples.with_three_times.1
                    Examples.with_three_times.2 (Fin 20) (-1) Hne)).
    + reflexivity.
    + discriminate.
Defined.

(** C3 as stated fails backward on an exact match: on the times 10, 20, 30
    the listed time nearest to 20 at or before 20 is 20, and the code
    returns 10. *)
Lemma nearestEventTime_counterexample :
  Fin 20 ∈ TimelineSliderControl._getTimes Examples.with_three_times.1
             Examples.with_three_times.2
  ∧ TimelineSliderControl._nearestEventTime Examples.with_three_times.1
      Examples.with_three_times.2 (Fin 20) (-1) = Some (Fin 10)
  ∧ ¬ (∃ r, TimelineSliderControl._nearestEventTime Examples.with_three_times.1
              Examples.with_three_times.2 (Fin 20) (-1) = Some r
            ∧ is_prev_at_or_before
                (TimelineSliderControl._getTimes Examples.with_three_times.1
                   Examples.with_three_times.2) (Fin 20) r).
Proof.
  assert (Hin : Fin 20 ∈ TimelineSliderControl._getTimes
                  Examples.with_three_times.1 Examples.with_three_times.2).
  { vm_compute. constructor. constructor. }
  assert (Hr : TimelineSliderControl._nearestEventTime Examples.with_three_times.1
                 Examples.with_three_times.2 (Fin 20) (-1) = Some (Fin 10)).
  { vm_compute. reflexivity. }
  split; [exact Hin|]. split; [exact Hr|].
  intros (r & Hr' & _ & _ & Hmax). rewrite Hr in Hr'. injection Hr' as <-.
  specialize (Hmax (Fin 20) Hin eq_refl). vm_compute in Hmax. discriminate.
Qed.

(** C10 on a control without timelines. *)
Lemma nearestEventTime_empty_witness :
  TimelineSliderControl._getTimes Examples.mounted Examples.store = []
  ∧ TimelineSliderControl._nearestEventTime Examples.mounted Examples.store
      (Fin 5) 1 = None.
Proof.
  assert (Hnil : TimelineSliderControl._getTimes Examples.mounted Examples.store = []).
  { vm_compute. reflexivity. }
  split; [exact Hnil|].
  exact (nearestEventTime_empty Examples.mounted Examples.store (Fin 5) 1 Hnil).
Defined.

(** C5 on the example data: the timeline [1] is added to the mounted
    control, and removed from it again. *)
Lemma registration_witness :
  TimelineSliderControl._timeSlider Examples.mounted
  = Some Scenarios.mounted_slider
  ∧ (∃ this' store',
       @TimelineSliderControl.addTimelines Examples.host [1%nat]
         Examples.mounted Examples.store = Some (this', store')
       ∧ reset_outcome
           (foldl TimelineSliderControl.add_one Examples.mounted [1%nat])
           Examples.store this' store')
  ∧ (∃ this' store',
       @TimelineSliderControl.removeTimelines Examples.host [1%nat]
         Examples.with_three_times.1 Examples.with_three_times.2
       = Some (this', store')
       ∧ reset_outcome
           (foldl TimelineSliderControl.remove_one Examples.with_three_times.1
              [1%nat])
           Examples.with_three_times.2 this' store').
Proof.
  assert (Hsl : TimelineSliderControl._timeSlider Examples.mounted
                = Some Scenarios.mounted_slider).
  { vm_compute. reflexivity. }
  assert (Hsl' : TimelineSliderControl._timeSlider Examples.with_three_times.1
                 = Some (Slider.mk (Fin 10) (Fin 30) (Some [Fin 10; Fin 20; Fin 30])
                           [(Some (Fin 0), Some (Fin 0));
                            (Some (Fin 0), Some (Fin 0));
                            (Some (Fin 10), None);
                            (Some (Fin 10), Some (Fin 30))]
                           [("update", CallSliderChanged);
                            ("start", GetDisableMapDragging);
                            ("end", GetEnableMapDragging)])).
  { vm_compute. reflexivity. }
  split; [exact Hsl|]. split.
  - apply (proj1 (@registration_resets_selection Examples.host [1%nat]
                    Examples.mounted Examples.store _ Hsl)).
    vm_compute. discriminate.
  - apply (proj2 (@registration_resets_selection Examples.host [1%nat]
                    Examples.with_three_times.1 Examples.with_three_times.2
                    _ Hsl')).
    vm_compute. discriminate.
Defined.

(** C5 as stated fails: on a control with the domain pinned to [0, 10] and
    the selection [5, 6], adding the timeline [0] gives that timeline the
    selection [0, 10], the whole domain, and not the selection [5, 6]; and
    on a control without options that has no slider yet, adding a timeline
    throws. *)
Lemma registration_counterexample :
  @TimelineSliderControl.addTimelines Examples.host [0%nat]
    (TimelineSliderControl.initialize TimelineSliderControlOptions.none)
    Examples.store = None
  ∧ TimelineSliderControl.timeStart Examples.pinned_selected.1 = Some (Fin 5)
  ∧ TimelineSliderControl.timeEnd Examples.pinned_selected.1 = Some (Fin 6)
  ∧ (fun r => (TimelineSliderControl.timelines r.1,
               Timeline.timeStart (r.2 0%nat), Timeline.timeEnd (r.2 0%nat)))
      <$> @TimelineSliderControl.addTimelines Examples.host [0%nat]
            Examples.pinned_selected.1 Examples.pinned_selected.2
    = Some ([0%nat], Fin 0, Fin 10)
  ∧ ¬ (∀ this' store',
         @TimelineSliderControl.addTimelines Examples.host [0%nat]
           Examples.pinned_selected.1 Examples.pinned_selected.2
         = Some (this', store') →
         ∀ r, r ∈ TimelineSliderControl.timelines this' →
              Some (Timeline.timeStart (store' r))
              = TimelineSliderControl.timeStart Examples.pinned_selected.1
              ∧ Some (Timeline.timeEnd (store' r))
                = TimelineSliderControl.timeEnd Examples.pinned_selected.1).
Proof.
  assert (H1 : TimelineSliderControl.timeStart Examples.pinned_selected.1
               = Some (Fin 5)) by (vm_compute; reflexivity).
  assert (H2 : TimelineSliderControl.timeEnd Examples.pinned_selected.1
               = Some (Fin 6)) by (vm_compute; reflexivity).
  assert (H3 : (fun r => (TimelineSliderControl.timelines r.1,
                          Timeline.timeStart (r.2 0%nat),
                          Timeline.timeEnd (r.2 0%nat)))
                 <$> @TimelineSliderControl.addTimelines Examples.host [0%nat]
                       Examples.pinned_selected.1 Examples.pinned_selected.2
               = Some ([0%nat], Fin 0, Fin 10)) by (vm_compute; reflexivity).
  split; [vm_compute; reflexivity|].
  split; [exact H1|]. split; [exact H2|]. split; [exact H3|].
  intros Hclaim.
  destruct (@TimelineSliderControl.addTimelines Examples.host [0%nat]
              Examples.pinned_selected.1 Examples.pinned_selected.2)
    as [[this' store']|]; [|discriminate H3].
  cbn [fmap option_fmap option_map fst snd] in H3.
  injection H3 as Htl Hts Hte.
  destruct (Hclaim this' store' eq_refl 0%nat) as [Hs _].
  { rewrite Htl. constructor. }
  rewrite Hts, H1 in Hs. discriminate Hs.
Qed.

(** On the example data: the timeline of no feature, behind the reference
    [2], is the first that the mounted control registers. *)
Lemma empty_index_witness :
  Timeline.times Examples.nothing = []
  ∧ Timeline.start Examples.nothing = PosInf
  ∧ Timeline.end_ Examples.nothing = NegInf
  ∧ ∃ this' store' slider',
      @TimelineSliderControl.addTimelines Examples.host [2%nat]
        Examples.mounted Examples.store = Some (this', store')
      ∧ TimelineSliderControl._timeSlider this' = Some slider'
      ∧ Slider.range_min slider' = Fin 0
      ∧ Slider.range_max slider' = Fin 0
      ∧ TimelineSliderControl._getTimes this' store' = []
      ∧ Timeline.getLayers (store' 2%nat) = [].
Proof.
  assert (Hsl : TimelineSliderControl._timeSlider Examples.mounted
                = Some Scenarios.mounted_slider).
  { vm_compute. reflexivity. }
  assert (Hms : TimelineSliderControl.manualStart Examples.mounted = false).
  { vm_compute. reflexivity. }
  assert (Hme : TimelineSliderControl.manualEnd Examples.mounted = false).
  { vm_compute. reflexivity. }
  assert (Htl : TimelineSliderControl.timelines Examples.mounted = []).
  { vm_compute. reflexivity. }
  assert (Hr : Examples.store 2%nat
               = @Timeline.initialize Examples.host [] TimelineOptions.none).
  { unfold Examples.store, Examples.nothing. reflexivity. }
  unfold Examples.nothing.
  destruct (@empty_index Examples.host TimelineOptions.none Examples.mounted
              Examples.store 2%nat _ eq_refl eq_refl Hms Hme Hsl Htl Hr)
    as (E1 & E2 & E3 & _ & _ & _ & E4).
  split; [exact E1|]. split; [exact E2|]. split; [exact E3|]. exact E4.
Defined.

(** The scenario of the spec on the features [0], from 0 to 10, and [1],
    from 5 to 15. *)
Example overlap_scenario :
  IntervalTree.overlap (Fin 0) (Fin 4) (Timeline.ranges Examples.two) = [0%nat]
  ∧ IntervalTree.overlap (Fin 6) (Fin 6) (Timeline.ranges Examples.two) = [0; 1]%nat
  ∧ IntervalTree.overlap (Fin 16) (Fin 20) (Timeline.ranges Examples.two) = []
  ∧ IntervalTree.overlap (Fin 20) (Fin 16) (Timeline.ranges Examples.two) = [].
Proof. vm_compute. done. Qed.

(** The clamping examples of the spec on the times 10, 20, 30. *)
Example nearestEventTime_clamps :
  TimelineSliderControl._getTimes Examples.with_three_times.1
    Examples.with_three_times.2 = [Fin 10; Fin 20; Fin 30]
  ∧ TimelineSliderControl._nearestEventTime Examples.with_three_times.1
      Examples.with_three_times.2 (Fin 5) (-1) = Some (Fin 10)
  ∧ TimelineSliderControl._nearestEventTime Examples.with_three_times.1
      Examples.with_three_times.2 (Fin 30) 1 = Some (Fin 30).
Proof. vm_compute. done. Qed.

(** Forward from a time before the first listed one the loop, which starts
    at index 1, passes over the first time: from 5 it returns 20. *)
Example nearestEventTime_before_first :
  TimelineSliderControl._nearestEventTime Examples.with_three_times.1
    Examples.with_three_times.2 (Fin 5) 1 = Some (Fin 20).
Proof. vm_compute. reflexivity. Qed.

(** With the control's selection pushed at registration, the timeline of
    the features [0] and [1] displays both. *)
Example registered_timeline_displays :
  (fun r => displayed (r.2 0%nat))
    <$> @TimelineSliderControl.addTimelines Examples.host [0%nat]
          Examples.mounted Examples.store
  = Some [0; 1]%nat.
Proof. vm_compute. reflexivity. Qed.

(** C7 fails on the code.  The timeline of no feature has an empty time
    list and the sentinels as bounds.  A control on the map, the end of its
    domain pinned to 10, that registers this timeline takes [Infinity] over
    as its start, and [_recalculate] gives the slider the bound 0 in its
    place.  When the control is then taken off the map and added again,
    [_makeSlider] creates the slider with [this.start || 0] as its lower
    bound, which is [Infinity]: the slider is given an infinite bound.  The
    same holds of a control without pinned bounds: its slider is given 0
    and 0 at registration, and [Infinity] and [-Infinity] when the control
    is added again. *)
Theorem remount_feeds_infinite_bounds :
  Timeline.times Examples.nothing = []
  ∧ Timeline.start Examples.nothing = PosInf
  ∧ Timeline.end_ Examples.nothing = NegInf
  ∧ TimelineSliderControl.timelines Examples.end_pinned_with_nothing.1 = [2%nat]
  ∧ TimelineSliderControl.start Examples.end_pinned_with_nothing.1 = PosInf
  ∧ TimelineSliderControl.end_ Examples.end_pinned_with_nothing.1 = Fin 10
  ∧ (fun s => (Slider.range_min s, Slider.range_max s))
      <$> TimelineSliderControl._timeSlider Examples.end_pinned_with_nothing.1
    = Some (Fin 0, Fin 10)
  ∧ TimelineSliderControl.onRemove Examples.end_pinned_with_nothing.1 ≠ None
  ∧ (fun s => (Slider.range_min s, Slider.range_max s))
      <$> TimelineSliderControl._timeSlider Examples.remounted
    = Some (PosInf, Fin 10)
  ∧ TimelineSliderControl.start Examples.with_nothing.1 = PosInf
  ∧ TimelineSliderControl.end_ Examples.with_nothing.1 = NegInf
  ∧ (fun s => (Slider.range_min s, Slider.range_max s))
      <$> TimelineSliderControl._timeSlider Examples.with_nothing.1
    = Some (Fin 0, Fin 0)
  ∧ (fun s => (Slider.range_min s, Slider.range_max s))
      <$> TimelineSliderControl._timeSlider Examples.remounted_unpinned
    = Some (PosInf, NegInf).
Proof. vm_compute. split_and!; (reflexivity || discriminate). Qed.

(* ===================================================================== *)
(** * Registration as a set of references *)
(* ===================================================================== *)

Section RegistrationFacts.
Context `{Host}.

Lemma indexOf_None (t : TimelineRef) (l : list TimelineRef) :
  TimelineSliderControl.indexOf t l = None ↔ t ∉ l.
Proof.
  induction l as [|x l IH]; simpl.
  - split; [set_solver|done].
  - destruct (decide (x = t)) as [->|Hne].
    + split; [done|set_solver].
    + destruct (TimelineSliderControl.indexOf t l); simpl.
      * split; [done|]. intros Hn. destruct IH as [_ IH].
        assert (t ∉ l) as Hl by set_solver. by specialize (IH Hl).
      * split; [|done]. intros _. destruct IH as [IH _]. set_solver.
Qed.

Lemma filter_all {A} (P : A → Prop) `{∀ x, Decision (P x)} (l : list A) :
  (∀ x, x ∈ l → P x) → filter P l = l.
Proof.
  induction l as [|x l IH]; intros Hall; [done|].
  rewrite filter_cons_True by (apply Hall; set_solver).
  f_equal. apply IH. intros y Hy. apply Hall. set_solver.
Qed.

Lemma filter_none {A} (P : A → Prop) `{∀ x, Decision (P x)} (l : list A) :
  (∀ x, x ∈ l → ¬ P x) → filter P l = [].
Proof.
  induction l as [|x l IH]; intros Hall; [done|].
  rewrite filter_cons_False by (apply Hall; set_solver).
  apply IH. intros y Hy. apply Hall. set_solver.
Qed.

(** In a list without repeats, taking out the first occurrence takes out
    the reference. *)
Lemma delete_indexOf (t : TimelineRef) (l : list TimelineRef) (i : nat) :
  NoDup l → TimelineSliderControl.indexOf t l = Some i →
  delete i l = filter (fun x => x ≠ t) l.
Proof.
  revert i. induction l as [|x l IH]; intros i Hnd Hi; [done|].
  apply NoDup_cons in Hnd as [Hx Hnd]. simpl in Hi.
  destruct (decide (x = t)) as [->|Hne].
  - injection Hi as <-. simpl. rewrite filter_cons_False by (intros Hn; by apply Hn).
    symmetry. apply filter_all. intros y Hy ->. done.
  - destruct (TimelineSliderControl.indexOf t l) as [j|] eqn:Hj; [|done].
    simpl in Hi. injection Hi as <-. simpl.
    rewrite filter_cons_True by done. f_equal. by apply IH.
Qed.

Lemma add_one_timelines (this : TimelineSliderControl.t) (t : TimelineRef) :
  TimelineSliderControl.add_one this t
  = TimelineSliderControl.set_timelines
      (if decide (t ∈ TimelineSliderControl.timelines this)
       then TimelineSliderControl.timelines this
       else TimelineSliderControl.timelines this ++ [t]) this.
Proof.
  unfold TimelineSliderControl.add_one.
  destruct (TimelineSliderControl.indexOf t _) eqn:Hi.
  - rewrite decide_True; [by destruct this|].
    destruct (decide (t ∈ TimelineSliderControl.timelines this)) as [|Hn]; [done|].
    apply indexOf_None in Hn. congruence.
  - apply indexOf_None in Hi. by rewrite decide_False.
Qed.

Lemma remove_one_timelines (this : TimelineSliderControl.t) (t : TimelineRef) :
  NoDup (TimelineSliderControl.timelines this) →
  TimelineSliderControl.remove_one this t
  = TimelineSliderControl.set_timelines
      (filter (fun x => x ≠ t) (TimelineSliderControl.timelines this)) this.
Proof.
  intros Hnd. unfold TimelineSliderControl.remove_one.
  destruct (TimelineSliderControl.indexOf t _) eqn:Hi.
  - by rewrite (delete_indexOf t _ n Hnd Hi).
  - apply indexOf_None in Hi. rewrite filter_all; [by destruct this|].
    intros y Hy ->. done.
Qed.

(** The loop of [addTimelines] changes the list of timelines only. *)
Lemma foldl_add_one (args : list TimelineRef) : ∀ this,
  foldl TimelineSliderControl.add_one this args
  = TimelineSliderControl.set_timelines
      (TimelineSliderControl.timelines
         (foldl TimelineSliderControl.add_one this args)) this.
Proof.
  induction args as [|t args IH]; intros this; simpl.
  - by destruct this.
  - rewrite IH. rewrite add_one_timelines. by destruct this.
Qed.

Lemma foldl_remove_one (args : list TimelineRef) : ∀ this,
  foldl TimelineSliderControl.remove_one this args
  = TimelineSliderControl.set_timelines
      (TimelineSliderControl.timelines
         (foldl TimelineSliderControl.remove_one this args)) this.
Proof.
  induction args as [|t args IH]; intros this; simpl.
  - by destruct this.
  - rewrite IH. unfold TimelineSliderControl.remove_one.
    destruct (TimelineSliderControl.indexOf t _); by destruct this.
Qed.

(** The list after the loop of [addTimelines]: the old list comes first,
    the members are the old ones and the arguments, and no repeat is
    introduced. *)
Lemma foldl_add_one_timelines (args : list TimelineRef) : ∀ this,
  let l' := TimelineSliderControl.timelines
              (foldl TimelineSliderControl.add_one this args) in
  TimelineSliderControl.timelines this `prefix_of` l'
  ∧ (∀ t, t ∈ l' ↔ t ∈ TimelineSliderControl.timelines this ∨ t ∈ args)
  ∧ (NoDup (TimelineSliderControl.timelines this) → NoDup l').
Proof.
  induction args as [|t args IH]; intros this; cbv zeta; simpl.
  - split; [done|]. split; [set_solver|done].
  - destruct (IH (TimelineSliderControl.add_one this t)) as (P1 & P2 & P3).
    assert (Ht : TimelineSliderControl.timelines
                   (TimelineSliderControl.add_one this t)
                 = if decide (t ∈ TimelineSliderControl.timelines this)
                   then TimelineSliderControl.timelines this
                   else TimelineSliderControl.timelines this ++ [t])
      by (by rewrite add_one_timelines).
    rewrite Ht in P1, P2, P3. clear Ht.
    destruct (decide (t ∈ TimelineSliderControl.timelines this)) as [Hin|Hout].
    + split; [done|]. split; [|done]. intros x. rewrite P2. set_solver.
    + split; [by eapply prefix_app_l|]. split.
      * intros x. rewrite P2. set_solver.
      * intros Hnd. apply P3. apply NoDup_app. split; [done|]. split.
        -- intros x Hx Hx'. apply list_elem_of_singleton in Hx' as ->. done.
        -- apply NoDup_singleton.
Qed.

(** The list after the loop of [removeTimelines], when it had no repeat. *)
Lemma foldl_remove_one_timelines (args : list TimelineRef) : ∀ this,
  NoDup (TimelineSliderControl.timelines this) →
  TimelineSliderControl.timelines
    (foldl TimelineSliderControl.remove_one this args)
  = filter (fun x => x ∉ args) (TimelineSliderControl.timelines this).
Proof.
  induction args as [|t args IH]; intros this Hnd; simpl.
  - symmetry. apply filter_all. set_solver.
  - rewrite IH; rewrite remove_one_timelines by done; simpl.
    + rewrite list_filter_filter. apply list_filter_iff. intros x. set_solver.
    + by apply NoDup_filter.
Qed.

(** With the slider there, [_resetIfTimelinesChanged] returns, keeps the
    slider and keeps the list and the options. *)
Lemma reset_total (oldTimelineCount : nat) (this : TimelineSliderControl.t)
    (store : Store) (slider : Slider.t) :
  TimelineSliderControl._timeSlider this = Some slider →
  ∃ this' store' slider',
    TimelineSliderControl._resetIfTimelinesChanged oldTimelineCount this store
    = Some (this', store')
    ∧ TimelineSliderControl._timeSlider this' = Some slider'
    ∧ TimelineSliderControl.timelines this' = TimelineSliderControl.timelines this
    ∧ TimelineSliderControl.options this' = TimelineSliderControl.options this.
Proof.
  intros Hsl.
  destruct (decide (length (TimelineSliderControl.timelines this) = oldTimelineCount))
    as [Heq|Hne].
  - exists this, store, slider. split; [|done].
    unfold TimelineSliderControl._resetIfTimelinesChanged.
    by rewrite bool_decide_eq_false_2 by (by intros Hn).
  - destruct (reset_slider_range _ this store slider Hsl Hne)
      as (this' & store' & slider' & Hr & Hs & _).
    destruct (reset_spec _ this store slider Hsl Hne)
      as (this'' & store'' & Hr' & O1 & O2 & _).
    rewrite Hr in Hr'. injection Hr' as <- <-.
    by exists this', store', slider'.
Qed.

End RegistrationFacts.

Section RegistrationExtras.
Context `{Host}.

Lemma foldl_add_one_registered (args : list TimelineRef) (this : TimelineSliderControl.t) :
  (∀ t, t ∈ args → t ∈ TimelineSliderControl.timelines this) →
  foldl TimelineSliderControl.add_one this args = this.
Proof.
  induction args as [|t args IH]; intros Hall; [done|]. simpl.
  assert (TimelineSliderControl.add_one this t = this) as ->.
  { rewrite add_one_timelines. rewrite decide_True by set_solver. by destruct this. }
  apply IH. set_solver.
Qed.

Lemma foldl_remove_one_unregistered (args : list TimelineRef) (this : TimelineSliderControl.t) :
  (∀ t, t ∈ args → t ∉ TimelineSliderControl.timelines this) →
  foldl TimelineSliderControl.remove_one this args = this.
Proof.
  induction args as [|t args IH]; intros Hall; [done|]. simpl.
  assert (TimelineSliderControl.remove_one this t = this) as ->.
  { unfold TimelineSliderControl.remove_one.
    assert (TimelineSliderControl.indexOf t (TimelineSliderControl.timelines this) = None)
      as -> by (apply indexOf_None; set_solver).
    done. }
  apply IH. set_solver.
Qed.

(** X1.  Registering timelines that are all registered already does
    nothing at all: the control and every timeline stay as they are, and
    the call returns also when the control has no slider yet. *)
Theorem addTimelines_registered (args : list TimelineRef)
    (this : TimelineSliderControl.t) (store : Store) :
  (∀ t, t ∈ args → t ∈ TimelineSliderControl.timelines this) →
  TimelineSliderControl.addTimelines args this store = Some (this, store).
Proof.
  intros Hall. unfold TimelineSliderControl.addTimelines.
  rewrite foldl_add_one_registered by done.
  unfold TimelineSliderControl._resetIfTimelinesChanged.
  by rewrite bool_decide_eq_false_2 by (by intros Hn).
Qed.

(** X2.  Unregistering timelines of which none is registered does nothing
    at all, with or without a slider. *)
Theorem removeTimelines_unregistered (args : list TimelineRef)
    (this : TimelineSliderControl.t) (store : Store) :
  (∀ t, t ∈ args → t ∉ TimelineSliderControl.timelines this) →
  TimelineSliderControl.removeTimelines args this store = Some (this, store).
Proof.
  intros Hall. unfold TimelineSliderControl.removeTimelines.
  rewrite foldl_remove_one_unregistered by done.
  unfold TimelineSliderControl._resetIfTimelinesChanged.
  by rewrite bool_decide_eq_false_2 by (by intros Hn).
Qed.

(** X3.  On a control that has its slider and lists no timeline twice,
    [addTimelines] returns; afterwards the control still has a slider, the
    timelines registered before come first and in their order, the
    registered timelines are those registered before and the arguments,
    and still none is listed twice. *)
Theorem addTimelines_set (args : list TimelineRef)
    (this : TimelineSliderControl.t) (store : Store) (slider : Slider.t) :
  TimelineSliderControl._timeSlider this = Some slider →
  NoDup (TimelineSliderControl.timelines this) →
  ∃ this' store',
    TimelineSliderControl.addTimelines args this store = Some (this', store')
    ∧ is_Some (TimelineSliderControl._timeSlider this')
    ∧ TimelineSliderControl.timelines this `prefix_of`
        TimelineSliderControl.timelines this'
    ∧ (∀ t, t ∈ TimelineSliderControl.timelines this'
            ↔ t ∈ TimelineSliderControl.timelines this ∨ t ∈ args)
    ∧ NoDup (TimelineSliderControl.timelines this').
Proof.
  intros Hsl Hnd. unfold TimelineSliderControl.addTimelines.
  set (added := foldl TimelineSliderControl.add_one this args).
  assert (Hsl' : TimelineSliderControl._timeSlider added = Some slider).
  { subst added. by rewrite foldl_add_one. }
  destruct (reset_total (length (TimelineSliderControl.timelines this))
              added store slider Hsl')
    as (this' & store' & slider' & -> & Hs & Ht & _).
  exists this', store'. split; [done|]. split; [by rewrite Hs|].
  rewrite Ht. subst added.
  destruct (foldl_add_one_timelines args this) as (P1 & P2 & P3).
  split_and!; [done|done|by apply P3].
Qed.

(** X4.  On a control that has its slider and lists no timeline twice,
    [removeTimelines] returns and leaves registered, in their order,
    exactly the timelines that are not among the arguments. *)
Theorem removeTimelines_set (args : list TimelineRef)
    (this : TimelineSliderControl.t) (store : Store) (slider : Slider.t) :
  TimelineSliderControl._timeSlider this = Some slider →
  NoDup (TimelineSliderControl.timelines this) →
  ∃ this' store',
    TimelineSliderControl.removeTimelines args this store = Some (this', store')
    ∧ is_Some (TimelineSliderControl._timeSlider this')
    ∧ TimelineSliderControl.timelines this'
      = filter (fun t => t ∉ args) (TimelineSliderControl.timelines this).
Proof.
  intros Hsl Hnd. unfold TimelineSliderControl.removeTimelines.
  set (removed := foldl TimelineSliderControl.remove_one this args).
  assert (Hsl' : TimelineSliderControl._timeSlider removed = Some slider).
  { subst removed. by rewrite foldl_remove_one. }
  destruct (reset_total (length (TimelineSliderControl.timelines this))
              removed store slider Hsl')
    as (this' & store' & slider' & -> & Hs & Ht & _).
  exists this', store'. split; [done|]. split; [by rewrite Hs|].
  rewrite Ht. subst removed. by apply foldl_remove_one_timelines.
Qed.

(** X5.  On a control that has its slider and lists no timeline twice,
    registering timelines of which none was registered and unregistering
    them again gives back the list of registered timelines. *)
Theorem add_then_remove (args : list TimelineRef)
    (this : TimelineSliderControl.t) (store : Store) (slider : Slider.t) :
  TimelineSliderControl._timeSlider this = Some slider →
  NoDup (TimelineSliderControl.timelines this) →
  (∀ t, t ∈ args → t ∉ TimelineSliderControl.timelines this) →
  ∃ this1 store1 this2 store2,
    TimelineSliderControl.addTimelines args this store = Some (this1, store1)
    ∧ TimelineSliderControl.removeTimelines args this1 store1 = Some (this2, store2)
    ∧ TimelineSliderControl.timelines this2 = TimelineSliderControl.timelines this.
Proof.
  intros Hsl Hnd Hnew.
  set (added := foldl TimelineSliderControl.add_one this args).
  assert (Hsl' : TimelineSliderControl._timeSlider added = Some slider).
  { subst added. by rewrite foldl_add_one. }
  destruct (reset_total (length (TimelineSliderControl.timelines this))
              added store slider Hsl')
    as (this1 & store1 & slider1 & Hr1 & Hs1 & Ht1 & _).
  destruct (foldl_add_one_timelines args this) as (P1 & P2 & P3).
  fold added in P1, P2, P3. rewrite <- Ht1 in P1, P2, P3.
  set (removed := foldl TimelineSliderControl.remove_one this1 args).
  assert (Hsl2 : TimelineSliderControl._timeSlider removed = Some slider1).
  { subst removed. by rewrite foldl_remove_one. }
  destruct (reset_total (length (TimelineSliderControl.timelines this1))
              removed store1 slider1 Hsl2)
    as (this2 & store2 & slider2 & Hr2 & Hs2 & Ht2 & _).
  exists this1, store1, this2, store2.
  split; [exact Hr1|]. split; [exact Hr2|].
  rewrite Ht2. subst removed.
  rewrite foldl_remove_one_timelines by (by apply P3).
  destruct P1 as [new Hnew'].
  assert (Hn : ∀ t, t ∈ new → t ∈ args).
  { intros t Ht.
    assert (t ∈ TimelineSliderControl.timelines this1) as Hin
      by (rewrite Hnew'; set_solver).
    apply P2 in Hin as [Hin|Hin]; [|done].
    specialize (P3 Hnd). rewrite Hnew' in P3.
    apply NoDup_app in P3 as (_ & Hdis & _). by destruct (Hdis t Hin). }
  rewrite Hnew', filter_app.
  rewrite (filter_all _ (TimelineSliderControl.timelines this)) by set_solver.
  rewrite (filter_none _ new); [by rewrite app_nil_r|].
  intros t Ht Hout. by apply Hout, Hn.
Qed.

End RegistrationExtras.

(* ===================================================================== *)
(** * The control before and after it is added to the map *)
(* ===================================================================== *)

Section LifecycleExtras.
Context `{Host}.

Lemma or_else_self (s : num) : is_number s → or_else (Some s) (Fin 0) = s.
Proof.
  intros Hs. unfold or_else, truthy, eqb. destruct s; try done.
  case_bool_decide as Hz; [by simplify_eq|done].
Qed.

Lemma reset_without_slider (oldTimelineCount : nat)
    (this : TimelineSliderControl.t) (store : Store) :
  TimelineSliderControl._timeSlider this = None →
  length (TimelineSliderControl.timelines this) ≠ oldTimelineCount →
  TimelineSliderControl.manualStart this = false
  ∨ TimelineSliderControl.manualEnd this = false
  ∨ TimelineSliderControl.showTicks this = true →
  TimelineSliderControl._resetIfTimelinesChanged oldTimelineCount this store = None.
Proof.
  intros Hsl Hcount Hopt.
  unfold TimelineSliderControl._resetIfTimelinesChanged.
  rewrite bool_decide_eq_true_2 by done.
  unfold TimelineSliderControl._recalculate.
  destruct (foldl (TimelineSliderControl.recalculate_step store) _ _) as [mn mx].
  unfold TimelineSliderControl.manualStart, TimelineSliderControl.manualEnd,
    TimelineSliderControl.showTicks, TimelineSliderControl._rebuildDataList in *.
  destruct this as [o tls st en ts te sy sl]. cbn in Hsl. subst sl. cbn in *.
  destruct (bool_decide (is_Some (TimelineSliderControlOptions.start o)));
    cbn; [|done].
  destruct (bool_decide (is_Some (TimelineSliderControlOptions.end_ o)));
    cbn; [|done].
  destruct Hopt as [?|[?|Hticks]]; [done..|]. by rewrite Hticks.
Qed.

(** X6.  Before the control is added to the map it has no slider; a call of
    [addTimelines] that changes the count of timelines then throws, unless
    both bounds are pinned and the ticks are off. *)
Theorem addTimelines_without_slider (args : list TimelineRef)
    (this : TimelineSliderControl.t) (store : Store) :
  TimelineSliderControl._timeSlider this = None →
  length (TimelineSliderControl.timelines
            (foldl TimelineSliderControl.add_one this args))
    ≠ length (TimelineSliderControl.timelines this) →
  TimelineSliderControl.manualStart this = false
  ∨ TimelineSliderControl.manualEnd this = false
  ∨ TimelineSliderControl.showTicks this = true →
  TimelineSliderControl.addTimelines args this store = None.
Proof.
  intros Hsl Hcount Hopt. unfold TimelineSliderControl.addTimelines.
  apply reset_without_slider; [|done|]; by rewrite foldl_add_one.
Qed.

Lemma reset_pinned_without_slider (oldTimelineCount : nat)
    (this : TimelineSliderControl.t) (store : Store) :
  TimelineSliderControl._timeSlider this = None →
  TimelineSliderControl.manualStart this = true →
  TimelineSliderControl.manualEnd this = true →
  TimelineSliderControl.showTicks this = false →
  length (TimelineSliderControl.timelines this) ≠ oldTimelineCount →
  TimelineSliderControl._resetIfTimelinesChanged oldTimelineCount this store
  = Some (TimelineSliderControl.setTime (TimelineSliderControl.start this)
            (TimelineSliderControl.end_ this) this store).
Proof.
  intros Hsl Hms Hme Hticks Hcount.
  unfold TimelineSliderControl._resetIfTimelinesChanged.
  rewrite bool_decide_eq_true_2 by done.
  assert (Hrec : TimelineSliderControl._recalculate this store = Some this).
  { unfold TimelineSliderControl._recalculate.
    destruct (foldl (TimelineSliderControl.recalculate_step store) _ _) as [mn mx].
    rewrite Hms. cbn. by rewrite Hme. }
  rewrite Hrec. cbn [mbind option_bind]. by rewrite Hticks.
Qed.

(** X7.  A control without slider whose bounds are both pinned and whose
    ticks are off registers timelines all the same: the bounds stay, the
    whole domain becomes the selection and every registered timeline is
    given it. *)
Theorem addTimelines_pinned_without_slider (args : list TimelineRef)
    (this : TimelineSliderControl.t) (store : Store) :
  TimelineSliderControl._timeSlider this = None →
  TimelineSliderControl.manualStart this = true →
  TimelineSliderControl.manualEnd this = true →
  TimelineSliderControl.showTicks this = false →
  length (TimelineSliderControl.timelines
            (foldl TimelineSliderControl.add_one this args))
    ≠ length (TimelineSliderControl.timelines this) →
  ∃ this' store',
    TimelineSliderControl.addTimelines args this store = Some (this', store')
    ∧ TimelineSliderControl._timeSlider this' = None
    ∧ TimelineSliderControl.start this' = TimelineSliderControl.start this
    ∧ TimelineSliderControl.end_ this' = TimelineSliderControl.end_ this
    ∧ TimelineSliderControl.timeStart this' = Some (TimelineSliderControl.start this)
    ∧ TimelineSliderControl.timeEnd this' = Some (TimelineSliderControl.end_ this)
    ∧ (∀ t, t ∈ TimelineSliderControl.timelines this' ↔
            t ∈ TimelineSliderControl.timelines this ∨ t ∈ args)
    ∧ (∀ t, t ∈ TimelineSliderControl.timelines this' →
            Timeline.timeStart (store' t) = TimelineSliderControl.start this
            ∧ Timeline.timeEnd (store' t) = TimelineSliderControl.end_ this).
Proof.
  intros Hsl Hms Hme Hticks Hcount. unfold TimelineSliderControl.addTimelines.
  destruct (foldl_add_one_timelines args this) as (_ & Hmem & _).
  set (added := foldl TimelineSliderControl.add_one this args) in *.
  assert (Hadded : added = TimelineSliderControl.set_timelines
                             (TimelineSliderControl.timelines added) this)
    by apply foldl_add_one.
  assert (Hsl' : TimelineSliderControl._timeSlider added = None)
    by (by rewrite Hadded).
  assert (Hms' : TimelineSliderControl.manualStart added = true)
    by (by rewrite Hadded).
  assert (Hme' : TimelineSliderControl.manualEnd added = true)
    by (by rewrite Hadded).
  assert (Hticks' : TimelineSliderControl.showTicks added = false)
    by (by rewrite Hadded).
  assert (Hst : TimelineSliderControl.start added = TimelineSliderControl.start this)
    by (by rewrite Hadded).
  assert (Hen : TimelineSliderControl.end_ added = TimelineSliderControl.end_ this)
    by (by rewrite Hadded).
  rewrite (reset_pinned_without_slider _ added store Hsl' Hms' Hme' Hticks' Hcount).
  pose proof (setTime_spec (TimelineSliderControl.start added)
                (TimelineSliderControl.end_ added) added store) as Hset.
  cbv zeta in Hset.
  destruct (TimelineSliderControl.setTime _ _ added store) as [this' store'].
  cbn [fst snd] in Hset.
  destruct Hset as (T1 & _ & T3 & T4 & T5 & T6 & T7 & T8 & _).
  exists this', store'. split; [done|].
  rewrite T1, T3, T4, T5, T6, T7, Hsl', Hst, Hen. rewrite Hst, Hen in T8.
  split_and!; done.
Qed.

(** [onAdd] on a control with finite bounds. *)
Lemma onAdd_spec (this : TimelineSliderControl.t) (store : Store) (s e : Z) :
  TimelineSliderControl.start this = Fin s →
  TimelineSliderControl.end_ this = Fin e →
  s < e →
  ∃ this' store' slider,
    TimelineSliderControl.onAdd this store = Some (this', store')
    ∧ TimelineSliderControl._timeSlider this' = Some slider
    ∧ Slider.range_min slider = Fin s
    ∧ Slider.range_max slider = Fin e
    ∧ Slider.handlers slider
      = [("update", CallSliderChanged); ("start", GetDisableMapDragging);
         ("end", GetEnableMapDragging)]
    ∧ Slider.pips slider
      = (if TimelineSliderControl.showTicks this
         then Some (TimelineSliderControl._getTimes this store) else None)
    ∧ TimelineSliderControl.timelines this' = TimelineSliderControl.timelines this
    ∧ TimelineSliderControl.options this' = TimelineSliderControl.options this
    ∧ TimelineSliderControl.start this' = Fin s
    ∧ TimelineSliderControl.end_ this' = Fin e
    ∧ TimelineSliderControl.timeStart this' = Some (Fin s)
    ∧ TimelineSliderControl.timeEnd this' = Some (Fin e)
    ∧ (∀ t, t ∈ TimelineSliderControl.timelines this →
            Timeline.timeStart (store' t) = Fin s
            ∧ Timeline.timeEnd (store' t) = Fin e)
    ∧ (∀ t, t ∉ TimelineSliderControl.timelines this → store' t = store t).
Proof.
  intros Hst He Hse.
  unfold TimelineSliderControl.onAdd, TimelineSliderControl._createDOM.
  set (made := TimelineSliderControl._makeSlider this).
  assert (∃ this1 slider1,
    (if TimelineSliderControl.showTicks made
     then TimelineSliderControl._rebuildDataList made store else Some made)
    = Some this1
    ∧ TimelineSliderControl._timeSlider this1 = Some slider1
    ∧ Slider.range_min slider1 = Fin s
    ∧ Slider.range_max slider1 = Fin e
    ∧ Slider.handlers slider1
      = [("update", CallSliderChanged); ("start", GetDisableMapDragging);
         ("end", GetEnableMapDragging)]
    ∧ Slider.pips slider1
      = (if TimelineSliderControl.showTicks this
         then Some (TimelineSliderControl._getTimes this store) else None)
    ∧ TimelineSliderControl.timelines this1 = TimelineSliderControl.timelines this
    ∧ TimelineSliderControl.options this1 = TimelineSliderControl.options this
    ∧ TimelineSliderControl.start this1 = Fin s
    ∧ TimelineSliderControl.end_ this1 = Fin e)
    as (this1 & slider1 & -> & Hs1 & Hmin & Hmax & Hh & Hpips & Ht1 & Ho1
        & Hst1 & Hen1).
  { change (TimelineSliderControl.showTicks made)
      with (TimelineSliderControl.showTicks this).
    unfold made, TimelineSliderControl._makeSlider,
      TimelineSliderControl._rebuildDataList.
    rewrite Hst, He, !or_else_self by done.
    destruct (TimelineSliderControl.showTicks this);
      eexists _, _; (split; [reflexivity|]); split_and!;
      (reflexivity || exact Hst || exact He). }
  cbn [mbind option_bind].
  pose proof (setTime_spec (TimelineSliderControl.start this1)
                (TimelineSliderControl.end_ this1) this1 store) as Hset.
  cbv zeta in Hset.
  destruct (TimelineSliderControl.setTime _ _ this1 store) as [this' store'].
  cbn [fst snd] in Hset.
  destruct Hset as (T1 & T2 & T3 & T4 & T5 & T6 & T7 & T8 & T9).
  rewrite Hs1 in T7. cbn in T7.
  rewrite Ht1 in T1, T8, T9. rewrite Hst1 in T3, T5, T8.
  rewrite Hen1 in T4, T6, T8. rewrite Ho1 in T2.
  eexists this', store', _. split; [done|]. split; [exact T7|].
  cbn. split_and!; done.
Qed.

(** X8.  On a control whose bounds are finite, the start below the end,
    [onAdd] returns.  It creates the slider with the bounds [start] and
    [end] of the control, registers on it the callback of [update] and the
    two of [start] and [end], gives it the merged time list as ticks when
    the ticks are on, makes the whole domain the selection and gives it to
    every registered timeline; a timeline that is not registered is left
    alone. *)
Theorem onAdd_mounts (this : TimelineSliderControl.t) (store : Store) (s e : Z) :
  TimelineSliderControl.start this = Fin s →
  TimelineSliderControl.end_ this = Fin e →
  s < e →
  ∃ this' store' slider,
    TimelineSliderControl.onAdd this store = Some (this', store')
    ∧ TimelineSliderControl._timeSlider this' = Some slider
    ∧ Slider.range_min slider = Fin s
    ∧ Slider.range_max slider = Fin e
    ∧ Slider.handlers slider
      = [("update", CallSliderChanged); ("start", GetDisableMapDragging);
         ("end", GetEnableMapDragging)]
    ∧ Slider.pips slider
      = (if TimelineSliderControl.showTicks this
         then Some (TimelineSliderControl._getTimes this store) else None)
    ∧ TimelineSliderControl.timelines this' = TimelineSliderControl.timelines this
    ∧ TimelineSliderControl.options this' = TimelineSliderControl.options this
    ∧ TimelineSliderControl.start this' = Fin s
    ∧ TimelineSliderControl.end_ this' = Fin e
    ∧ TimelineSliderControl.timeStart this' = Some (Fin s)
    ∧ TimelineSliderControl.timeEnd this' = Some (Fin e)
    ∧ (∀ t, t ∈ TimelineSliderControl.timelines this →
            Timeline.timeStart (store' t) = Fin s
            ∧ Timeline.timeEnd (store' t) = Fin e)
    ∧ (∀ t, t ∉ TimelineSliderControl.timelines this → store' t = store t).
Proof. apply onAdd_spec. Qed.

(** X26.  A control with finite bounds that is added to the map and then
    taken off it keeps its slider, and on it the callback of [update]:
    [onRemove] takes off the listeners of [change], [start] and [end], and
    [_makeSlider] registered none for [change].  The bounds, the selection
    and the list of timelines stay as [onAdd] left them.  On a control
    without slider [onRemove] throws. *)
Theorem onRemove_keeps_update_callback (this : TimelineSliderControl.t)
    (store : Store) (s e : Z) :
  TimelineSliderControl.start this = Fin s →
  TimelineSliderControl.end_ this = Fin e →
  s < e →
  (∃ this1 store1 slider1 this2 slider2,
     TimelineSliderControl.onAdd this store = Some (this1, store1)
     ∧ TimelineSliderControl._timeSlider this1 = Some slider1
     ∧ TimelineSliderControl.onRemove this1 = Some this2
     ∧ TimelineSliderControl._timeSlider this2 = Some slider2
     ∧ Slider.handlers slider2 = [("update", CallSliderChanged)]
     ∧ Slider.range_min slider2 = Slider.range_min slider1
     ∧ Slider.range_max slider2 = Slider.range_max slider1
     ∧ Slider.pips slider2 = Slider.pips slider1
     ∧ TimelineSliderControl.timelines this2 = TimelineSliderControl.timelines this
     ∧ TimelineSliderControl.start this2 = Fin s
     ∧ TimelineSliderControl.end_ this2 = Fin e
     ∧ TimelineSliderControl.timeStart this2 = Some (Fin s)
     ∧ TimelineSliderControl.timeEnd this2 = Some (Fin e))
  ∧ (∀ c, TimelineSliderControl._timeSlider c = None →
          TimelineSliderControl.onRemove c = None).
Proof.
  intros Hst He Hse. split.
  - destruct (onAdd_spec this store s e Hst He Hse)
      as (this1 & store1 & slider1 & Hadd & Hs1 & _ & _ & Hh & _ & Ht & _
          & Hst1 & Hen1 & Hts & Hte & _).
    assert (Hrem : TimelineSliderControl.onRemove this1
                   = Some (TimelineSliderControl.set_timeSlider
                             (Slider.off "end" (Slider.off "start"
                                (Slider.off "change" slider1))) this1)).
    { unfold TimelineSliderControl.onRemove. by rewrite Hs1. }
    eexists this1, store1, slider1, _, _.
    split; [exact Hadd|]. split; [done|]. split; [exact Hrem|].
    split; [reflexivity|]. cbn. rewrite Hh. split_and!; done.
  - intros c Hc. unfold TimelineSliderControl.onRemove. by rewrite Hc.
Qed.

(** X9.  [_sliderChanged] always records the two values as the selection
    of the control.  For an event of a type other than [change] on a
    control that waits to update the map it leaves every timeline as it
    is; in every other case it gives the selection to every registered
    timeline and leaves the others alone.  Both callers in the source pass
    the type [change]: [setTime], and the callback that [_makeSlider]
    registers for the slider's [update] event, so both reach the timelines
    whatever [waitToUpdateMap] says. *)
Theorem sliderChanged_reaches_timelines (type : string) (a b : num)
    (this : TimelineSliderControl.t) (store : Store) :
  let reached (r : TimelineSliderControl.t * Store) :=
    (∀ t, t ∈ TimelineSliderControl.timelines this →
          Timeline.timeStart (r.2 t) = a ∧ Timeline.timeEnd (r.2 t) = b)
    ∧ (∀ t, t ∉ TimelineSliderControl.timelines this → r.2 t = store t) in
  let changed := TimelineSliderControl._sliderChanged type a b this store in
  TimelineSliderControl.timeStart changed.1 = Some a
  ∧ TimelineSliderControl.timeEnd changed.1 = Some b
  ∧ TimelineSliderControl.timelines changed.1 = TimelineSliderControl.timelines this
  ∧ (TimelineSliderControl.waitToUpdateMap this = true → type ≠ "change" →
     changed.2 = store)
  ∧ (TimelineSliderControl.waitToUpdateMap this = false ∨ type = "change" →
     reached changed)
  ∧ reached (TimelineSliderControl.setTime a b this store)
  ∧ reached (TimelineSliderControl.call CallSliderChanged (a, b) this store).
Proof.
  cbv beta zeta.
  assert (Hchange : ∀ ty,
    TimelineSliderControl.waitToUpdateMap this = false ∨ ty = "change" →
    (∀ t, t ∈ TimelineSliderControl.timelines this →
       Timeline.timeStart ((TimelineSliderControl._sliderChanged ty a b this store).2 t) = a
       ∧ Timeline.timeEnd ((TimelineSliderControl._sliderChanged ty a b this store).2 t) = b)
    ∧ (∀ t, t ∉ TimelineSliderControl.timelines this →
       (TimelineSliderControl._sliderChanged ty a b this store).2 t = store t)).
  { intros ty Hty. unfold TimelineSliderControl._sliderChanged.
    change (TimelineSliderControl.waitToUpdateMap
              (TimelineSliderControl.set_selection a b this))
      with (TimelineSliderControl.waitToUpdateMap this).
    assert (negb (TimelineSliderControl.waitToUpdateMap this)
            || bool_decide (ty = "change") = true) as ->.
    { destruct Hty as [->| ->]; [done|].
      rewrite bool_decide_eq_true_2 by done. apply orb_true_r. }
    cbn [snd]. unfold TimelineSliderControl.forEach_timeline.
    cbn [TimelineSliderControl.timelines TimelineSliderControl.set_selection].
    split.
    - intros t Ht. split.
      + apply (forEach_preserved (fun x => Timeline.timeStart x = a)).
        * intros x Hx.
          pose proof (setEndTime_frame (VNum b) x) as Hf. cbv zeta in Hf.
          by destruct Hf as (_ & _ & _ & _ & _ & -> & _).
        * apply (forEach_established (fun x => Timeline.timeStart x = a)); [|done].
          intros x.
          pose proof (setStartTime_frame (VNum a) x) as Hf. cbv zeta in Hf.
          by destruct Hf as (_ & _ & _ & _ & _ & -> & _).
      + apply (forEach_established (fun x => Timeline.timeEnd x = b)); [|done].
        intros x.
        pose proof (setEndTime_frame (VNum b) x) as Hf. cbv zeta in Hf.
        by destruct Hf as (_ & _ & _ & _ & _ & _ & ->).
    - intros t Ht. by rewrite !forEach_other. }
  pose proof (setTime_spec a b this store) as Hset. cbv zeta in Hset.
  destruct Hset as (_ & _ & _ & _ & _ & _ & _ & T8 & T9).
  destruct (Hchange "change") as [C1 C2]; [by right|].
  split_and!.
  - unfold TimelineSliderControl._sliderChanged. by destruct (_ || _).
  - unfold TimelineSliderControl._sliderChanged. by destruct (_ || _).
  - unfold TimelineSliderControl._sliderChanged. by destruct (_ || _).
  - intros Hw Hty. unfold TimelineSliderControl._sliderChanged.
    change (TimelineSliderControl.waitToUpdateMap
              (TimelineSliderControl.set_selection a b this))
      with (TimelineSliderControl.waitToUpdateMap this).
    rewrite Hw, bool_decide_eq_false_2 by done. done.
  - intros Hty. by apply Hchange.
  - exact T8.
  - exact T9.
  - exact C1.
  - exact C2.
Qed.

End LifecycleExtras.

(* ===================================================================== *)
(** * The selection and what is displayed *)
(* ===================================================================== *)

Section SelectionExtras.
Context `{Host}.

(** What [f] brings about on a timeline that satisfies [Q], and keeps
    together with [Q], holds of every registered timeline that satisfied
    [Q] before the [forEach]. *)
Lemma forEach_established_from (Q P : Timeline.t → Prop) (f : Timeline.t → Timeline.t)
    (l : list TimelineRef) :
  (∀ x, Q x → Q (f x) ∧ P (f x)) →
  ∀ (store : Store) (r : TimelineRef),
  Q (store r) → r ∈ l →
  P (foldl (fun store timeline => <[timeline := f (store timeline)]> store) store l r).
Proof.
  intros Hf. induction l as [|t l IH]; intros store r Hq Hr; [set_solver|].
  simpl. destruct (decide (t = r)) as [->|Hne].
  - apply (forEach_preserved (fun x => Q x ∧ P x)).
    + intros x [Hx _]. by apply Hf.
    + rewrite fn_lookup_insert. by apply Hf.
  - apply IH; [by rewrite fn_lookup_insert_ne|set_solver].
Qed.

Lemma draws_options (x y : Timeline.t) :
  Timeline.options x = Timeline.options y → Timeline.draws x = Timeline.draws y.
Proof. unfold Timeline.draws. by intros ->. Qed.

Lemma setStartTime_layers (time : Value) (x : Timeline.t) :
  Timeline.draws x = false →
  Timeline.layers (Timeline.setStartTime time x) = Timeline.layers x.
Proof.
  intros Hd. unfold Timeline.setStartTime.
  change (Timeline.draws (Timeline.set_timeStart (Timeline.to_time time) x))
    with (Timeline.draws x). by rewrite Hd.
Qed.

Lemma setEndTime_layers (time : Value) (x : Timeline.t) :
  Timeline.draws x = false →
  Timeline.layers (Timeline.setEndTime time x) = Timeline.layers x.
Proof.
  intros Hd. unfold Timeline.setEndTime.
  change (Timeline.draws (Timeline.set_timeEnd (Timeline.to_time time) x))
    with (Timeline.draws x). by rewrite Hd.
Qed.

Lemma setEndTime_displayed (time : Value) (x : Timeline.t) :
  Timeline.draws x = true →
  displayed (Timeline.setEndTime time x) ≡ₚ
    IntervalTree.overlap (Timeline.timeStart x) (Timeline.to_time time)
      (Timeline.ranges x).
Proof.
  intros Hd. unfold Timeline.setEndTime.
  change (Timeline.draws (Timeline.set_timeEnd (Timeline.to_time time) x))
    with (Timeline.draws x). rewrite Hd.
  apply (displayed_after_update (Timeline.set_timeEnd (Timeline.to_time time) x)).
Qed.

(** X10.  After [setTime(a, b)] every registered timeline has the selection
    [a, b] and its tree as before; a timeline that draws on every change
    displays exactly the features of [overlap(a, b)], and a timeline that
    does not keeps its layers. *)
Theorem setTime_displays (a b : num) (this : TimelineSliderControl.t)
    (store : Store) (r : TimelineRef) :
  r ∈ TimelineSliderControl.timelines this →
  let store' := (TimelineSliderControl.setTime a b this store).2 in
  Timeline.ranges (store' r) = Timeline.ranges (store r)
  ∧ Timeline.timeStart (store' r) = a
  ∧ Timeline.timeEnd (store' r) = b
  ∧ (if Timeline.draws (store r)
     then displayed (store' r) ≡ₚ IntervalTree.overlap a b (Timeline.ranges (store r))
     else Timeline.layers (store' r) = Timeline.layers (store r)).
Proof.
  intros Hr. cbv zeta.
  unfold TimelineSliderControl.setTime, TimelineSliderControl._sliderChanged.
  rewrite (bool_decide_eq_true_2 ("change" = "change")) by done.
  rewrite orb_true_r. cbn [snd].
  unfold TimelineSliderControl.forEach_timeline.
  assert (Htl : TimelineSliderControl.timelines
            (TimelineSliderControl.set_selection a b
               match TimelineSliderControl._timeSlider this with
               | Some slider =>
                   TimelineSliderControl.set_timeSlider
                     (Slider.set (Some a) (Some b) slider) this
               | None => this
               end) = TimelineSliderControl.timelines this)
    by (by destruct (TimelineSliderControl._timeSlider this)).
  rewrite Htl. clear Htl.
  set (l := TimelineSliderControl.timelines this) in *.
  set (R0 := Timeline.ranges (store r)).
  set (O0 := Timeline.options (store r)).
  set (store1 := foldl (fun store timeline =>
                   <[timeline := Timeline.setStartTime (VNum a) (store timeline)]> store)
                   store l).
  (* after the first pass *)
  assert (H1 : Timeline.timeStart (store1 r) = a
               ∧ Timeline.ranges (store1 r) = R0
               ∧ Timeline.options (store1 r) = O0).
  { split.
    - apply (forEach_established (fun x => Timeline.timeStart x = a)); [|done].
      intros x. pose proof (setStartTime_frame (VNum a) x) as Hf. cbv zeta in Hf.
      by destruct Hf as (_ & _ & _ & _ & _ & -> & _).
    - apply (forEach_preserved
               (fun x => Timeline.ranges x = R0 ∧ Timeline.options x = O0));
        [|done].
      intros x [Hx1 Hx2].
      pose proof (setStartTime_frame (VNum a) x) as Hf. cbv zeta in Hf.
      destruct Hf as (-> & _ & -> & _). done. }
  (* after the second pass *)
  assert (H2 : Timeline.ranges
                 (foldl (fun store timeline =>
                    <[timeline := Timeline.setEndTime (VNum b) (store timeline)]> store)
                    store1 l r) = R0
               ∧ Timeline.timeStart
                   (foldl (fun store timeline =>
                      <[timeline := Timeline.setEndTime (VNum b) (store timeline)]> store)
                      store1 l r) = a
               ∧ Timeline.timeEnd
                   (foldl (fun store timeline =>
                      <[timeline := Timeline.setEndTime (VNum b) (store timeline)]> store)
                      store1 l r) = b
               ∧ (Timeline.draws (store r) = true →
                  displayed
                    (foldl (fun store timeline =>
                       <[timeline := Timeline.setEndTime (VNum b) (store timeline)]> store)
                       store1 l r) ≡ₚ IntervalTree.overlap a b R0)).
  { apply (forEach_established_from
             (fun x => Timeline.timeStart x = a ∧ Timeline.ranges x = R0
                       ∧ Timeline.options x = O0)
             (fun x => Timeline.ranges x = R0 ∧ Timeline.timeStart x = a
                       ∧ Timeline.timeEnd x = b
                       ∧ (Timeline.draws (store r) = true →
                          displayed x ≡ₚ IntervalTree.overlap a b R0)));
      [|done|done].
    intros x (Q1 & Q2 & Q3).
    pose proof (setEndTime_frame (VNum b) x) as Hf. cbv zeta in Hf.
    destruct Hf as (F1 & _ & F3 & _ & _ & F6 & F7).
    rewrite F1, F3, F6, F7, Q1, Q2, Q3. split_and!; try done.
    intros Hd. rewrite setEndTime_displayed.
    - by rewrite Q1, Q2.
    - rewrite <- Hd. by apply draws_options. }
  destruct H2 as (E1 & E2 & E3 & E4).
  split_and!; [done..|].
  destruct (Timeline.draws (store r)) eqn:Hd; [by apply E4|].
  apply (forEach_preserved
           (fun x => Timeline.options x = O0
                     ∧ Timeline.layers x = Timeline.layers (store r))).
  - intros x [Hx1 Hx2].
    assert (Hdx : Timeline.draws x = false)
      by (rewrite <- Hd; by apply draws_options).
    pose proof (setEndTime_frame (VNum b) x) as Hf. cbv zeta in Hf.
    destruct Hf as (-> & _). by rewrite setEndTime_layers.
  - apply (forEach_preserved
             (fun x => Timeline.options x = O0
                       ∧ Timeline.layers x = Timeline.layers (store r)));
      [|done].
    intros x [Hx1 Hx2].
    assert (Hdx : Timeline.draws x = false)
      by (rewrite <- Hd; by apply draws_options).
    pose proof (setStartTime_frame (VNum a) x) as Hf. cbv zeta in Hf.
    destruct Hf as (-> & _). by rewrite setStartTime_layers.
Qed.

(** X11.  Setting the start and then the end of the selection: a timeline
    that draws on every change then displays exactly the features of the
    overlap with the new selection; a timeline that does not has its layers
    unchanged, and one call of [updateDisplayedLayers] brings it to display
    exactly those features. *)
Theorem set_both_then_update (a b : Value) (this : Timeline.t) :
  let moved := Timeline.setEndTime b (Timeline.setStartTime a this) in
  Timeline.timeStart moved = Timeline.to_time a
  ∧ Timeline.timeEnd moved = Timeline.to_time b
  ∧ (if Timeline.draws this
     then displayed moved ≡ₚ
            IntervalTree.overlap (Timeline.to_time a) (Timeline.to_time b)
              (Timeline.ranges this)
     else Timeline.layers moved = Timeline.layers this
          ∧ displayed (Timeline.updateDisplayedLayers moved) ≡ₚ
              IntervalTree.overlap (Timeline.to_time a) (Timeline.to_time b)
                (Timeline.ranges this)).
Proof.
  cbv zeta.
  pose proof (setStartTime_frame a this) as Hs. cbv zeta in Hs.
  destruct Hs as (S1 & _ & S3 & _ & _ & S6 & _).
  pose proof (setEndTime_frame b (Timeline.setStartTime a this)) as He.
  cbv zeta in He. destruct He as (E1 & _ & E3 & _ & _ & E6 & E7).
  rewrite E6, E7, S6. split; [done|]. split; [done|].
  destruct (Timeline.draws this) eqn:Hd.
  - rewrite setEndTime_displayed.
    + by rewrite S6, S3.
    + rewrite <- Hd. by apply draws_options.
  - assert (Hd' : Timeline.draws (Timeline.setStartTime a this) = false)
      by (rewrite <- Hd; by apply draws_options).
    split.
    + rewrite setEndTime_layers by done. by apply setStartTime_layers.
    + rewrite displayed_after_update. by rewrite E6, E7, E3, S6, S3.
Qed.

End SelectionExtras.

(* ===================================================================== *)
(** * The difference between what is displayed and what should be *)
(* ===================================================================== *)

Section DiffExtras.
Context `{Host}.

Lemma filter_ext_in {A} (P Q : A → Prop) `{∀ x, Decision (P x)}
    `{∀ x, Decision (Q x)} (l : list A) :
  (∀ x, x ∈ l → P x ↔ Q x) → filter P l = filter Q l.
Proof.
  induction l as [|x l IH]; intros Hpq; [done|].
  rewrite !filter_cons. rewrite IH by (intros y Hy; apply Hpq; set_solver).
  destruct (decide (P x)) as [Hp|Hp], (decide (Q x)) as [Hq|Hq]; try done.
  - destruct Hq. apply Hpq; [set_solver|done].
  - destruct Hp. apply Hpq; [set_solver|done].
Qed.

(** Without repeats, splicing out the first match takes the feature out. *)
Lemma find_splice_nodup (f : Feature) (fs : list Feature) :
  NoDup fs →
  Timeline.find_splice f fs
  = if decide (f ∈ fs) then Some (filter (fun g => g ≠ f) fs) else None.
Proof.
  induction fs as [|g fs IH]; intros Hnd; [done|].
  apply NoDup_cons in Hnd as [Hg Hnd]. simpl.
  destruct (decide (f = g)) as [->|Hne].
  - rewrite decide_True by set_solver.
    rewrite filter_cons_False by (intros Hn; by apply Hn).
    f_equal. symmetry. apply filter_all. intros y Hy ->. done.
  - rewrite IH by done. rewrite filter_cons_True by congruence.
    destruct (decide (f ∈ fs)) as [Hin|Hout].
    + by rewrite decide_True by set_solver.
    + by rewrite decide_False by set_solver.
Qed.

(** The loop over the layers when no feature is displayed twice and none
    is returned twice: the layers to remove are those whose feature is not
    returned, and the features left are those not displayed. *)
Lemma foldl_match_layer_nodup (ls : list LayerGroup.Layer) : ∀ fs rm0,
  NoDup (LayerGroup.feature <$> ls) → NoDup fs →
  foldl Timeline.match_layer (fs, rm0) ls
  = (filter (fun f => f ∉ LayerGroup.feature <$> ls) fs,
     rm0 ++ filter (fun layer => LayerGroup.feature layer ∉ fs) ls).
Proof.
  induction ls as [|layer ls IH]; intros fs rm0 Hls Hfs.
  - simpl. rewrite app_nil_r. f_equal. symmetry. apply filter_all. set_solver.
  - rewrite fmap_cons in Hls. apply NoDup_cons in Hls as [Hl Hls].
    cbn [foldl]. unfold Timeline.match_layer at 2.
    rewrite find_splice_nodup by done.
    destruct (decide (LayerGroup.feature layer ∈ fs)) as [Hin|Hout].
    + rewrite IH; [|done|by apply NoDup_filter].
      rewrite filter_cons_False by (intros Hn; by apply Hn).
      f_equal.
      * rewrite list_filter_filter. apply list_filter_iff. intros x.
        rewrite fmap_cons. set_solver.
      * f_equal. apply filter_ext_in. intros l' Hl'.
        rewrite list_elem_of_filter.
        assert (LayerGroup.feature l' ≠ LayerGroup.feature layer).
        { intros Heq. apply Hl. rewrite <- Heq. apply list_elem_of_fmap. eauto. }
        tauto.
    + rewrite IH by done. rewrite filter_cons_True by done.
      rewrite <- app_assoc. f_equal.
      apply filter_ext_in. intros x Hx. rewrite fmap_cons. set_solver.
Qed.

(** X12.  When no feature is displayed twice and the overlap query returns
    no feature twice, [updateDisplayedLayers] tells the view to remove
    exactly the displayed layers whose feature is not in the overlap, then
    to add exactly the features of the overlap that were not displayed, and
    nothing else. *)
Theorem update_is_the_difference (this : Timeline.t) :
  let features :=
    IntervalTree.overlap (Timeline.timeStart this) (Timeline.timeEnd this)
      (Timeline.ranges this) in
  NoDup (displayed this) → NoDup features →
  Timeline.trace (Timeline.updateDisplayedLayers this)
  = Timeline.trace this
    ++ (RemoveLayer <$>
          filter (fun layer => LayerGroup.feature layer ∉ features)
            (Timeline.getLayers this))
    ++ (AddData <$> filter (fun f => f ∉ displayed this) features).
Proof.
  cbv zeta. intros Hd Hf.
  pose proof (updateDisplayedLayers_fields this) as Hu. cbv zeta in Hu.
  rewrite Hu. cbn [Timeline.trace].
  rewrite (foldl_match_layer_nodup _ _ [] Hd Hf). done.
Qed.

Lemma lookup_foldl_removeLayer (rm : list LayerGroup.Layer) :
  ∀ (g : gmap nat Feature) (i : nat),
  i ∉ LayerGroup.id <$> rm →
  foldl (fun g layer => LayerGroup.removeLayer layer g) g rm !! i = g !! i.
Proof.
  induction rm as [|layer rm IH]; intros g i Hi; [done|].
  simpl. rewrite IH by set_solver. unfold LayerGroup.removeLayer.
  apply lookup_delete_ne. set_solver.
Qed.

Lemma lookup_foldl_addData (fs : list Feature) :
  ∀ (g : gmap nat Feature) (i : nat) (f : Feature),
  g !! i = Some f →
  foldl (fun g f => LayerGroup.addData f g) g fs !! i = Some f.
Proof.
  induction fs as [|f' fs IH]; intros g i f Hi; [done|].
  simpl. apply IH. unfold LayerGroup.addData.
  rewrite lookup_insert_ne; [done|].
  intros Heq. pose proof (is_fresh (dom g)) as Hfresh.
  rewrite Heq in Hfresh. apply Hfresh. apply elem_of_dom. eauto.
Qed.

(** X13.  When no feature is displayed twice and the overlap query returns
    no feature twice, a displayed layer whose feature is in the overlap
    stays displayed as the same layer: it is neither removed nor replaced
    by a new one. *)
Theorem update_keeps_layer (this : Timeline.t) (layer : LayerGroup.Layer) :
  let features :=
    IntervalTree.overlap (Timeline.timeStart this) (Timeline.timeEnd this)
      (Timeline.ranges this) in
  NoDup (displayed this) → NoDup features →
  layer ∈ Timeline.getLayers this →
  LayerGroup.feature layer ∈ features →
  layer ∈ Timeline.getLayers (Timeline.updateDisplayedLayers this)
  ∧ (RemoveLayer layer ∉
       drop (length (Timeline.trace this))
         (Timeline.trace (Timeline.updateDisplayedLayers this)))
  ∧ (AddData (LayerGroup.feature layer) ∉
       drop (length (Timeline.trace this))
         (Timeline.trace (Timeline.updateDisplayedLayers this))).
Proof.
  cbv zeta. intros Hd Hf Hl Hin.
  pose proof (updateDisplayedLayers_fields this) as Hu. cbv zeta in Hu.
  rewrite Hu. rewrite (foldl_match_layer_nodup _ _ [] Hd Hf). cbn [fst snd].
  cbn [Timeline.trace]. rewrite drop_app_length.
  unfold Timeline.getLayers at 1. cbn [Timeline.layers]. split_and!.
  - apply elem_of_getLayers. apply elem_of_getLayers in Hl as Hg.
    apply lookup_foldl_addData. rewrite lookup_foldl_removeLayer; [done|].
    simpl. intros Hid. apply list_elem_of_fmap in Hid as (l' & Hid & Hl').
    apply list_elem_of_filter in Hl' as [Hout Hl'].
    apply elem_of_getLayers in Hl'. rewrite <- Hid, Hg in Hl'.
    injection Hl' as Hfeat. apply Hout. by rewrite <- Hfeat.
  - intros Hr. apply elem_of_app in Hr as [Hr|Hr].
    + apply list_elem_of_fmap in Hr as (l' & Heq & Hl').
      injection Heq as <-. apply list_elem_of_filter in Hl' as [Hout _]. done.
    + apply list_elem_of_fmap in Hr as (f & Heq & _). discriminate.
  - intros Hr. apply elem_of_app in Hr as [Hr|Hr].
    + apply list_elem_of_fmap in Hr as (l' & Heq & _). discriminate.
    + apply list_elem_of_fmap in Hr as (f & Heq & Hf').
      injection Heq as <-. apply list_elem_of_filter in Hf' as [Hout _].
      apply Hout. unfold displayed. apply list_elem_of_fmap. eauto.
Qed.

End DiffExtras.

(* ===================================================================== *)
(** * What a timeline indexes *)
(* ===================================================================== *)

Section IndexExtras.
Context `{Host}.

Lemma foldl_min_spec (ivs : list TimeBounds.t) : ∀ a,
  is_number a →
  Forall (fun iv => is_number (TimeBounds.start iv)) ivs →
  let m := foldl (fun acc iv => min acc (TimeBounds.start iv)) a ivs in
  le m a
  ∧ (∀ iv, iv ∈ ivs → le m (TimeBounds.start iv))
  ∧ (m = a ∨ ∃ iv, iv ∈ ivs ∧ m = TimeBounds.start iv).
Proof.
  induction ivs as [|iv ivs IH]; intros a Ha Hn; cbv zeta; simpl.
  - split; [by apply le_refl|]. split; [set_solver|by left].
  - apply Forall_cons in Hn as [Hiv Hn].
    destruct (IH (min a (TimeBounds.start iv))) as (I1 & I2 & I3);
      [by apply min_number|done|].
    split; [eapply le_trans; [exact I1|by apply min_le_l]|]. split.
    + intros x Hx. apply elem_of_cons in Hx as [->|Hx]; [|by apply I2].
      eapply le_trans; [exact I1|by apply min_le_r].
    + destruct I3 as [I3|(x & Hx & I3)]; [|right; exists x; set_solver].
      rewrite I3. unfold min.
      destruct a, (TimeBounds.start iv) eqn:Hst; try done; simpl;
        try case_bool_decide;
        first [by left | right; exists iv; split; [set_solver|by rewrite Hst]].
Qed.

Lemma foldl_max_spec (ivs : list TimeBounds.t) : ∀ a,
  is_number a →
  Forall (fun iv => is_number (TimeBounds.end_ iv)) ivs →
  let m := foldl (fun acc iv => max acc (TimeBounds.end_ iv)) a ivs in
  le a m
  ∧ (∀ iv, iv ∈ ivs → le (TimeBounds.end_ iv) m)
  ∧ (m = a ∨ ∃ iv, iv ∈ ivs ∧ m = TimeBounds.end_ iv).
Proof.
  induction ivs as [|iv ivs IH]; intros a Ha Hn; cbv zeta; simpl.
  - split; [by apply le_refl|]. split; [set_solver|by left].
  - apply Forall_cons in Hn as [Hiv Hn].
    destruct (IH (max a (TimeBounds.end_ iv))) as (I1 & I2 & I3);
      [by apply max_number|done|].
    split; [apply (le_trans _ (max a (TimeBounds.end_ iv)));
            [by apply max_ge_l|exact I1]|]. split.
    + intros x Hx. apply elem_of_cons in Hx as [->|Hx]; [|by apply I2].
      apply (le_trans _ (max a (TimeBounds.end_ iv))); [by apply max_ge_r|exact I1].
    + destruct I3 as [I3|(x & Hx & I3)]; [|right; exists x; set_solver].
      rewrite I3. unfold max.
      destruct a, (TimeBounds.end_ iv) eqn:Hst; try done; simpl;
        try case_bool_decide;
        first [by left | right; exists iv; split; [set_solver|by rewrite Hst]].
Qed.

(** One [NaN] among the values makes the running [Math.min], and the
    running [Math.max], [NaN]. *)
Lemma foldl_min_NaN (ivs : list TimeBounds.t) : ∀ a,
  a = NaN ∨ (∃ iv, iv ∈ ivs ∧ TimeBounds.start iv = NaN) →
  foldl (fun acc iv => min acc (TimeBounds.start iv)) a ivs = NaN.
Proof.
  induction ivs as [|iv ivs IH]; intros a Ha; simpl.
  - destruct Ha as [->|(iv & Hiv & _)]; [done|set_solver].
  - apply IH. destruct Ha as [->|(x & Hx & Hnan)]; [by left|].
    apply elem_of_cons in Hx as [->|Hx]; [left|right; by exists x].
    rewrite Hnan. apply min_NaN_r.
Qed.

Lemma foldl_max_NaN (ivs : list TimeBounds.t) : ∀ a,
  a = NaN ∨ (∃ iv, iv ∈ ivs ∧ TimeBounds.end_ iv = NaN) →
  foldl (fun acc iv => max acc (TimeBounds.end_ iv)) a ivs = NaN.
Proof.
  induction ivs as [|iv ivs IH]; intros a Ha; simpl.
  - destruct Ha as [->|(iv & Hiv & _)]; [done|set_solver].
  - apply IH. destruct Ha as [->|(x & Hx & Hnan)]; [by left|].
    apply elem_of_cons in Hx as [->|Hx]; [left|right; by exists x].
    rewrite Hnan. apply max_NaN_r.
Qed.

(** The intervals extracted from the data are those of the entries. *)
Lemma elem_of_intervals (data : list Feature) (o : TimelineOptions.t)
    (iv : TimeBounds.t) :
  let tl := Timeline.initialize data o in
  iv ∈ omap (Timeline._getInterval tl) data ↔
  ∃ f, (TimeBounds.start iv, TimeBounds.end_ iv, f) ∈ Timeline.ranges tl.
Proof.
  cbv zeta. rewrite list_elem_of_omap. split.
  - intros (f & Hf & Hiv). exists f. apply elem_of_ranges.
    split; [done|]. rewrite Hiv. by destruct iv.
  - intros (f & Hf). apply elem_of_ranges in Hf as [Hf Hiv].
    exists f. split; [done|]. rewrite Hiv. by destruct iv.
Qed.

(** The intervals extracted from a collection with numeric intervals. *)
Lemma intervals_number (data : list Feature) (o : TimelineOptions.t) :
  let tl := Timeline.initialize data o in
  numeric_intervals tl data →
  Forall (fun iv => is_number (TimeBounds.start iv))
    (omap (Timeline._getInterval tl) data)
  ∧ Forall (fun iv => is_number (TimeBounds.end_ iv))
      (omap (Timeline._getInterval tl) data).
Proof.
  cbv zeta. intros Hnum.
  split; apply Forall_forall; intros iv Hiv;
    apply list_elem_of_omap in Hiv as (f & Hf & Hiv);
    by destruct (Hnum f iv Hf Hiv).
Qed.

(** X14.  The first selection of a timeline is its whole domain, pinned or
    not.  When the starts and the ends of the extracted intervals are
    numbers, the bounds that are not pinned are the extremes of the
    entries: the start is at or before the start of every entry and is the
    start of one of them, or [Infinity] when no start is below that;
    likewise the end with [-Infinity].  One start that is [NaN] makes a
    start that is not pinned [NaN], and likewise for the end. *)
Theorem unpinned_bounds (data : list Feature) (o : TimelineOptions.t) :
  let tl := Timeline.initialize data o in
  Timeline.timeStart tl = Timeline.start tl
  ∧ Timeline.timeEnd tl = Timeline.end_ tl
  ∧ (TimelineOptions.start o = None →
     (numeric_intervals tl data →
      (∀ s e f, (s, e, f) ∈ Timeline.ranges tl → le (Timeline.start tl) s)
      ∧ (Timeline.start tl = PosInf
         ∨ ∃ e f, (Timeline.start tl, e, f) ∈ Timeline.ranges tl))
     ∧ ((∃ e f, (NaN, e, f) ∈ Timeline.ranges tl) → Timeline.start tl = NaN))
  ∧ (TimelineOptions.end_ o = None →
     (numeric_intervals tl data →
      (∀ s e f, (s, e, f) ∈ Timeline.ranges tl → le e (Timeline.end_ tl))
      ∧ (Timeline.end_ tl = NegInf
         ∨ ∃ s f, (s, Timeline.end_ tl, f) ∈ Timeline.ranges tl))
     ∧ ((∃ s f, (s, NaN, f) ∈ Timeline.ranges tl) → Timeline.end_ tl = NaN)).
Proof.
  cbv zeta.
  destruct (initialize_fields data o) as (_ & _ & _ & Hs & He & Hts & Hte & _).
  split; [done|]. split; [done|]. split.
  - intros Ho. rewrite Ho in Hs. cbn in Hs. split.
    + intros Hnum. destruct (intervals_number data o Hnum) as [Hn _].
      destruct (foldl_min_spec (omap (Timeline._getInterval
                  (Timeline.initialize data o)) data) PosInf) as (_ & M2 & M3);
        [done..|].
      cbv zeta in M2, M3. rewrite <- Hs in M2, M3. split.
      * intros s e f Hin. apply (M2 (TimeBounds.mk s e)).
        apply elem_of_intervals. by exists f.
      * destruct M3 as [M3|(iv & Hiv & M3)]; [by left|right].
        apply elem_of_intervals in Hiv as (f & Hf).
        exists (TimeBounds.end_ iv), f. by rewrite M3.
    + intros (e & f & Hin). rewrite Hs. apply foldl_min_NaN. right.
      exists (TimeBounds.mk NaN e). split; [|done].
      apply elem_of_intervals. by exists f.
  - intros Ho. rewrite Ho in He. cbn in He. split.
    + intros Hnum. destruct (intervals_number data o Hnum) as [_ Hn].
      destruct (foldl_max_spec (omap (Timeline._getInterval
                  (Timeline.initialize data o)) data) NegInf) as (_ & M2 & M3);
        [done..|].
      cbv zeta in M2, M3. rewrite <- He in M2, M3. split.
      * intros s e f Hin. apply (M2 (TimeBounds.mk s e)).
        apply elem_of_intervals. by exists f.
      * destruct M3 as [M3|(iv & Hiv & M3)]; [by left|right].
        apply elem_of_intervals in Hiv as (f & Hf).
        exists (TimeBounds.start iv), f. by rewrite M3.
    + intros (s & f & Hin). rewrite He. apply foldl_max_NaN. right.
      exists (TimeBounds.mk s NaN). split; [|done].
      apply elem_of_intervals. by exists f.
Qed.

(** X15.  A timeline without pinned bounds whose extracted intervals have
    numbers as starts and ends displays, at its first
    [updateDisplayedLayers], every feature whose interval does not end
    before it starts.  When one extracted start or end is [NaN], it
    displays nothing at its first [updateDisplayedLayers]. *)
Theorem first_update_shows (data : list Feature) (o : TimelineOptions.t) :
  let tl := Timeline.initialize data o in
  TimelineOptions.start o = None →
  TimelineOptions.end_ o = None →
  (numeric_intervals tl data →
   ∀ s e f, (s, e, f) ∈ Timeline.ranges tl → le s e →
            f ∈ displayed (Timeline.updateDisplayedLayers tl))
  ∧ ((∃ s e f, (s, e, f) ∈ Timeline.ranges tl ∧ (s = NaN ∨ e = NaN)) →
     displayed (Timeline.updateDisplayedLayers tl) = []).
Proof.
  cbv zeta. intros Hos Hoe.
  destruct (initialize_fields data o) as (_ & _ & _ & Hs & He & Hts & Hte & _).
  rewrite Hos in Hs. rewrite Hoe in He. cbn in Hs, He. split.
  - intros Hnum s e f Hin Hse.
    rewrite displayed_after_update. rewrite Hts, Hte.
    destruct (intervals_number data o Hnum) as [Hn1 Hn2].
    destruct (foldl_min_spec (omap (Timeline._getInterval
                (Timeline.initialize data o)) data) PosInf) as (_ & M2 & _);
      [done..|].
    destruct (foldl_max_spec (omap (Timeline._getInterval
                (Timeline.initialize data o)) data) NegInf) as (_ & N2 & _);
      [done..|].
    cbv zeta in M2, N2.
    rewrite <- Hs in M2. rewrite <- He in N2.
    assert (Hiv : TimeBounds.mk s e ∈ omap (Timeline._getInterval
                    (Timeline.initialize data o)) data).
    { apply elem_of_intervals. by exists f. }
    specialize (M2 _ Hiv). specialize (N2 _ Hiv). cbn in M2, N2.
    unfold IntervalTree.overlap. apply list_elem_of_fmap.
    exists (s, e, f). split; [done|]. apply list_elem_of_filter. split; [|done].
    unfold IntervalTree.intersects. cbn. rewrite geb_leb.
    apply andb_true_iff. split.
    + by apply (le_trans s e).
    + by apply (le_trans _ s).
  - intros (s & e & f & Hin & Hnan).
    apply Permutation_nil_r. rewrite displayed_after_update, Hts, Hte.
    assert (Hbound : Timeline.start (Timeline.initialize data o) = NaN
                     ∨ Timeline.end_ (Timeline.initialize data o) = NaN).
    { destruct Hnan as [-> | ->]; [left|right].
      - rewrite Hs. apply foldl_min_NaN. right.
        exists (TimeBounds.mk NaN e). split; [|done].
        apply elem_of_intervals. by exists f.
      - rewrite He. apply foldl_max_NaN. right.
        exists (TimeBounds.mk s NaN). split; [|done].
        apply elem_of_intervals. by exists f. }
    unfold IntervalTree.overlap.
    match goal with |- context [filter ?P ?l] =>
      assert (Hnone : filter P l = [])
    end.
    { apply filter_none.
      intros entry _. unfold IntervalTree.intersects, geb.
      destruct Hbound as [-> | ->].
      - destruct (leb entry.1.1 _); [|done]. by destruct (entry.1.2).
      - by destruct (entry.1.1). }
    by rewrite Hnone.
Qed.

(** X16.  Whatever the selection, [updateDisplayedLayers] displays only
    features of the collection for which the interval extraction gave an
    interval: a feature that was skipped at construction is never
    displayed. *)
Theorem displayed_are_indexed (data : list Feature) (o : TimelineOptions.t)
    (this : Timeline.t) (f : Feature) :
  let tl := Timeline.initialize data o in
  Timeline.ranges this = Timeline.ranges tl →
  f ∈ displayed (Timeline.updateDisplayedLayers this) →
  f ∈ data ∧ is_Some (Timeline._getInterval tl f).
Proof.
  cbv zeta. intros Hr Hf. rewrite displayed_after_update, Hr in Hf.
  unfold IntervalTree.overlap in Hf.
  apply list_elem_of_fmap in Hf as ([[s e] f'] & Heq & Hin).
  simpl in Heq. subst f'. apply list_elem_of_filter in Hin as [_ Hin].
  apply elem_of_ranges in Hin as [Hd Hiv]. split; [done|]. by rewrite Hiv.
Qed.

(** X17.  With the default extraction, the features that a timeline indexes
    are exactly the features of the collection that have properties with
    both a [start] and an [end] key, each under the times that the date
    conversion gives for the two values. *)
Theorem default_extraction (data : list Feature) (o : TimelineOptions.t)
    (s e : num) (f : Feature) :
  let tl := Timeline.initialize data o in
  TimelineOptions.getInterval o = None →
  ((s, e, f) ∈ Timeline.ranges tl ↔
   f ∈ data
   ∧ ∃ p vs ve, properties f = Some p
       ∧ Properties.start p = Some vs ∧ Properties.end_ p = Some ve
       ∧ s = Date_getTime vs ∧ e = Date_getTime ve).
Proof.
  cbv zeta. intros Ho. rewrite elem_of_ranges.
  destruct (initialize_fields data o) as (Hopt & _).
  unfold Timeline._getInterval. rewrite Hopt. cbn. rewrite Ho. cbn.
  unfold Timeline.default_getInterval. split.
  - intros [Hd Hiv]. split; [done|].
    destruct (properties f) as [p|]; [|done].
    destruct (Properties.start p) as [vs|] eqn:Hvs; [|done].
    destruct (Properties.end_ p) as [ve|] eqn:Hve; [|done].
    injection Hiv as <- <-. by exists p, vs, ve.
  - intros [Hd (p & vs & ve & -> & -> & -> & -> & ->)]. done.
Qed.

(** The features of the entries are the features of the data that have an
    interval, in the order of the data. *)
Lemma entries_features (t : Timeline.t) (data : list Feature) :
  snd <$> (data ≫= entries t)
  = filter (fun f => is_Some (Timeline._getInterval t f)) data.
Proof.
  induction data as [|f data IH]; [done|].
  cbn [mbind list_bind]. rewrite fmap_app, IH. unfold entries at 1.
  destruct (Timeline._getInterval t f) as [iv|] eqn:Hiv.
  - rewrite filter_cons_True by (by rewrite Hiv). done.
  - rewrite filter_cons_False; [done|]. rewrite Hiv. by intros [? ?].
Qed.

Lemma ranges_features (data : list Feature) (o : TimelineOptions.t) :
  let tl := Timeline.initialize data o in
  snd <$> Timeline.ranges tl
  = filter (fun f => is_Some (Timeline._getInterval tl f)) data.
Proof.
  cbv zeta. destruct (initialize_fields data o) as (_ & -> & _).
  apply entries_features.
Qed.

(** X18.  For a collection that lists no feature twice, an overlap query
    returns no feature twice, and [updateDisplayedLayers] displays no
    feature twice. *)
Theorem no_feature_twice (data : list Feature) (o : TimelineOptions.t)
    (this : Timeline.t) (qs qe : num) :
  let tl := Timeline.initialize data o in
  NoDup data →
  Timeline.ranges this = Timeline.ranges tl →
  NoDup (IntervalTree.overlap qs qe (Timeline.ranges tl))
  ∧ NoDup (displayed (Timeline.updateDisplayedLayers this)).
Proof.
  cbv zeta. intros Hnd Hr.
  assert (Hall : ∀ a b, NoDup (IntervalTree.overlap a b
                    (Timeline.ranges (Timeline.initialize data o)))).
  { intros a b. unfold IntervalTree.overlap.
    apply (sublist_NoDup _ (snd <$> Timeline.ranges (Timeline.initialize data o))).
    - pose proof (ranges_features data o) as Hrf. cbv zeta in Hrf.
      rewrite Hrf. by apply NoDup_filter.
    - apply fmap_sublist, sublist_filter. }
  split; [apply Hall|].
  rewrite displayed_after_update, Hr. apply Hall.
Qed.

End IndexExtras.

(* ===================================================================== *)
(** * The merged time list and the steps through it *)
(* ===================================================================== *)

Section TimesExtras.

#[local] Instance le_antisymm : AntiSymm (=) le.
Proof. intros a b. apply le_antisym. Qed.

(** X19.  The merged time list of the control is strictly increasing, and
    its values are exactly the times of the registered timelines that lie
    in the closed range from [start] to [end]. *)
Theorem merged_times (this : TimelineSliderControl.t) (store : Store) :
  StronglySorted lt (TimelineSliderControl._getTimes this store)
  ∧ ∀ x, x ∈ TimelineSliderControl._getTimes this store ↔
         (∃ t, t ∈ TimelineSliderControl.timelines this
               ∧ x ∈ Timeline.times (store t))
         ∧ le (TimelineSliderControl.start this) x
         ∧ le x (TimelineSliderControl.end_ this).
Proof.
  split; [apply getTimes_sorted|].
  intros x. rewrite elem_of_getTimes. unfold times_in_range.
  rewrite list_elem_of_bind. split.
  - intros (t & Hx & Ht). apply list_elem_of_filter in Hx as [Hr Hx].
    unfold TimelineSliderControl.in_range in Hr.
    apply andb_true_iff in Hr as [Hr1 Hr2]. split; [by exists t|done].
  - intros [(t & Ht & Hx) [Hr1 Hr2]]. exists t. split; [|done].
    apply list_elem_of_filter. split; [|done].
    unfold TimelineSliderControl.in_range. apply andb_true_iff. done.
Qed.

Lemma nearest_loop_listed (findTime : num) (mode : Z) (rest : list num) :
  ∀ retNext l0,
  ∃ r, TimelineSliderControl.nearest_loop findTime mode rest retNext (Some l0)
       = Some r ∧ r ∈ l0 :: rest.
Proof.
  induction rest as [|time rest IH]; intros retNext l0.
  - exists l0. split; [done|set_solver].
  - cbn [TimelineSliderControl.nearest_loop].
    destruct retNext; [exists time; split; [done|set_solver]|].
    destruct (geb time findTime).
    + destruct (bool_decide (mode = -1)); [exists l0; split; [done|set_solver]|].
      destruct (eqb time findTime); [|exists time; split; [done|set_solver]].
      destruct (IH true time) as (r & -> & Hr). exists r. split; [done|set_solver].
    + destruct (IH false time) as (r & -> & Hr). exists r. split; [done|set_solver].
Qed.

(** X20.  On a merged time list that is not empty, [_nearestEventTime]
    returns one of the listed times, for every [findTime] and every
    [mode]. *)
Theorem nearestEventTime_listed (this : TimelineSliderControl.t) (store : Store)
    (findTime : num) (mode : Z) :
  TimelineSliderControl._getTimes this store ≠ [] →
  ∃ r, TimelineSliderControl._nearestEventTime this store findTime mode = Some r
       ∧ r ∈ TimelineSliderControl._getTimes this store.
Proof.
  intros Hne. unfold TimelineSliderControl._nearestEventTime.
  destruct (TimelineSliderControl._getTimes this store) as [|l0 rest]; [done|].
  cbn [drop lookup list_lookup]. apply nearest_loop_listed.
Qed.

(** X21.  Forward from a [findTime] before the first listed time, on a list
    of two times or more, [_nearestEventTime] returns the second listed
    time: the loop starts at index 1 and never compares the first time. *)
Theorem nearestEventTime_before_first_time (this : TimelineSliderControl.t)
    (store : Store) (findTime : num) (mode : Z) (t0 t1 : num) (rest : list num) :
  TimelineSliderControl._getTimes this store = t0 :: t1 :: rest →
  mode ≠ -1 →
  lt findTime t0 →
  TimelineSliderControl._nearestEventTime this store findTime mode = Some t1.
Proof.
  intros Htimes Hmode Hlt. unfold TimelineSliderControl._nearestEventTime.
  pose proof (getTimes_sorted this store) as Hs. rewrite Htimes in *.
  cbn [drop lookup list_lookup TimelineSliderControl.nearest_loop].
  assert (Hlt1 : lt findTime t1).
  { apply (lt_trans _ t0); [done|]. eapply sorted_head_lt; [exact Hs|set_solver]. }
  rewrite geb_leb. rewrite (lt_le _ _ Hlt1).
  rewrite bool_decide_eq_false_2 by done.
  destruct (eqb t1 findTime) eqn:Heq; [|done].
  apply eqb_true in Heq as ->. unfold lt in Hlt1. by rewrite ltb_irrefl in Hlt1.
Qed.

(** Pushing a strictly increasing list changes nothing. *)
Lemma foldl_push_new_sorted (rest : list num) : ∀ acc a,
  last acc = Some a → StronglySorted lt (a :: rest) →
  foldl push_new acc rest = acc ++ rest.
Proof.
  induction rest as [|x rest IH]; intros acc a Hlast Hs; simpl.
  - by rewrite app_nil_r.
  - apply StronglySorted_cons in Hs as [Ha Hs].
    apply Forall_cons in Ha as [Hax _].
    unfold push_new at 2. rewrite Hlast.
    assert (neqb a x = true) as ->.
    { unfold neqb. destruct (eqb a x) eqn:Heq; [|done].
      apply eqb_true in Heq as ->. unfold lt in Hax.
      by rewrite ltb_irrefl in Hax. }
    rewrite (IH _ x); [by rewrite <- app_assoc|apply last_snoc|done].
Qed.

(** Sorting and removing repeats leaves a strictly increasing list as it
    is. *)
Lemma sort_dedupe_sorted (l : list num) :
  Forall is_number l →
  StronglySorted lt l →
  match sort sub l with
  | [] => []
  | x :: rest => foldl push_new [x] rest
  end = l.
Proof.
  intros Hn Hs.
  assert (Hsort : sort sub l = l).
  { apply (StronglySorted_unique le).
    - by apply sort_sorted.
    - eapply StronglySorted_impl; [|exact Hs]. apply lt_le.
    - apply sort_perm. }
  rewrite Hsort. destruct l as [|x rest]; [done|].
  by rewrite (foldl_push_new_sorted rest [x] x).
Qed.

Lemma filter_sorted (P : num → Prop) `{∀ x, Decision (P x)} (l : list num) :
  StronglySorted lt l → StronglySorted lt (filter P l).
Proof.
  induction 1 as [|x l Hl IH Hx]; [constructor|].
  rewrite filter_cons. destruct (decide (P x)); [|done].
  constructor; [done|]. apply Forall_forall. intros y Hy.
  apply list_elem_of_filter in Hy as [_ Hy].
  rewrite Forall_forall in Hx. by apply Hx.
Qed.

(** The merged list depends on the registered timelines as a collection:
    their order and repeats do not matter. *)
Lemma getTimes_sort_unique (l1 l2 : list num) :
  Forall is_number l1 → Forall is_number l2 →
  (∀ x, x ∈ l1 ↔ x ∈ l2) →
  match sort sub l1 with
  | [] => []
  | x :: rest => foldl push_new [x] rest
  end
  = match sort sub l2 with
    | [] => []
    | x :: rest => foldl push_new [x] rest
    end.
Proof.
  intros Hn1 Hn2 Hmem.
  assert (Hd : ∀ l, Forall is_number l →
                    StronglySorted lt
                      match sort sub l with
                      | [] => []
                      | x :: rest => foldl push_new [x] rest
                      end
                    ∧ ∀ y, y ∈ match sort sub l with
                               | [] => []
                               | x :: rest => foldl push_new [x] rest
                               end ↔ y ∈ l).
  { intros l Hl. pose proof (sort_sorted l Hl) as Hs.
    pose proof (sort_number l Hl) as Hn. pose proof (sort_perm l) as Hp.
    destruct (sort sub l) as [|x rest].
    - split; [constructor|]. intros y. by rewrite <- Hp.
    - apply Forall_cons in Hn as [Hx _].
      destruct (dedupe_sorted x rest Hx Hs) as [D1 D2]. split; [done|].
      intros y. by rewrite D2, Hp. }
  destruct (Hd l1 Hn1) as [S1 M1]. destruct (Hd l2 Hn2) as [S2 M2].
  apply (StronglySorted_unique le).
  - eapply StronglySorted_impl; [|exact S1]. apply lt_le.
  - eapply StronglySorted_impl; [|exact S2]. apply lt_le.
  - apply NoDup_Permutation.
    + clear -S1. induction S1 as [|x l Hl IH Hx]; constructor; [|done].
      intros Hin. rewrite Forall_forall in Hx. specialize (Hx x Hin).
      unfold lt in Hx. by rewrite ltb_irrefl in Hx.
    + clear -S2. induction S2 as [|x l Hl IH Hx]; constructor; [|done].
      intros Hin. rewrite Forall_forall in Hx. specialize (Hx x Hin).
      unfold lt in Hx. by rewrite ltb_irrefl in Hx.
    + intros y. by rewrite M1, M2, Hmem.
Qed.

(** X22.  Two controls with the same bounds that have the same timelines
    registered, in whatever order and however often, have the same merged
    time list. *)
Theorem merged_times_order (this1 this2 : TimelineSliderControl.t) (store : Store) :
  TimelineSliderControl.start this1 = TimelineSliderControl.start this2 →
  TimelineSliderControl.end_ this1 = TimelineSliderControl.end_ this2 →
  (∀ t, t ∈ TimelineSliderControl.timelines this1
        ↔ t ∈ TimelineSliderControl.timelines this2) →
  TimelineSliderControl._getTimes this1 store
  = TimelineSliderControl._getTimes this2 store.
Proof.
  intros Hs He Htl. rewrite !getTimes_unfold.
  apply getTimes_sort_unique; [apply times_in_range_number..|].
  intros x. unfold times_in_range. rewrite !list_elem_of_bind.
  unfold TimelineSliderControl.in_range.
  split; intros (t & Hx & Ht); exists t;
    apply list_elem_of_filter in Hx as [Hr Hx];
    (split; [apply list_elem_of_filter; split; [|done]|by apply Htl]).
  - by rewrite <- Hs, <- He.
  - by rewrite Hs, He.
Qed.

(** X23.  When one timeline is registered and its time list is strictly
    increasing, the merged time list is that time list restricted to the
    closed range from [start] to [end]. *)
Theorem merged_times_single (this : TimelineSliderControl.t) (store : Store)
    (r : TimelineRef) :
  TimelineSliderControl.timelines this = [r] →
  StronglySorted lt (Timeline.times (store r)) →
  TimelineSliderControl._getTimes this store
  = filter (TimelineSliderControl.in_range this) (Timeline.times (store r)).
Proof.
  intros Htl Hs. rewrite getTimes_unfold. unfold times_in_range.
  rewrite Htl. cbn [mbind list_bind]. rewrite app_nil_r.
  apply sort_dedupe_sorted; [|by apply filter_sorted].
  apply Forall_forall. intros x Hx.
  apply list_elem_of_filter in Hx as [Hx _]. by eapply in_range_number.
Qed.

End TimesExtras.

(* ===================================================================== *)
(** * Peers and the bounds given to the slider *)
(* ===================================================================== *)

Section ControlExtras.
Context `{Host}.

(** X24.  [syncControl] appends the peer to the list of peers, which it
    creates at the first call, and leaves every other field alone; the
    list of peers is stored and nothing more: [setTime] leaves it as it is
    and does to the selection and to the timelines what it does without
    the peer. *)
Theorem syncControl_stores (controlToSync : nat) (this : TimelineSliderControl.t)
    (a b : num) (store : Store) :
  let synced := TimelineSliderControl.syncControl controlToSync this in
  TimelineSliderControl.syncedControl synced
  = Some (default [] (TimelineSliderControl.syncedControl this) ++ [controlToSync])
  ∧ TimelineSliderControl.options synced = TimelineSliderControl.options this
  ∧ TimelineSliderControl.timelines synced = TimelineSliderControl.timelines this
  ∧ TimelineSliderControl.start synced = TimelineSliderControl.start this
  ∧ TimelineSliderControl.end_ synced = TimelineSliderControl.end_ this
  ∧ TimelineSliderControl.timeStart synced = TimelineSliderControl.timeStart this
  ∧ TimelineSliderControl.timeEnd synced = TimelineSliderControl.timeEnd this
  ∧ TimelineSliderControl._timeSlider synced = TimelineSliderControl._timeSlider this
  ∧ TimelineSliderControl.syncedControl
      (TimelineSliderControl.setTime a b synced store).1
    = TimelineSliderControl.syncedControl synced
  ∧ (TimelineSliderControl.setTime a b synced store).2
    = (TimelineSliderControl.setTime a b this store).2
  ∧ TimelineSliderControl.timeStart
      (TimelineSliderControl.setTime a b synced store).1
    = TimelineSliderControl.timeStart
        (TimelineSliderControl.setTime a b this store).1.
Proof.
  cbv zeta.
  unfold TimelineSliderControl.syncControl, TimelineSliderControl.setTime,
    TimelineSliderControl._sliderChanged.
  rewrite (bool_decide_eq_true_2 ("change" = "change")) by done.
  rewrite !orb_true_r.
  destruct this as [o l s e ts te [sy|] [sl|]]; cbn; split_and!; reflexivity.
Qed.

(** X25.  [_recalculate] on a control that has its slider leaves the
    list of timelines and the options alone.  A pinned bound and the
    slider's bound on that side stay as they are.  A start that is not
    pinned becomes the least start of the registered timelines
    ([Infinity] without any below); the slider is given that value as its
    lower bound, or 0 in place of [Infinity], and is asked to set its
    first handle to the value itself.  An end that is not pinned becomes
    the greatest end ([-Infinity] without any above); the slider is given
    that value as its upper bound, or 0 in place of [-Infinity]. *)
Theorem recalculate_bounds (this : TimelineSliderControl.t) (store : Store)
    (slider : Slider.t) :
  TimelineSliderControl._timeSlider this = Some slider →
  ∃ this' slider',
    TimelineSliderControl._recalculate this store = Some this'
    ∧ TimelineSliderControl._timeSlider this' = Some slider'
    ∧ TimelineSliderControl.timelines this' = TimelineSliderControl.timelines this
    ∧ TimelineSliderControl.options this' = TimelineSliderControl.options this
    ∧ (if TimelineSliderControl.manualStart this
       then TimelineSliderControl.start this' = TimelineSliderControl.start this
            ∧ Slider.range_min slider' = Slider.range_min slider
            ∧ Slider.sets slider' = Slider.sets slider
       else is_min_start store (TimelineSliderControl.timelines this)
              (TimelineSliderControl.start this')
            ∧ Slider.range_min slider'
              = (if eqb (TimelineSliderControl.start this') PosInf then Fin 0
                 else TimelineSliderControl.start this')
            ∧ Slider.range_min slider' ≠ PosInf
            ∧ Slider.sets slider'
              = Slider.sets slider ++ [(Some (TimelineSliderControl.start this'), None)])
    ∧ (if TimelineSliderControl.manualEnd this
       then TimelineSliderControl.end_ this' = TimelineSliderControl.end_ this
            ∧ Slider.range_max slider' = Slider.range_max slider
       else is_max_end store (TimelineSliderControl.timelines this)
              (TimelineSliderControl.end_ this')
            ∧ Slider.range_max slider'
              = (if eqb (TimelineSliderControl.end_ this') NegInf then Fin 0
                 else TimelineSliderControl.end_ this')
            ∧ Slider.range_max slider' ≠ NegInf).
Proof.
  intros Hsl.
  pose proof (foldl_recalculate_step store (TimelineSliderControl.timelines this)
                PosInf NegInf) as Hm.
  cbv zeta in Hm. destruct Hm as ((M1 & M2 & M3) & (N1 & N2 & N3)); [done..|].
  apply le_number_l in M1. apply le_number_r in N1.
  unfold TimelineSliderControl._recalculate.
  destruct (foldl (TimelineSliderControl.recalculate_step store) _ _) as [mn mx].
  cbn [fst snd] in M1, M2, M3, N1, N2, N3.
  unfold TimelineSliderControl.manualStart, TimelineSliderControl.manualEnd.
  destruct this as [o tls st en ts te sy sl]. cbn in Hsl. subst sl.
  cbn [TimelineSliderControl.timelines] in M2, M3, N2, N3.
  assert (Hmin : (if eqb mn PosInf then Fin 0 else mn) ≠ PosInf).
  { by destruct mn. }
  assert (Hmax : (if eqb mx NegInf then Fin 0 else mx) ≠ NegInf).
  { by destruct mx. }
  cbn.
  destruct (bool_decide (is_Some (TimelineSliderControlOptions.start o))); cbn;
    destruct (bool_decide (is_Some (TimelineSliderControlOptions.end_ o))); cbn;
    eexists _, _; (split; [reflexivity|]); cbn; split_and!;
      try reflexivity; try done.
Qed.

End ControlExtras.

(* ===================================================================== *)
(** * The further properties on the example data *)
(* ===================================================================== *)

(** X1 on the control that has the timeline [1] registered. *)
Lemma addTimelines_registered_witness :
  (∀ t, t ∈ [1%nat] → t ∈ TimelineSliderControl.timelines Examples.with_three_times.1)
  ∧ @TimelineSliderControl.addTimelines Examples.host [1%nat]
      Examples.with_three_times.1 Examples.with_three_times.2
    = Some (Examples.with_three_times.1, Examples.with_three_times.2).
Proof.
  assert (Hall : ∀ t, t ∈ [1%nat] →
            t ∈ TimelineSliderControl.timelines Examples.with_three_times.1).
  { intros t Ht. apply list_elem_of_singleton in Ht as ->. vm_compute. constructor. }
  split; [exact Hall|].
  exact (@addTimelines_registered Examples.host [1%nat]
           Examples.with_three_times.1 Examples.with_three_times.2 Hall).
Defined.

(** X2 on the same control and the timeline [0], which is not registered. *)
Lemma removeTimelines_unregistered_witness :
  (∀ t, t ∈ [0%nat] → t ∉ TimelineSliderControl.timelines Examples.with_three_times.1)
  ∧ @TimelineSliderControl.removeTimelines Examples.host [0%nat]
      Examples.with_three_times.1 Examples.with_three_times.2
    = Some (Examples.with_three_times.1, Examples.with_three_times.2).
Proof.
  assert (Hall : ∀ t, t ∈ [0%nat] →
            t ∉ TimelineSliderControl.timelines Examples.with_three_times.1).
  { intros t Ht. apply list_elem_of_singleton in Ht as ->. vm_compute.
    intros Hin. inversion Hin as [|? ? ? Hin']; inversion Hin'. }
  split; [exact Hall|].
  exact (@removeTimelines_unregistered Examples.host [0%nat]
           Examples.with_three_times.1 Examples.with_three_times.2 Hall).
Defined.

(** X3 on the mounted control and the timelines [0], [1], [0]. *)
Lemma addTimelines_set_witness :
  TimelineSliderControl._timeSlider Examples.mounted = Some Scenarios.mounted_slider
  ∧ NoDup (TimelineSliderControl.timelines Examples.mounted)
  ∧ ∃ this' store',
      @TimelineSliderControl.addTimelines Examples.host [0; 1; 0]%nat
        Examples.mounted Examples.store = Some (this', store')
      ∧ is_Some (TimelineSliderControl._timeSlider this')
      ∧ TimelineSliderControl.timelines Examples.mounted `prefix_of`
          TimelineSliderControl.timelines this'
      ∧ (∀ t, t ∈ TimelineSliderControl.timelines this'
              ↔ t ∈ TimelineSliderControl.timelines Examples.mounted
                ∨ t ∈ [0; 1; 0]%nat)
      ∧ NoDup (TimelineSliderControl.timelines this').
Proof.
  assert (Hsl : TimelineSliderControl._timeSlider Examples.mounted
                = Some Scenarios.mounted_slider) by (vm_compute; reflexivity).
  assert (Hnd : NoDup (TimelineSliderControl.timelines Examples.mounted))
    by (vm_compute; constructor).
  split; [exact Hsl|]. split; [exact Hnd|].
  exact (@addTimelines_set Examples.host [0; 1; 0]%nat Examples.mounted
           Examples.store Scenarios.mounted_slider Hsl Hnd).
Defined.

(** X4 on the mounted control that has the timelines [0] and [1]
    registered: the timeline [1] is removed and [0] stays. *)
Lemma removeTimelines_set_witness :
  TimelineSliderControl._timeSlider Scenarios.registered.1
  = Some Scenarios.registered_slider
  ∧ NoDup (TimelineSliderControl.timelines Scenarios.registered.1)
  ∧ TimelineSliderControl.timelines Scenarios.registered.1 = [0; 1]%nat
  ∧ ∃ this' store',
      @TimelineSliderControl.removeTimelines Examples.host [1%nat]
        Scenarios.registered.1 Scenarios.registered.2 = Some (this', store')
      ∧ is_Some (TimelineSliderControl._timeSlider this')
      ∧ TimelineSliderControl.timelines this'
        = filter (fun t => t ∉ [1%nat])
            (TimelineSliderControl.timelines Scenarios.registered.1)
      ∧ TimelineSliderControl.timelines this' = [0%nat].
Proof.
  assert (Hsl : TimelineSliderControl._timeSlider Scenarios.registered.1
                = Some Scenarios.registered_slider) by (vm_compute; reflexivity).
  assert (Htl : TimelineSliderControl.timelines Scenarios.registered.1 = [0; 1]%nat)
    by (vm_compute; reflexivity).
  assert (Hnd : NoDup (TimelineSliderControl.timelines Scenarios.registered.1)).
  { apply (bool_decide_unpack _). vm_compute. exact I. }
  split; [exact Hsl|]. split; [exact Hnd|]. split; [exact Htl|].
  destruct (@removeTimelines_set Examples.host [1%nat] Scenarios.registered.1
              Scenarios.registered.2 Scenarios.registered_slider Hsl Hnd)
    as (this' & store' & Hr & Hs & Ht).
  exists this', store'. split; [exact Hr|]. split; [exact Hs|]. split; [exact Ht|].
  rewrite Ht, Htl. vm_compute. reflexivity.
Defined.

(** X5 on the mounted control and the timelines [0] and [1]. *)
Lemma add_then_remove_witness :
  ∃ this1 store1 this2 store2,
    @TimelineSliderControl.addTimelines Examples.host [0; 1]%nat
      Examples.mounted Examples.store = Some (this1, store1)
    ∧ @TimelineSliderControl.removeTimelines Examples.host [0; 1]%nat
        this1 store1 = Some (this2, store2)
    ∧ TimelineSliderControl.timelines this2
      = TimelineSliderControl.timelines Examples.mounted.
Proof.
  assert (Hsl : TimelineSliderControl._timeSlider Examples.mounted
                = Some Scenarios.mounted_slider) by (vm_compute; reflexivity).
  assert (Hnd : NoDup (TimelineSliderControl.timelines Examples.mounted))
    by (vm_compute; constructor).
  assert (Hnew : ∀ t, t ∈ [0; 1]%nat →
            t ∉ TimelineSliderControl.timelines Examples.mounted).
  { intros t _. vm_compute. intros Hin. inversion Hin. }
  exact (@add_then_remove Examples.host [0; 1]%nat Examples.mounted
           Examples.store Scenarios.mounted_slider Hsl Hnd Hnew).
Defined.

(** X6 on the control without options before it is added to the map. *)
Lemma addTimelines_without_slider_witness :
  @TimelineSliderControl.addTimelines Examples.host [0%nat]
    Scenarios.unmounted Examples.store = None.
Proof.
  apply (@addTimelines_without_slider Examples.host [0%nat]
           Scenarios.unmounted Examples.store).
  - reflexivity.
  - vm_compute. discriminate.
  - left. vm_compute. reflexivity.
Defined.

(** X7 on the control with pinned bounds and no ticks before it is added
    to the map. *)
Lemma addTimelines_pinned_without_slider_witness :
  ∃ this' store',
    @TimelineSliderControl.addTimelines Examples.host [0%nat]
      Scenarios.pinned_unmounted Examples.store = Some (this', store')
    ∧ TimelineSliderControl._timeSlider this' = None
    ∧ TimelineSliderControl.start this'
      = TimelineSliderControl.start Scenarios.pinned_unmounted
    ∧ TimelineSliderControl.end_ this'
      = TimelineSliderControl.end_ Scenarios.pinned_unmounted
    ∧ TimelineSliderControl.timeStart this'
      = Some (TimelineSliderControl.start Scenarios.pinned_unmounted)
    ∧ TimelineSliderControl.timeEnd this'
      = Some (TimelineSliderControl.end_ Scenarios.pinned_unmounted)
    ∧ (∀ t, t ∈ TimelineSliderControl.timelines this' ↔
            t ∈ TimelineSliderControl.timelines Scenarios.pinned_unmounted
            ∨ t ∈ [0%nat])
    ∧ (∀ t, t ∈ TimelineSliderControl.timelines this' →
            Timeline.timeStart (store' t)
            = TimelineSliderControl.start Scenarios.pinned_unmounted
            ∧ Timeline.timeEnd (store' t)
              = TimelineSliderControl.end_ Scenarios.pinned_unmounted).
Proof.
  apply (@addTimelines_pinned_without_slider Examples.host [0%nat]
           Scenarios.pinned_unmounted Examples.store).
  - reflexivity.
  - vm_compute. reflexivity.
  - vm_compute. reflexivity.
  - vm_compute. reflexivity.
  - vm_compute. discriminate.
Defined.

(** X8 on the control with the domain pinned to [0, 10] that lists the
    timeline [0]. *)
Lemma onAdd_mounts_witness :
  TimelineSliderControl.start Scenarios.pinned_listed = Fin 0
  ∧ TimelineSliderControl.end_ Scenarios.pinned_listed = Fin 10
  ∧ 0 < 10
  ∧ ∃ this' store' slider,
      @TimelineSliderControl.onAdd Examples.host Scenarios.pinned_listed
        Examples.store = Some (this', store')
      ∧ TimelineSliderControl._timeSlider this' = Some slider
      ∧ Slider.range_min slider = Fin 0
      ∧ Slider.range_max slider = Fin 10
      ∧ Slider.handlers slider = Scenarios.registered_handlers
      ∧ TimelineSliderControl.timeStart this' = Some (Fin 0)
      ∧ TimelineSliderControl.timeEnd this' = Some (Fin 10)
      ∧ Timeline.timeStart (store' 0%nat) = Fin 0
      ∧ Timeline.timeEnd (store' 0%nat) = Fin 10.
Proof.
  assert (H1 : TimelineSliderControl.start Scenarios.pinned_listed = Fin 0)
    by (vm_compute; reflexivity).
  assert (H2 : TimelineSliderControl.end_ Scenarios.pinned_listed = Fin 10)
    by (vm_compute; reflexivity).
  assert (H3 : 0 < 10) by lia.
  split; [exact H1|]. split; [exact H2|]. split; [exact H3|].
  destruct (@onAdd_mounts Examples.host Scenarios.pinned_listed Examples.store
              0 10 H1 H2 H3)
    as (this' & store' & slider & Hr & Hs & Hmin & Hmax & Hh & _ & _ & _ & _ & _
        & Hts & Hte & Hreg & _).
  exists this', store', slider.
  split; [exact Hr|]. split; [exact Hs|]. split; [exact Hmin|].
  split; [exact Hmax|]. split; [exact Hh|]. split; [exact Hts|].
  split; [exact Hte|]. apply Hreg. change (0%nat ∈ [0%nat]). constructor.
Defined.

(** X26 on the same control. *)
Lemma onRemove_keeps_update_callback_witness :
  TimelineSliderControl.start Scenarios.pinned_listed = Fin 0
  ∧ TimelineSliderControl.end_ Scenarios.pinned_listed = Fin 10
  ∧ 0 < 10
  ∧ ∃ this1 store1 this2 slider2,
      @TimelineSliderControl.onAdd Examples.host Scenarios.pinned_listed
        Examples.store = Some (this1, store1)
      ∧ TimelineSliderControl.onRemove this1 = Some this2
      ∧ TimelineSliderControl._timeSlider this2 = Some slider2
      ∧ Slider.handlers slider2 = [("update", CallSliderChanged)].
Proof.
  assert (H1 : TimelineSliderControl.start Scenarios.pinned_listed = Fin 0)
    by (vm_compute; reflexivity).
  assert (H2 : TimelineSliderControl.end_ Scenarios.pinned_listed = Fin 10)
    by (vm_compute; reflexivity).
  assert (H3 : 0 < 10) by lia.
  split; [exact H1|]. split; [exact H2|]. split; [exact H3|].
  destruct (proj1 (@onRemove_keeps_update_callback Examples.host
                     Scenarios.pinned_listed Examples.store 0 10 H1 H2 H3))
    as (this1 & store1 & slider1 & this2 & slider2 & Hadd & _ & Hrem & Hs2 & Hh & _).
  exists this1, store1, this2, slider2. split_and!; assumption.
Defined.

(** X9 on the control that waits to update the map and lists the
    timelines [0] and [1]: an event of the type [input] reaches no
    timeline, [setTime] and the slider's callback reach the timeline
    [0]. *)
Lemma sliderChanged_reaches_timelines_witness :
  TimelineSliderControl.waitToUpdateMap Scenarios.waiting = true
  ∧ "input" ≠ "change"
  ∧ (@TimelineSliderControl._sliderChanged Examples.host "input" (Fin 6) (Fin 6)
       Scenarios.waiting Examples.store).2 = Examples.store
  ∧ TimelineSliderControl.timeStart
      (@TimelineSliderControl._sliderChanged Examples.host "input" (Fin 6) (Fin 6)
         Scenarios.waiting Examples.store).1 = Some (Fin 6)
  ∧ Timeline.timeStart
      ((@TimelineSliderControl.setTime Examples.host (Fin 6) (Fin 6)
          Scenarios.waiting Examples.store).2 0%nat) = Fin 6
  ∧ Timeline.timeEnd
      ((@TimelineSliderControl.call Examples.host CallSliderChanged (Fin 6, Fin 6)
          Scenarios.waiting Examples.store).2 0%nat) = Fin 6.
Proof.
  assert (H1 : TimelineSliderControl.waitToUpdateMap Scenarios.waiting = true)
    by (vm_compute; reflexivity).
  assert (H2 : "input" ≠ "change") by discriminate.
  assert (H3 : 0%nat ∈ TimelineSliderControl.timelines Scenarios.waiting).
  { change (0%nat ∈ [0; 1]%nat). constructor. }
  destruct (@sliderChanged_reaches_timelines Examples.host "input" (Fin 6) (Fin 6)
              Scenarios.waiting Examples.store)
    as (Hts & _ & _ & Hwait & _ & [Hset _] & [Hcall _]).
  split; [exact H1|]. split; [exact H2|]. split; [exact (Hwait H1 H2)|].
  split; [exact Hts|]. split.
  - exact (proj1 (Hset 0%nat H3)).
  - exact (proj2 (Hcall 0%nat H3)).
Defined.

(** X10 on the control with two timelines listed: the selection [6, 6]
    reaches the timeline [0]. *)
Lemma setTime_displays_witness :
  Timeline.ranges
    ((@TimelineSliderControl.setTime Examples.host (Fin 6) (Fin 6)
        Scenarios.listed Examples.store).2 0%nat)
  = Timeline.ranges (Examples.store 0%nat)
  ∧ Timeline.timeStart
      ((@TimelineSliderControl.setTime Examples.host (Fin 6) (Fin 6)
          Scenarios.listed Examples.store).2 0%nat) = Fin 6
  ∧ Timeline.timeEnd
      ((@TimelineSliderControl.setTime Examples.host (Fin 6) (Fin 6)
          Scenarios.listed Examples.store).2 0%nat) = Fin 6
  ∧ (if Timeline.draws (Examples.store 0%nat)
     then displayed
            ((@TimelineSliderControl.setTime Examples.host (Fin 6) (Fin 6)
                Scenarios.listed Examples.store).2 0%nat)
          ≡ₚ IntervalTree.overlap (Fin 6) (Fin 6)
               (Timeline.ranges (Examples.store 0%nat))
     else Timeline.layers
            ((@TimelineSliderControl.setTime Examples.host (Fin 6) (Fin 6)
                Scenarios.listed Examples.store).2 0%nat)
          = Timeline.layers (Examples.store 0%nat)).
Proof.
  apply (@setTime_displays Examples.host (Fin 6) (Fin 6) Scenarios.listed
           Examples.store 0%nat).
  change (0%nat ∈ [0; 1]%nat). constructor.
Defined.

(** X12 on the timeline that displays the features [0] and [1] while its
    selection [0, 4] overlaps feature [0] only. *)
Lemma update_is_the_difference_witness :
  NoDup (displayed Scenarios.shown)
  ∧ NoDup (IntervalTree.overlap (Timeline.timeStart Scenarios.shown)
             (Timeline.timeEnd Scenarios.shown) (Timeline.ranges Scenarios.shown))
  ∧ Timeline.trace (Timeline.updateDisplayedLayers Scenarios.shown)
    = Timeline.trace Scenarios.shown
      ++ (RemoveLayer <$>
            filter (fun layer => LayerGroup.feature layer ∉
                      IntervalTree.overlap (Timeline.timeStart Scenarios.shown)
                        (Timeline.timeEnd Scenarios.shown)
                        (Timeline.ranges Scenarios.shown))
              (Timeline.getLayers Scenarios.shown))
      ++ (AddData <$>
            filter (fun f => f ∉ displayed Scenarios.shown)
              (IntervalTree.overlap (Timeline.timeStart Scenarios.shown)
                 (Timeline.timeEnd Scenarios.shown)
                 (Timeline.ranges Scenarios.shown))).
Proof.
  assert (H1 : NoDup (displayed Scenarios.shown)).
  { apply (bool_decide_unpack _). vm_compute. exact I. }
  assert (H2 : NoDup (IntervalTree.overlap (Timeline.timeStart Scenarios.shown)
                        (Timeline.timeEnd Scenarios.shown)
                        (Timeline.ranges Scenarios.shown))).
  { apply (bool_decide_unpack _). vm_compute. exact I. }
  split; [exact H1|]. split; [exact H2|].
  exact (update_is_the_difference Scenarios.shown H1 H2).
Defined.

(** X13 on the same timeline: the layer of feature [0] stays. *)
Lemma update_keeps_layer_witness :
  LayerGroup.mkLayer 0%nat 0%nat ∈ Timeline.getLayers Scenarios.shown
  ∧ LayerGroup.mkLayer 0%nat 0%nat
      ∈ Timeline.getLayers (Timeline.updateDisplayedLayers Scenarios.shown)
  ∧ (RemoveLayer (LayerGroup.mkLayer 0%nat 0%nat) ∉
       drop (length (Timeline.trace Scenarios.shown))
         (Timeline.trace (Timeline.updateDisplayedLayers Scenarios.shown)))
  ∧ (AddData (LayerGroup.feature (LayerGroup.mkLayer 0%nat 0%nat)) ∉
       drop (length (Timeline.trace Scenarios.shown))
         (Timeline.trace (Timeline.updateDisplayedLayers Scenarios.shown))).
Proof.
  assert (H1 : NoDup (displayed Scenarios.shown)).
  { apply (bool_decide_unpack _). vm_compute. exact I. }
  assert (H2 : NoDup (IntervalTree.overlap (Timeline.timeStart Scenarios.shown)
                        (Timeline.timeEnd Scenarios.shown)
                        (Timeline.ranges Scenarios.shown))).
  { apply (bool_decide_unpack _). vm_compute. exact I. }
  assert (H3 : LayerGroup.mkLayer 0%nat 0%nat ∈ Timeline.getLayers Scenarios.shown).
  { vm_compute. repeat constructor. }
  assert (H4 : LayerGroup.feature (LayerGroup.mkLayer 0%nat 0%nat)
               ∈ IntervalTree.overlap (Timeline.timeStart Scenarios.shown)
                   (Timeline.timeEnd Scenarios.shown)
                   (Timeline.ranges Scenarios.shown)).
  { vm_compute. repeat constructor. }
  split; [exact H3|].
  exact (update_keeps_layer Scenarios.shown (LayerGroup.mkLayer 0%nat 0%nat) H1 H2 H3 H4).
Defined.

(** The intervals of the example data have numbers as starts and ends. *)
Lemma data_numeric :
  @numeric_intervals Examples.host
    (@Timeline.initialize Examples.host Scenarios.data TimelineOptions.none)
    Scenarios.data.
Proof.
  intros f iv Hf Hiv. unfold Scenarios.data in Hf.
  repeat (apply elem_of_cons in Hf as [->|Hf]);
    [vm_compute in Hiv; injection Hiv as <-; split; discriminate..
    |vm_compute in Hiv; discriminate
    |inversion Hf].
Defined.

(** X14 on the timeline of the example data, whose bounds are not pinned,
    and on the timeline of the feature whose start is no date. *)
Lemma unpinned_bounds_witness :
  @numeric_intervals Examples.host
    (@Timeline.initialize Examples.host Scenarios.data TimelineOptions.none)
    Scenarios.data
  ∧ (∀ s e f,
       (s, e, f) ∈ Timeline.ranges
                    (@Timeline.initialize Examples.host Scenarios.data TimelineOptions.none) →
       le (Timeline.start
             (@Timeline.initialize Examples.host Scenarios.data TimelineOptions.none)) s)
  ∧ (∀ s e f,
       (s, e, f) ∈ Timeline.ranges
                    (@Timeline.initialize Examples.host Scenarios.data TimelineOptions.none) →
       le e (Timeline.end_
               (@Timeline.initialize Examples.host Scenarios.data TimelineOptions.none)))
  ∧ (∃ e f, (NaN, e, f) ∈ Timeline.ranges
                            (@Timeline.initialize Examples.host [6]%nat
                               TimelineOptions.none))
  ∧ Timeline.start (@Timeline.initialize Examples.host [6]%nat TimelineOptions.none)
    = NaN.
Proof.
  destruct (@unpinned_bounds Examples.host Scenarios.data TimelineOptions.none)
    as (_ & _ & Hs & He).
  destruct (@unpinned_bounds Examples.host [6]%nat TimelineOptions.none)
    as (_ & _ & Hnan & _).
  assert (Hin : ∃ e f, (NaN, e, f) ∈ Timeline.ranges
                         (@Timeline.initialize Examples.host [6]%nat
                            TimelineOptions.none)).
  { exists (Fin 1), 6%nat. vm_compute. constructor. }
  split; [exact data_numeric|]. split; [|split; [|split]].
  - exact (proj1 (proj1 (Hs eq_refl) data_numeric)).
  - exact (proj1 (proj1 (He eq_refl) data_numeric)).
  - exact Hin.
  - exact (proj2 (Hnan eq_refl) Hin).
Defined.

(** X15 on the example data: feature [0], from 0 to 10, is displayed; the
    timeline of the feature whose start is no date displays nothing. *)
Lemma first_update_shows_witness :
  @numeric_intervals Examples.host
    (@Timeline.initialize Examples.host Scenarios.data TimelineOptions.none)
    Scenarios.data
  ∧ (Fin 0, Fin 10, 0%nat)
      ∈ Timeline.ranges
          (@Timeline.initialize Examples.host Scenarios.data TimelineOptions.none)
  ∧ le (Fin 0) (Fin 10)
  ∧ 0%nat ∈ displayed
              (Timeline.updateDisplayedLayers
                 (@Timeline.initialize Examples.host Scenarios.data TimelineOptions.none))
  ∧ (∃ s e f, (s, e, f) ∈ Timeline.ranges
                            (@Timeline.initialize Examples.host [6]%nat
                               TimelineOptions.none)
              ∧ (s = NaN ∨ e = NaN))
  ∧ displayed
      (Timeline.updateDisplayedLayers
         (@Timeline.initialize Examples.host [6]%nat TimelineOptions.none)) = [].
Proof.
  assert (H1 : (Fin 0, Fin 10, 0%nat)
                 ∈ Timeline.ranges
                     (@Timeline.initialize Examples.host Scenarios.data
                        TimelineOptions.none)).
  { vm_compute. repeat constructor. }
  assert (H2 : le (Fin 0) (Fin 10)) by (vm_compute; reflexivity).
  assert (H3 : ∃ s e f, (s, e, f) ∈ Timeline.ranges
                          (@Timeline.initialize Examples.host [6]%nat
                             TimelineOptions.none)
                        ∧ (s = NaN ∨ e = NaN)).
  { exists NaN, (Fin 1), 6%nat. split; [vm_compute; constructor|by left]. }
  split; [exact data_numeric|]. split; [exact H1|]. split; [exact H2|].
  split; [|split; [exact H3|]].
  - exact (proj1 (@first_update_shows Examples.host Scenarios.data
                    TimelineOptions.none eq_refl eq_refl)
             data_numeric (Fin 0) (Fin 10) 0%nat H1 H2).
  - exact (proj2 (@first_update_shows Examples.host [6]%nat
                    TimelineOptions.none eq_refl eq_refl) H3).
Defined.

(** X16 on the example data: feature [0] is displayed after an update of
    the timeline whose selection was moved, and it is indexed. *)
Lemma displayed_are_indexed_witness :
  Timeline.ranges Scenarios.shown
  = Timeline.ranges
      (@Timeline.initialize Examples.host Scenarios.data TimelineOptions.none)
  ∧ 0%nat ∈ displayed (Timeline.updateDisplayedLayers Scenarios.shown)
  ∧ 0%nat ∈ Scenarios.data
  ∧ is_Some (@Timeline._getInterval Examples.host
               (@Timeline.initialize Examples.host Scenarios.data TimelineOptions.none)
               0%nat).
Proof.
  assert (H1 : Timeline.ranges Scenarios.shown
               = Timeline.ranges
                   (@Timeline.initialize Examples.host Scenarios.data
                      TimelineOptions.none)) by (vm_compute; reflexivity).
  assert (H2 : 0%nat ∈ displayed (Timeline.updateDisplayedLayers Scenarios.shown)).
  { vm_compute. repeat constructor. }
  split; [exact H1|]. split; [exact H2|].
  exact (@displayed_are_indexed Examples.host Scenarios.data TimelineOptions.none
           Scenarios.shown 0%nat H1 H2).
Defined.

(** X17 on the example data: feature [0] has both keys. *)
Lemma default_extraction_witness :
  (Fin 0, Fin 10, 0%nat)
    ∈ Timeline.ranges
        (@Timeline.initialize Examples.host Scenarios.data TimelineOptions.none)
  ↔ 0%nat ∈ Scenarios.data
    ∧ ∃ p vs ve, @properties Examples.host 0%nat = Some p
        ∧ Properties.start p = Some vs ∧ Properties.end_ p = Some ve
        ∧ Fin 0 = @Date_getTime Examples.host vs
        ∧ Fin 10 = @Date_getTime Examples.host ve.
Proof.
  exact (@default_extraction Examples.host Scenarios.data TimelineOptions.none
           (Fin 0) (Fin 10) 0%nat eq_refl).
Defined.

(** X18 on the example data, which lists no feature twice. *)
Lemma no_feature_twice_witness :
  NoDup Scenarios.data
  ∧ NoDup (IntervalTree.overlap (Fin 6) (Fin 6)
             (Timeline.ranges
                (@Timeline.initialize Examples.host Scenarios.data
                   TimelineOptions.none)))
  ∧ NoDup (displayed (Timeline.updateDisplayedLayers Scenarios.shown)).
Proof.
  assert (H1 : NoDup Scenarios.data).
  { apply (bool_decide_unpack _). vm_compute. exact I. }
  assert (H2 : Timeline.ranges Scenarios.shown
               = Timeline.ranges
                   (@Timeline.initialize Examples.host Scenarios.data
                      TimelineOptions.none)) by (vm_compute; reflexivity).
  split; [exact H1|].
  exact (@no_feature_twice Examples.host Scenarios.data TimelineOptions.none
           Scenarios.shown (Fin 6) (Fin 6) H1 H2).
Defined.

(** X20 on the times 10, 20, 30. *)
Lemma nearestEventTime_listed_witness :
  TimelineSliderControl._getTimes Examples.with_three_times.1
    Examples.with_three_times.2 ≠ []
  ∧ ∃ r, TimelineSliderControl._nearestEventTime Examples.with_three_times.1
           Examples.with_three_times.2 (Fin 5) 1 = Some r
         ∧ r ∈ TimelineSliderControl._getTimes Examples.with_three_times.1
                 Examples.with_three_times.2.
Proof.
  assert (Hne : TimelineSliderControl._getTimes Examples.with_three_times.1
                  Examples.with_three_times.2 ≠ []) by (vm_compute; discriminate).
  split; [exact Hne|].
  exact (nearestEventTime_listed Examples.with_three_times.1
           Examples.with_three_times.2 (Fin 5) 1 Hne).
Defined.

(** X21 on the times 10, 20, 30: forward from 5. *)
Lemma nearestEventTime_before_first_time_witness :
  TimelineSliderControl._getTimes Examples.with_three_times.1
    Examples.with_three_times.2 = [Fin 10; Fin 20; Fin 30]
  ∧ lt (Fin 5) (Fin 10)
  ∧ TimelineSliderControl._nearestEventTime Examples.with_three_times.1
      Examples.with_three_times.2 (Fin 5) 1 = Some (Fin 20).
Proof.
  assert (H1 : TimelineSliderControl._getTimes Examples.with_three_times.1
                 Examples.with_three_times.2 = [Fin 10; Fin 20; Fin 30])
    by (vm_compute; reflexivity).
  assert (H2 : (1 : Z) ≠ -1) by lia.
  assert (H3 : lt (Fin 5) (Fin 10)) by (vm_compute; reflexivity).
  split; [exact H1|]. split; [exact H3|].
  exact (nearestEventTime_before_first_time Examples.with_three_times.1
           Examples.with_three_times.2 (Fin 5) 1 (Fin 10) (Fin 20) [Fin 30]
           H1 H2 H3).
Defined.

(** X22 on the control that lists the timelines [0], [1] and the one that
    lists [1], [0], [1]. *)
Lemma merged_times_order_witness :
  TimelineSliderControl._getTimes Scenarios.listed Examples.store
  = TimelineSliderControl._getTimes Scenarios.listed_reversed Examples.store.
Proof.
  apply (merged_times_order Scenarios.listed Scenarios.listed_reversed Examples.store).
  - reflexivity.
  - reflexivity.
  - intros t. change (t ∈ [0; 1]%nat ↔ t ∈ [1; 0; 1]%nat).
    rewrite !elem_of_cons. rewrite !elem_of_nil. tauto.
Defined.

(** X23 on the control whose only timeline is that of the features [0]
    and [1]. *)
Lemma merged_times_single_witness :
  StronglySorted lt (Timeline.times (Examples.store 0%nat))
  ∧ TimelineSliderControl._getTimes
      (TimelineSliderControl.set_timelines [0%nat] Scenarios.listed) Examples.store
    = filter (TimelineSliderControl.in_range
                (TimelineSliderControl.set_timelines [0%nat] Scenarios.listed))
        (Timeline.times (Examples.store 0%nat)).
Proof.
  assert (Hs : StronglySorted lt (Timeline.times (Examples.store 0%nat))).
  { vm_compute. repeat constructor. }
  split; [exact Hs|].
  exact (merged_times_single
           (TimelineSliderControl.set_timelines [0%nat] Scenarios.listed)
           Examples.store 0%nat eq_refl Hs).
Defined.

(** X25 on the mounted control with two timelines listed. *)
Lemma recalculate_bounds_witness :
  TimelineSliderControl._timeSlider Scenarios.listed = Some Scenarios.mounted_slider
  ∧ ∃ this' slider',
      TimelineSliderControl._recalculate Scenarios.listed Examples.store = Some this'
      ∧ TimelineSliderControl._timeSlider this' = Some slider'
      ∧ TimelineSliderControl.start this' = Fin 0
      ∧ TimelineSliderControl.end_ this' = Fin 30
      ∧ Slider.range_min slider' = Fin 0
      ∧ Slider.range_max slider' = Fin 30.
Proof.
  assert (Hsl : TimelineSliderControl._timeSlider Scenarios.listed
                = Some Scenarios.mounted_slider) by (vm_compute; reflexivity).
  split; [exact Hsl|].
  destruct (recalculate_bounds Scenarios.listed Examples.store
              Scenarios.mounted_slider Hsl)
    as (this' & slider' & Hr & Hs & _).
  exists this', slider'. split; [exact Hr|]. split; [exact Hs|].
  assert (Hc : TimelineSliderControl._recalculate Scenarios.listed Examples.store
               = Some (TimelineSliderControl.mk
                         (TimelineSliderControl.options Scenarios.listed)
                         [0; 1]%nat (Fin 0) (Fin 30) (Some (Fin 0)) (Some (Fin 0))
                         None
                         (Some (Slider.mk (Fin 0) (Fin 30) (Some [])
                                  [(Some (Fin 0), Some (Fin 0));
                                   (Some (Fin 0), Some (Fin 0));
                                   (Some (Fin 0), None)]
                                  Scenarios.registered_handlers))))
    by (vm_compute; reflexivity).
  rewrite Hc in Hr. injection Hr as <-. cbn in Hs. injection Hs as <-.
  cbn. split_and!; reflexivity.
Defined.
